(** * Currency normalisation and reporting engine of the Worklio API

    A shallow embedding of
    - the [exchange_rates] table and its statements
      (db/migrations/..._create_exchange_rates_table.sql, db/queries/exchange_rates.sql),
    - the exchange-rate service (package services: [GetExchangeRate],
      [UpdateAllRates], [ConvertAmount]),
    - the statistics handlers that aggregate amounts in the user's currency
      (package handlers: [GetDashboardStats], [GetInvoiceStats],
      [GetTimeEntriesStats] with [getFilteredTimeEntriesWithStats]),
    - the handlers around them: [ConvertCurrency], the recent items of the
      dashboard ([GetRecentTimeEntries], [GetRecentInvoices]) and the list of
      time entries ([GetTimeEntries] with [filterTimeEntries]).

    How the program is modelled:
    - Go's [float64] is IEEE 754 binary64, which is Rocq's primitive [float]:
      the model computes with the arithmetic of the program;
    - a call that returns [(value, error)] returns a pair with an
      [option error], or a [result] when the value is only used without error;
    - code that uses [*db.Queries] is a state monad over the table, the
      statements sent to it, and the failures of the driver;
    - the functions of the Go standard library are parameters ([Runtime]);
      [goruntime.go] is an instance that computes, for the scenarios;
    - the reply of a handler is the call of c.JSON that it ends in; what the
      client receives for it, 500 when the body holds a NaN or an infinity,
      is given by [echo];
    - log lines are not modelled. *)

From Stdlib Require Import ZArith List Bool Ascii String Lia Floats.
From stdpp Require Import base option list strings gmap.
Import ListNotations.

#[local] Open Scope Z_scope.
#[local] Open Scope string_scope.
#[local] Open Scope list_scope.

(** ** Values of the Go runtime *)

(** [float64]. *)
Abbreviation float64 := float (only parsing).

(** [time.Time], as nanoseconds since the epoch. *)
Definition Time : Type := Z.

(** [sql.NullString]. *)
Record NullString : Type := mkNullString { String_ : string; Valid : bool }.

(** Go [error] values that the modelled code creates, wraps or compares. *)
Inductive error : Type :=
| ErrNoRows                              (* sql.ErrNoRows *)
| ErrDriver (msg : string)               (* any other error of database/sql: lost connection,
                                            constraint violation, context deadline exceeded *)
| ErrHTTP (msg : string)                 (* error of http.Get *)
| ErrJSON (msg : string)                 (* error of json.Decoder.Decode *)
| ErrSyntax                              (* strconv.ErrSyntax, inside a *NumError *)
| ErrRange                               (* strconv.ErrRange, inside a *NumError *)
| ErrorNew (msg : string)                (* fmt.Errorf without a wrapped error *)
| ErrorStatus (code : Z)                 (* fmt.Errorf("API returned status %d", code) *)
| Errorf (msg : string) (wrapped : error) (* fmt.Errorf("...: %w", err) *).

(** ** The exchange_rates table *)

(** One row of [exchange_rates]; [Rate] is the text of the DECIMAL(20,10)
    column, as sqlc hands it to Go. *)
Record ExchangeRate : Type := mkExchangeRate {
  ID : Z;
  BaseCurrency : string;
  TargetCurrency : string;
  Rate : string;
  UpdatedAt : Time
}.

(** The table: its rows in storage order and the next value of the SERIAL
    sequence behind [id]. *)
Record Table : Type := mkTable {
  rows : list ExchangeRate;
  next_id : Z
}.

(** CREATE TABLE IF NOT EXISTS exchange_rates (...) on a fresh database. *)
Definition create_table : Table := {| rows := []; next_id := 1 |}.

(** [WHERE base_currency = $1 AND target_currency = $2], also the conflict
    test of the UNIQUE(base_currency, target_currency) constraint. *)
Definition same_pair (b t : string) (r : ExchangeRate) : bool :=
  String.eqb (BaseCurrency r) b && String.eqb (TargetCurrency r) t.

(** -- name: GetExchangeRate :one *)
Definition sql_GetExchangeRate (b t : string) (tbl : Table) : option ExchangeRate :=
  find (same_pair b t) (rows tbl).

(** [DO UPDATE SET rate = $3, updated_at = NOW()] on the conflicting row. *)
Definition do_update (b t rate : string) (now : Time) (r : ExchangeRate) : ExchangeRate :=
  if same_pair b t r
  then {| ID := ID r; BaseCurrency := BaseCurrency r; TargetCurrency := TargetCurrency r;
          Rate := rate; UpdatedAt := now |}
  else r.

(** -- name: UpsertExchangeRate :exec
    INSERT ... VALUES ($1, $2, $3, NOW()) ON CONFLICT (base_currency,
    target_currency) DO UPDATE SET rate = $3, updated_at = NOW().
    The sequence advances whether or not the insert conflicts. *)
Definition sql_UpsertExchangeRate (now : Time) (b t rate : string) (tbl : Table) : Table :=
  if existsb (same_pair b t) (rows tbl)
  then {| rows := map (do_update b t rate now) (rows tbl); next_id := next_id tbl + 1 |}
  else {| rows := rows tbl ++ [ {| ID := next_id tbl; BaseCurrency := b; TargetCurrency := t;
                                   Rate := rate; UpdatedAt := now |} ];
          next_id := next_id tbl + 1 |}.

(** -- name: GetAllExchangeRates :many   (ORDER BY base_currency, target_currency)
    is a read used by tools only; the service never calls it. *)

(** -- name: DeleteOldExchangeRates :exec *)
Definition sql_DeleteOldExchangeRates (cutoff : Time) (tbl : Table) : Table :=
  {| rows := List.filter (fun r => negb (UpdatedAt r <? cutoff)%Z) (rows tbl);
     next_id := next_id tbl |}.

(** The statements that write the table, and the tables they can produce
    from the empty one. *)
Inductive Mutation : Type :=
| WUpsert (now : Time) (b t rate : string)
| WDeleteOld (cutoff : Time).

Definition exec (w : Mutation) (tbl : Table) : Table :=
  match w with
  | WUpsert now b t rate => sql_UpsertExchangeRate now b t rate tbl
  | WDeleteOld cutoff => sql_DeleteOldExchangeRates cutoff tbl
  end.

Definition run (ws : list Mutation) (tbl : Table) : Table :=
  fold_left (fun acc w => exec w acc) ws tbl.

(** The rows stored for a pair. *)
Definition rows_for (b t : string) (tbl : Table) : list ExchangeRate :=
  List.filter (same_pair b t) (rows tbl).

(** The pair of a row, the key of the uniqueness constraint. *)
Definition pair_of (r : ExchangeRate) : string * string :=
  (BaseCurrency r, TargetCurrency r).

(** UNIQUE(base_currency, target_currency). *)
Definition unique_pairs (tbl : Table) : Prop := NoDup (map pair_of (rows tbl)).

(** ** What the program takes from the Go standard library

    These functions are not code of the repository; the model is
    parametric in them. *)
Class Runtime : Type := mkRuntime {
  (** [strconv.ParseFloat(s, 64)]: the value and the error, as Go returns both. *)
  strconv_ParseFloat : string -> float * option error;
  (** [fmt.Sprintf("%.10f", x)]. *)
  fmt_Sprintf_10f : float -> string;
  (** [time.Parse("2006-01-02", s)]; [None] when it returns an error. *)
  time_Parse : string -> option Time;
  (** [time.Date(t.Year(), t.Month(), t.Day(), 0, 0, 0, 0, t.Location())]. *)
  startOfDay : Time -> Time;
  (** [time.Date(t.Year(), t.Month(), t.Day(), 23, 59, 59, 999999999, t.Location())]. *)
  endOfDay : Time -> Time;
  (** [time.Date(t.Year(), t.Month(), 1, 0, 0, 0, 0, t.Location())]. *)
  startOfMonth : Time -> Time;
  (** [int(t.Weekday())], Sunday is 0. *)
  Weekday : Time -> Z;
  (** [t.AddDate(years, months, days)]. *)
  AddDate : Time -> Z -> Z -> Z -> Time
}.

(** A Go call that returns [(value, error)] and whose value is only used
    when the error is nil. *)
Inductive result (A : Type) : Type :=
| Ok (a : A)
| Err (e : error).
Arguments Ok {A} a.
Arguments Err {A} e.

(** ** package db: the sqlc query handle *)
Module db.

(** Rows of the other tables. The generated package internal/db is not among
the sources; a row type lists the columns that the handlers read, which the
queries of db/queries select. *)
Record GetUserByIDRow : Type := mkUser {
  user_Currency : NullString
}.

Record GetTimeEntriesByUserIDRow : Type := mkTimeEntry {
  entry_ID : Z;
  entry_ClientID : Z;
  entry_Date : Time;
  entry_Hours : string;
  entry_HourlyRate : NullString
}.

Record GetClientsByUserIDRow : Type := mkClient {
  client_ID : Z;
  client_Name : string;
  client_Currency : string;
  client_HourlyRate : NullString
}.

Record Invoice : Type := mkInvoice {
  invoice_ID : Z;
  invoice_ClientID : Z;
  invoice_InvoiceNumber : string;
  invoice_IssueDate : Time;
  invoice_Status : string
}.

Record GetInvoiceTimeEntriesRow : Type := mkInvoiceEntry {
  ientry_ID : Z;
  ientry_Hours : string;
  ientry_HourlyRate : NullString
}.

(** A statement sent to [exchange_rates]. *)
Inductive Stmt : Type :=
| SelectRate (b t : string)
| UpsertRate (b t rate : string).

(** [*db.Queries] together with the database behind it.
    - [exchange_rates] is the table, [statements] the statements sent to
      it so far (oldest first), [now] the value of NOW() for the n-th of them;
    - [select_error] and [upsert_error] are the failures of the driver
      (a lost connection, a value that does not fit its column, a context
      past its deadline); they are a function of the statement, so that a
      lookup is a function of the store;
    - the remaining fields are the answers to the read-only queries of the
      other tables. *)
Record Queries : Type := mkQueries {
  exchange_rates : Table;
  statements : list Stmt;
  now : nat -> Time;
  select_error : string -> string -> option string;
  upsert_error : string -> string -> option string;
  GetUserByID : Z -> result GetUserByIDRow;
  GetTimeEntriesByUserID : Z -> result (list GetTimeEntriesByUserIDRow);
  GetClientsByUserID : Z -> result (list GetClientsByUserIDRow);
  GetInvoicesByUserID : Z -> result (list Invoice);
  GetInvoiceTimeEntries : Z -> result (list GetInvoiceTimeEntriesRow)
}.

(** The state after one more statement, which leaves the table as [tbl]. *)
Definition sent (s : Stmt) (tbl : Table) (q : Queries) : Queries :=
  {| exchange_rates := tbl;
     statements := statements q ++ [s];
     now := now q;
     select_error := select_error q;
     upsert_error := upsert_error q;
     GetUserByID := GetUserByID q;
     GetTimeEntriesByUserID := GetTimeEntriesByUserID q;
     GetClientsByUserID := GetClientsByUserID q;
     GetInvoicesByUserID := GetInvoicesByUserID q;
     GetInvoiceTimeEntries := GetInvoiceTimeEntries q |}.

(** Code that talks to the database: a state monad over [Queries]. *)
Definition DB (A : Type) : Type := Queries -> A * Queries.

Definition ret {A : Type} (a : A) : DB A := fun q => (a, q).

Definition bind {A B : Type} (m : DB A) (k : A -> DB B) : DB B :=
  fun q => let (a, q') := m q in k a q'.

(** [func (q *Queries) GetExchangeRate(ctx, arg) (ExchangeRate, error)]. *)
Definition GetExchangeRate (BaseCurrency TargetCurrency : string) : DB (result ExchangeRate) :=
  fun q =>
    let q' := sent (SelectRate BaseCurrency TargetCurrency) (exchange_rates q) q in
    match select_error q BaseCurrency TargetCurrency with
    | Some msg => (Err (ErrDriver msg), q')
    | None =>
        match sql_GetExchangeRate BaseCurrency TargetCurrency (exchange_rates q) with
        | Some row => (Ok row, q')
        | None => (Err ErrNoRows, q')
        end
    end.

(** [func (q *Queries) UpsertExchangeRate(ctx, arg) error]. *)
Definition UpsertExchangeRate (BaseCurrency TargetCurrency Rate : string) : DB (option error) :=
  fun q =>
    let s := UpsertRate BaseCurrency TargetCurrency Rate in
    match upsert_error q BaseCurrency TargetCurrency with
    | Some msg => (Some (ErrDriver msg), sent s (exchange_rates q) q)
    | None =>
        (None,
         sent s (sql_UpsertExchangeRate (now q (length (statements q)))
                   BaseCurrency TargetCurrency Rate (exchange_rates q)) q)
    end.

End db.

Notation "'do' x <- c ; k" := (db.bind c (fun x => k))
(at level 10, x name, c at level 100, k at level 200).
Notation "'do' ' pat <- c ; k" := (db.bind c (fun x => match x with pat => k end))
(at level 10, pat pattern, c at level 100, k at level 200).

(** ** package services: the exchange-rate service *)
Module services.
Section WithRuntime.
Context `{Runtime}.

(** Supported currencies list *)
Definition SupportedCurrencies : list string :=
  [ "USD"; "EUR"; "GBP"; "JPY"; "AUD";
    "CAD"; "CHF"; "CNY"; "SEK"; "NZD";
    "IDR"; "SGD"; "INR" ].

(** GetExchangeRate gets a single exchange rate from database or API *)
Definition GetExchangeRate (baseCurrency targetCurrency : string)
  : db.DB (float * option error) :=
  if String.eqb baseCurrency targetCurrency then db.ret (1%float, None)
  else
    do r <- db.GetExchangeRate baseCurrency targetCurrency;
    match r with
    | Ok rateRow =>
        let '(rate, parseErr) := strconv_ParseFloat (Rate rateRow) in
        match parseErr with
        | Some e => db.ret (0%float, Some (Errorf "failed to parse exchange rate" e))
        | None => db.ret (rate, None)
        end
    | Err ErrNoRows =>
        db.ret (0%float, Some (ErrorNew "exchange rate not available, please run update job"))
    | Err err =>
        db.ret (0%float, Some (Errorf "failed to query exchange rate" err))
    end.

(** The anonymous struct [apiResp] that the body is decoded into; a JSON
    body without a "rates" object leaves the map nil. *)
Record apiResp : Type := mkApiResp {
  Base : string;
  Date : string;
  Rates : option (gmap string float)
}.

(** [*http.Response]: the status code and what
    [json.NewDecoder(resp.Body).Decode(&apiResp)] makes of the body. *)
Record Response : Type := mkResponse {
  StatusCode : Z;
  Decode : result apiResp
}.

(** How a call ends: it returns its [error] (nil or not), or it panics. *)
Inductive completion : Type :=
| Returns (err : option error)
| Panics (msg : string).

(** The loop [for _, targetCurrency := range SupportedCurrencies] of
    UpdateAllRates, from any point of the list on; it stops at the first
    upsert that fails. *)
Fixpoint updateRates (Rates : gmap string float) (currencies : list string)
    (updatedCount : Z) : db.DB (option error * Z) :=
  match currencies with
  | [] => db.ret (None, updatedCount)
  | targetCurrency :: rest =>
      match Rates !! targetCurrency with
      | None => updateRates Rates rest updatedCount
      | Some rate =>
          do err <- db.UpsertExchangeRate "USD" targetCurrency (fmt_Sprintf_10f rate);
          match err with
          | Some e => db.ret (Some (Errorf "failed to update rate" e), updatedCount)
          | None => updateRates Rates rest (updatedCount + 1)
          end
      end
  end.

(** UpdateAllRates fetches and updates all exchange rates from the API.
    [get] is what [http.Get(url)] returns in this cycle. *)
Definition UpdateAllRates (get : result Response) : db.DB completion :=
  match get with
  | Err err => db.ret (Returns (Some (Errorf "failed to fetch exchange rates" err)))
  | Ok resp =>
      if negb (StatusCode resp =? 200)%Z
      then db.ret (Returns (Some (ErrorStatus (StatusCode resp))))
      else
        match Decode resp with
        | Err err => db.ret (Returns (Some (Errorf "failed to decode API response" err)))
        | Ok body =>
            match Rates body with
            | None => db.ret (Panics "assignment to entry in nil map")
            | Some rates =>
                (* Add USD rate (base currency) *)
                let rates := <["USD" := 1%float]> rates in
                do ' (err, updatedCount) <- updateRates rates SupportedCurrencies 0;
                db.ret (Returns err)
            end
        end
  end.

(** ConvertAmount converts an amount from one currency to another *)
Definition ConvertAmount (amount : float) (fromCurrency toCurrency : string)
  : db.DB (float * option error) :=
  if String.eqb fromCurrency toCurrency then db.ret (amount, None)
  else
    do ' (rate, err) <- GetExchangeRate "USD" toCurrency;
    match err with
    | Some e => db.ret (0%float, Some e)
    | None =>
        do ' (fromRate, err) <- GetExchangeRate "USD" fromCurrency;
        match err with
        | Some e => db.ret (0%float, Some e)
        | None =>
            (* Convert: amount in fromCurrency -> USD -> toCurrency *)
            let usdAmount := (amount / fromRate)%float in
            let convertedAmount := (usdAmount * rate)%float in
            db.ret (convertedAmount, None)
        end
    end.

End WithRuntime.
End services.

(** ** package handlers: the statistics handlers *)
Module handlers.
Section WithRuntime.
Context `{Runtime}.

(** What a handler reads from its [echo.Context]. *)
Record Context : Type := mkContext {
  user_id : Z;                      (* c.Get("user_id").(int32) *)
  QueryParam : string -> string     (* c.QueryParam(name), "" when absent *)
}.

(** [c.JSON(status, models.ErrorResponse{Error: msg})] or
    [c.JSON(http.StatusOK, body)]: the call that the handler ends in, with
    the body it hands to echo. What the client receives for it is
    [echo.answered], below. *)
Inductive Reply (A : Type) : Type :=
| JSONError (status : Z) (Error : string)
| JSONOK (body : A).
Arguments JSONError {A} status Error.
Arguments JSONOK {A} body.

(** A read-only query of another table. *)
Definition query {A B : Type} (f : db.Queries -> A -> result B) (a : A) : db.DB (result B) :=
  fun q => (f q a, q).

(** [t.Before(u)] and [t.After(u)]. *)
Definition Before (t u : Time) : bool := (t <? u)%Z.
Definition After (t u : Time) : bool := (u <? t)%Z.

(** [user.Currency], "USD" when the column is NULL. *)
Definition userCurrencyOf (user : db.GetUserByIDRow) : string :=
  if Valid (db.user_Currency user) then String_ (db.user_Currency user) else "USD".

(** The lines that the three handlers repeat before they aggregate
    (GetDashboardStats, GetInvoiceStats, getFilteredTimeEntriesWithStats). *)

(** Create clients map *)
Definition clientsMapOf (clients : list db.GetClientsByUserIDRow)
  : gmap Z db.GetClientsByUserIDRow :=
  fold_left (fun clientsMap client => <[db.client_ID client := client]> clientsMap) clients ∅.

(** Get unique currencies needed for conversion *)
Definition currenciesNeededOf (userCurrency : string)
    (clients : list db.GetClientsByUserIDRow) : gset string :=
  fold_left (fun currenciesNeeded client =>
               if negb (String.eqb (db.client_Currency client) userCurrency)
               then {[ db.client_Currency client ]} ∪ currenciesNeeded
               else currenciesNeeded) clients ∅.

(** Fetch conversion rates: [for currency := range currenciesNeeded], over
    the keys in the order the loop meets them. Go ranges over a map in an
    order that changes from run to run; the handlers below pass the keys in
    the order of [elements]. The rates fetched are the same for every order
    (lemma fetchConversionRates_order); only the order of the selects in the
    statement log follows the order of the keys. *)
Fixpoint fetchConversionRates (userCurrency : string) (currencies : list string)
    (conversionRates : gmap string float) : db.DB (gmap string float) :=
  match currencies with
  | [] => db.ret conversionRates
  | currency :: rest =>
      do ' (convertedAmount, err) <- services.ConvertAmount 1%float currency userCurrency;
      match err with
      | Some _ =>
          (* Fallback to 1:1 if conversion fails *)
          fetchConversionRates userCurrency rest (<[currency := 1%float]> conversionRates)
      | None =>
          fetchConversionRates userCurrency rest (<[currency := convertedAmount]> conversionRates)
      end
  end.

(** [hours * hourlyRate] summed over the time entries of an invoice. *)
Definition invoiceTotalOf (invoiceTimeEntries : list db.GetInvoiceTimeEntriesRow) : float :=
  fold_left (fun invoiceTotal entry =>
               let hours := fst (strconv_ParseFloat (db.ientry_Hours entry)) in
               let hourlyRate := fst (strconv_ParseFloat (String_ (db.ientry_HourlyRate entry))) in
               (invoiceTotal + hours * hourlyRate)%float)
            invoiceTimeEntries 0%float.

(** *** GetDashboardStats *)

(** DashboardStatsResponse represents the response for dashboard stats *)
Record DashboardStatsResponse : Type := mkDashboardStats {
  TotalHours : float;
  TotalRevenue : float;
  UnpaidInvoices : float;
  PaidInvoices : float
}.

(** A date query parameter: absent, or parsed, or ([None]) rejected. *)
Definition dateParam (s : string) : option (option Time) :=
  if String.eqb s "" then Some None
  else match time_Parse s with
       | Some parsed => Some (Some parsed)
       | None => None
       end.

(** Apply date filter: is [d] outside the requested range? *)
Definition filteredOut (fromDate toDate : option Time) (d : Time) : bool :=
  match fromDate with
  | Some f => if Before d f then true
              else match toDate with Some t => After d t | None => false end
  | None => match toDate with Some t => After d t | None => false end
  end.

(** One round of the loop that calculates total hours and revenue. *)
Definition dashboardEntry (userCurrency : string) (fromDate toDate : option Time)
    (clientsMap : gmap Z db.GetClientsByUserIDRow) (conversionRates : gmap string float)
    (totals : float * float) (entry : db.GetTimeEntriesByUserIDRow) : float * float :=
  let '(totalHours, totalRevenue) := totals in
  if filteredOut fromDate toDate (db.entry_Date entry) then totals
  else
    let hours := fst (strconv_ParseFloat (db.entry_Hours entry)) in
    let totalHours := (totalHours + hours)%float in
    (* Calculate revenue with currency conversion *)
    match clientsMap !! db.entry_ClientID entry with
    | Some client =>
        let hourlyRate := fst (strconv_ParseFloat (String_ (db.client_HourlyRate client))) in
        let entryAmount := (hours * hourlyRate)%float in
        let clientCurrency := db.client_Currency client in
        if negb (String.eqb clientCurrency userCurrency) then
          match conversionRates !! clientCurrency with
          | Some rate => (totalHours, (totalRevenue + entryAmount * rate)%float)
          | None => (totalHours, (totalRevenue + entryAmount)%float)
          end
        else (totalHours, (totalRevenue + entryAmount)%float)
    | None => (totalHours, totalRevenue)
    end.

(** One round of the loop that calculates unpaid and paid invoices. *)
Definition dashboardInvoice (userCurrency : string) (fromDate toDate : option Time)
    (clientsMap : gmap Z db.GetClientsByUserIDRow) (conversionRates : gmap string float)
    (GetInvoiceTimeEntries : Z -> result (list db.GetInvoiceTimeEntriesRow))
    (totals : float * float) (invoice : db.Invoice) : float * float :=
  let '(unpaidInvoices, paidInvoices) := totals in
  if filteredOut fromDate toDate (db.invoice_IssueDate invoice) then totals
  else
    match GetInvoiceTimeEntries (db.invoice_ID invoice) with
    | Err _ => totals
    | Ok invoiceTimeEntries =>
        let invoiceTotal := invoiceTotalOf invoiceTimeEntries in
        match clientsMap !! db.invoice_ClientID invoice with
        | None => totals
        | Some client =>
            let clientCurrency := db.client_Currency client in
            let convertedAmount :=
              if negb (String.eqb clientCurrency userCurrency) then
                match conversionRates !! clientCurrency with
                | Some rate => (invoiceTotal * rate)%float
                | None => invoiceTotal
                end
              else invoiceTotal in
            if String.eqb (db.invoice_Status invoice) "sent"
               || String.eqb (db.invoice_Status invoice) "overdue"
            then ((unpaidInvoices + convertedAmount)%float, paidInvoices)
            else if String.eqb (db.invoice_Status invoice) "paid"
            then (unpaidInvoices, (paidInvoices + convertedAmount)%float)
            else totals
        end
    end.

(** GetDashboardStats: calculated dashboard statistics with currency conversion. *)
Definition GetDashboardStats (c : Context) : db.DB (Reply DashboardStatsResponse) :=
  let userID := user_id c in
  (* Get user's currency preference *)
  do user <- query db.GetUserByID userID;
  match user with
  | Err _ => db.ret (JSONError 500 "Failed to get user info")
  | Ok user =>
  let userCurrency := userCurrencyOf user in
  (* Parse date range filters *)
  match dateParam (QueryParam c "from") with
  | None => db.ret (JSONError 400 "Invalid from date format. Use YYYY-MM-DD")
  | Some fromDate =>
  match dateParam (QueryParam c "to") with
  | None => db.ret (JSONError 400 "Invalid to date format. Use YYYY-MM-DD")
  | Some parsed =>
  (* Set to end of day *)
  let toDate := option_map endOfDay parsed in
  do timeEntries <- query db.GetTimeEntriesByUserID userID;
  match timeEntries with
  | Err _ => db.ret (JSONError 500 "Failed to get time entries")
  | Ok timeEntries =>
  do clients <- query db.GetClientsByUserID userID;
  match clients with
  | Err _ => db.ret (JSONError 500 "Failed to get clients")
  | Ok clients =>
  let clientsMap := clientsMapOf clients in
  let currenciesNeeded := currenciesNeededOf userCurrency clients in
  do conversionRates <- fetchConversionRates userCurrency (elements currenciesNeeded) ∅;
  let '(totalHours, totalRevenue) :=
    fold_left (dashboardEntry userCurrency fromDate toDate clientsMap conversionRates)
              timeEntries (0%float, 0%float) in
  do invoices <- query db.GetInvoicesByUserID userID;
  match invoices with
  | Err _ => db.ret (JSONError 500 "Failed to get invoices")
  | Ok invoices =>
  do invoiceTimeEntries <- (fun q => (db.GetInvoiceTimeEntries q, q));
  let '(unpaidInvoices, paidInvoices) :=
    fold_left (dashboardInvoice userCurrency fromDate toDate clientsMap conversionRates
                 invoiceTimeEntries)
              invoices (0%float, 0%float) in
  db.ret (JSONOK {| TotalHours := totalHours;
                    TotalRevenue := totalRevenue;
                    UnpaidInvoices := unpaidInvoices;
                    PaidInvoices := paidInvoices |})
  end end end end end end.

(** *** GetInvoiceStats *)

(** [models.TimeEntryResponse], without the columns that are only copied
    or formatted (user id, dates, description). *)
Record TimeEntryResponse : Type := mkTimeEntryResponse {
  te_ID : Z;
  te_ClientName : string;
  te_ClientCurrency : string;
  te_Hours : float;
  te_HourlyRate : float
}.

(** [models.InvoiceResponse], without the columns that are only copied or
    formatted (user id, dates, notes). *)
Record InvoiceResponse : Type := mkInvoiceResponse {
  ir_ID : Z;
  ir_ClientID : Z;
  ir_ClientName : string;
  ir_ClientCurrency : string;
  ir_InvoiceNumber : string;
  ir_Status : string;
  ir_TimeEntries : list TimeEntryResponse;
  ir_TotalHours : float;
  ir_TotalAmount : float
}.

(** InvoiceStatsResponse represents the response for invoice stats *)
Record InvoiceStatsResponse : Type := mkInvoiceStats {
  Invoices : list InvoiceResponse;
  TotalInvoices : Z;
  TotalAmount : float;
  PaidAmount : float;
  UnpaidAmount : float
}.

(** The local variables that the invoice loop updates. *)
Record invoiceAcc : Type := mkInvoiceAcc {
  totalAmount : float;
  paidAmount : float;
  unpaidAmount : float;
  invoiceResponses : list InvoiceResponse
}.

(** Convert time entries to response format *)
Definition invoiceEntryResponse (entry : db.GetInvoiceTimeEntriesRow) : TimeEntryResponse :=
  {| te_ID := db.ientry_ID entry;
     te_ClientName := "";
     te_ClientCurrency := "";
     te_Hours := fst (strconv_ParseFloat (db.ientry_Hours entry));
     te_HourlyRate := fst (strconv_ParseFloat (String_ (db.ientry_HourlyRate entry))) |}.

Definition invoiceHoursOf (timeEntries : list db.GetInvoiceTimeEntriesRow) : float :=
  fold_left (fun totalHours entry =>
               (totalHours + fst (strconv_ParseFloat (db.ientry_Hours entry)))%float)
            timeEntries 0%float.

(** One round of [for _, invoice := range invoices] in GetInvoiceStats. *)
Definition invoiceStatsStep (statusFilter userCurrency : string)
    (clientsMap : gmap Z db.GetClientsByUserIDRow) (conversionRates : gmap string float)
    (GetInvoiceTimeEntries : Z -> result (list db.GetInvoiceTimeEntriesRow))
    (acc : invoiceAcc) (invoice : db.Invoice) : invoiceAcc :=
  (* Get time entries for this invoice *)
  match GetInvoiceTimeEntries (db.invoice_ID invoice) with
  | Err _ => acc
  | Ok timeEntries =>
      let timeEntryResponses := map invoiceEntryResponse timeEntries in
      let totalHours := invoiceHoursOf timeEntries in
      let invoiceTotal := invoiceTotalOf timeEntries in
      (* Get client info *)
      let '(clientName, clientCurrency) :=
        match clientsMap !! db.invoice_ClientID invoice with
        | Some client => (db.client_Name client, db.client_Currency client)
        | None => ("Unknown", "USD")
        end in
      (* Convert to user currency for totals *)
      let convertedAmount :=
        if negb (String.eqb clientCurrency userCurrency) then
          match conversionRates !! clientCurrency with
          | Some rate => (invoiceTotal * rate)%float
          | None => invoiceTotal
          end
        else invoiceTotal in
      (* Always calculate totals for ALL invoices (regardless of filter) *)
      let totalAmount' := (totalAmount acc + convertedAmount)%float in
      let paidAmount' :=
        if String.eqb (db.invoice_Status invoice) "paid"
        then (paidAmount acc + convertedAmount)%float else paidAmount acc in
      let unpaidAmount' :=
        if String.eqb (db.invoice_Status invoice) "paid" then unpaidAmount acc
        else if String.eqb (db.invoice_Status invoice) "sent"
                || String.eqb (db.invoice_Status invoice) "overdue"
             then (unpaidAmount acc + convertedAmount)%float else unpaidAmount acc in
      (* Filter by status for the invoice list only *)
      if negb (String.eqb statusFilter "all")
         && negb (String.eqb (db.invoice_Status invoice) statusFilter)
      then {| totalAmount := totalAmount'; paidAmount := paidAmount';
              unpaidAmount := unpaidAmount'; invoiceResponses := invoiceResponses acc |}
      else
        let invoiceResponse :=
          {| ir_ID := db.invoice_ID invoice;
             ir_ClientID := db.invoice_ClientID invoice;
             ir_ClientName := clientName;
             ir_ClientCurrency := clientCurrency;
             ir_InvoiceNumber := db.invoice_InvoiceNumber invoice;
             ir_Status := db.invoice_Status invoice;
             ir_TimeEntries := timeEntryResponses;
             ir_TotalHours := totalHours;
             ir_TotalAmount := invoiceTotal |} in
        {| totalAmount := totalAmount'; paidAmount := paidAmount';
           unpaidAmount := unpaidAmount';
           invoiceResponses := invoiceResponses acc ++ [invoiceResponse] |}
  end.

(** GetInvoiceStats: all invoices with calculated totals in user's currency. *)
Definition GetInvoiceStats (c : Context) : db.DB (Reply InvoiceStatsResponse) :=
  let userID := user_id c in
  let statusFilter :=
    if String.eqb (QueryParam c "status") "" then "all" else QueryParam c "status" in
  (* Get user's currency preference *)
  do user <- query db.GetUserByID userID;
  match user with
  | Err _ => db.ret (JSONError 500 "Failed to get user info")
  | Ok user =>
  let userCurrency := userCurrencyOf user in
  (* Get all invoices *)
  do invoices <- query db.GetInvoicesByUserID userID;
  match invoices with
  | Err _ => db.ret (JSONError 500 "Failed to get invoices")
  | Ok invoices =>
  (* Get clients for currency conversion *)
  do clients <- query db.GetClientsByUserID userID;
  match clients with
  | Err _ => db.ret (JSONError 500 "Failed to get clients")
  | Ok clients =>
  let clientsMap := clientsMapOf clients in
  let currenciesNeeded := currenciesNeededOf userCurrency clients in
  do conversionRates <- fetchConversionRates userCurrency (elements currenciesNeeded) ∅;
  do invoiceTimeEntries <- (fun q => (db.GetInvoiceTimeEntries q, q));
  let acc :=
    fold_left (invoiceStatsStep statusFilter userCurrency clientsMap conversionRates
                 invoiceTimeEntries)
              invoices
              {| totalAmount := 0%float; paidAmount := 0%float; unpaidAmount := 0%float;
                 invoiceResponses := [] |} in
  db.ret (JSONOK {| Invoices := invoiceResponses acc;
                    TotalInvoices := Z.of_nat (length (invoiceResponses acc));
                    TotalAmount := totalAmount acc;
                    PaidAmount := paidAmount acc;
                    UnpaidAmount := unpaidAmount acc |})
  end end end.

(** *** GetTimeEntriesStats *)

(** [models.TimeEntriesWithStatsResponse]. *)
Record TimeEntriesWithStatsResponse : Type := mkTimeEntriesWithStats {
  Entries : list TimeEntryResponse;
  ts_TotalHours : float;
  ts_TotalRevenue : float
}.

(** Calculate date range based on view mode *)
Definition viewRange (viewMode : string) (currentDate : Time) : Time * Time :=
  if String.eqb viewMode "daily" then (startOfDay currentDate, endOfDay currentDate)
  else if String.eqb viewMode "weekly" then
    (* Start week on Monday *)
    let day := Weekday currentDate in
    let daysToSubtract := if (day =? 0)%Z then 6 else day - 1 in
    let startDate := startOfDay (AddDate currentDate 0 0 (- daysToSubtract)) in
    (startDate, endOfDay (AddDate startDate 0 0 6))
  else
    (* Monthly *)
    let startDate := startOfMonth currentDate in
    (startDate, AddDate startDate 0 1 0 - 1).

(** The local variables that the time-entry loop updates. *)
Record entryAcc : Type := mkEntryAcc {
  filteredEntries : list TimeEntryResponse;
  acc_totalHours : float;
  acc_totalRevenue : float
}.

(** One round of [for _, entry := range timeEntries] in
    getFilteredTimeEntriesWithStats. *)
Definition timeEntryStep (userCurrency : string) (startDate endDate : Time)
    (clientsMap : gmap Z db.GetClientsByUserIDRow) (conversionRates : gmap string float)
    (acc : entryAcc) (entry : db.GetTimeEntriesByUserIDRow) : entryAcc :=
  (* Apply date filter *)
  if Before (db.entry_Date entry) startDate || After (db.entry_Date entry) endDate then acc
  else
    let hours := fst (strconv_ParseFloat (db.entry_Hours entry)) in
    let totalHours := (acc_totalHours acc + hours)%float in
    let entryResponse clientName clientCurrency :=
      {| te_ID := db.entry_ID entry;
         te_ClientName := clientName;
         te_ClientCurrency := clientCurrency;
         te_Hours := hours;
         te_HourlyRate := fst (strconv_ParseFloat (String_ (db.entry_HourlyRate entry))) |} in
    match clientsMap !! db.entry_ClientID entry with
    | Some client =>
        let hourlyRate := fst (strconv_ParseFloat (String_ (db.client_HourlyRate client))) in
        let clientCurrency := db.client_Currency client in
        (* Calculate revenue with currency conversion *)
        let entryAmount := (hours * hourlyRate)%float in
        let totalRevenue :=
          if negb (String.eqb clientCurrency userCurrency) then
            match conversionRates !! clientCurrency with
            | Some rate => (acc_totalRevenue acc + entryAmount * rate)%float
            | None => (acc_totalRevenue acc + entryAmount)%float
            end
          else (acc_totalRevenue acc + entryAmount)%float in
        {| filteredEntries :=
             filteredEntries acc ++ [entryResponse (db.client_Name client) clientCurrency];
           acc_totalHours := totalHours;
           acc_totalRevenue := totalRevenue |}
    | None =>
        {| filteredEntries := filteredEntries acc ++ [entryResponse "Unknown" userCurrency];
           acc_totalHours := totalHours;
           acc_totalRevenue := acc_totalRevenue acc |}
    end.

Definition getFilteredTimeEntriesWithStats (userID : Z) (viewMode dateStr : string)
  : db.DB (Reply TimeEntriesWithStatsResponse) :=
  (* Validate view mode *)
  if negb (String.eqb viewMode "daily") && negb (String.eqb viewMode "weekly")
     && negb (String.eqb viewMode "monthly")
  then db.ret (JSONError 400 "view_mode must be daily, weekly, or monthly")
  else
  (* Parse date *)
  match time_Parse dateStr with
  | None => db.ret (JSONError 400 "Invalid date format. Use YYYY-MM-DD")
  | Some currentDate =>
  (* Get user's currency preference *)
  do user <- query db.GetUserByID userID;
  match user with
  | Err _ => db.ret (JSONError 500 "Failed to get user info")
  | Ok user =>
  let userCurrency := userCurrencyOf user in
  let '(startDate, endDate) := viewRange viewMode currentDate in
  (* Get all time entries *)
  do timeEntries <- query db.GetTimeEntriesByUserID userID;
  match timeEntries with
  | Err _ => db.ret (JSONError 500 "Failed to get time entries")
  | Ok timeEntries =>
  (* Get clients for currency conversion and names *)
  do clients <- query db.GetClientsByUserID userID;
  match clients with
  | Err _ => db.ret (JSONError 500 "Failed to get clients")
  | Ok clients =>
  let clientsMap := clientsMapOf clients in
  let currenciesNeeded := currenciesNeededOf userCurrency clients in
  do conversionRates <- fetchConversionRates userCurrency (elements currenciesNeeded) ∅;
  let acc :=
    fold_left (timeEntryStep userCurrency startDate endDate clientsMap conversionRates)
              timeEntries
              {| filteredEntries := []; acc_totalHours := 0%float;
                 acc_totalRevenue := 0%float |} in
  db.ret (JSONOK {| Entries := filteredEntries acc;
                    ts_TotalHours := acc_totalHours acc;
                    ts_TotalRevenue := acc_totalRevenue acc |})
  end end end end.

Definition GetTimeEntriesStats (c : Context) : db.DB (Reply TimeEntriesWithStatsResponse) :=
  let userID := user_id c in
  let viewMode := QueryParam c "view_mode" in
  let dateStr := QueryParam c "date" in
  if String.eqb viewMode "" || String.eqb dateStr ""
  then db.ret (JSONError 400 "view_mode and date parameters are required")
  else getFilteredTimeEntriesWithStats userID viewMode dateStr.

End WithRuntime.

Arguments JSONError {A} status Error.
Arguments JSONOK {A} body.

End handlers.

(** ** A runtime to run the model on

  An instance of [Runtime] that computes, for the examples. It follows the
  Go standard library on the inputs that occur here: decimal numerals
  without exponent (what a DECIMAL column yields) are converted with
  correct rounding, "%.10f" prints the exact value rounded half-to-even at
  the tenth fractional digit, and dates are days of the proleptic Gregorian
  calendar in UTC. *)
Module goruntime.

(** The binary64 value nearest to [n / d], ties to even. *)
Definition nearest_ratio (neg : bool) (n d : Z) : float :=
  let '(q, e, l) := SFdiv_core_binary prec emax n 0 d 0 in
  SF2Prim (binary_round_aux prec emax neg q e l).

Definition digit_of (c : ascii) : option Z :=
  let n := Z.of_nat (nat_of_ascii c) in
  if (48 <=? n)%Z && (n <=? 57)%Z then Some (n - 48) else None.

(** Reads [digits] or [digits.digits]: the digits as one integer, and the
    count of digits after the point. [any] records that a digit was seen,
    [frac] that the point was passed. *)
Fixpoint read_decimal (s : string) (mant : Z) (scale : Z) (frac any : bool)
  : option (Z * Z) :=
  match s with
  | EmptyString => if any then Some (mant, scale) else None
  | String c rest =>
      match digit_of c with
      | Some d => read_decimal rest (10 * mant + d) (if frac then scale + 1 else scale) frac true
      | None =>
          if Ascii.eqb c "."%char && negb frac then read_decimal rest mant scale true any
          else None
      end
  end.

Definition ParseFloat (s : string) : float * option error :=
  let '(neg, body) :=
    match s with
    | String "-"%char rest => (true, rest)
    | String "+"%char rest => (false, rest)
    | _ => (false, s)
    end in
  match read_decimal body 0 0 false false with
  | None => (0%float, Some ErrSyntax)
  | Some (mant, scale) =>
      let x := if (mant =? 0)%Z then (if neg then (-0)%float else 0%float)
               else nearest_ratio neg mant (10 ^ scale) in
      if PrimFloat.is_infinity x then (x, Some ErrRange) else (x, None)
  end.

(** The decimal digits of a natural number, most significant first. *)
Fixpoint digits_of (fuel : nat) (n : Z) (acc : string) : string :=
  let acc' := String (ascii_of_nat (Z.to_nat (48 + n mod 10))) acc in
  match fuel with
  | O => acc'
  | S fuel' => if (n / 10 =? 0)%Z then acc' else digits_of fuel' (n / 10) acc'
  end.

Definition decimal_of (n : Z) : string := digits_of (Z.to_nat (Z.log2 n)) n "".

(** [n / d] rounded to the nearest integer, ties to even. *)
Definition div_half_even (n d : Z) : Z :=
  let q := (n / d)%Z in
  let r := (n mod d)%Z in
  match (2 * r ?= d)%Z with
  | Lt => q
  | Gt => q + 1
  | Eq => if Z.even q then q else q + 1
  end.

Definition Sprintf_10f (x : float) : string :=
  match Prim2SF x with
  | S754_nan => "NaN"
  | S754_infinity s => if s then "-Inf" else "+Inf"
  | S754_zero s => ((if s then "-" else "") ++ "0.0000000000")%string
  | S754_finite s m e =>
      let scaled :=
        if (0 <=? e)%Z then Zpos m * 2 ^ e * 10 ^ 10
        else div_half_even (Zpos m * 10 ^ 10) (2 ^ (- e)) in
      let whole := (scaled / 10 ^ 10)%Z in
      let fraction := (scaled mod 10 ^ 10)%Z in
      (if s then "-" else "") ++ decimal_of whole ++ "."
        ++ match decimal_of (10 ^ 10 + fraction) with
           | String _ ds => ds
           | EmptyString => ""
           end
  end.

Definition ns_per_day : Z := 86400 * 10 ^ 9.

(** Days from 1970-01-01 to the given civil date. *)
Definition days_from_civil (y m d : Z) : Z :=
  let y' := if (m <=? 2)%Z then y - 1 else y in
  let era := (y' / 400)%Z in
  let yoe := y' - era * 400 in
  let mp := ((m + 9) mod 12)%Z in
  let doy := ((153 * mp + 2) / 5 + d - 1)%Z in
  let doe := (yoe * 365 + yoe / 4 - yoe / 100 + doy)%Z in
  era * 146097 + doe - 719468.

(** The civil date (year, month, day) of a day number. *)
Definition civil_from_days (z : Z) : Z * Z * Z :=
  let z' := z + 719468 in
  let era := (z' / 146097)%Z in
  let doe := z' - era * 146097 in
  let yoe := ((doe - doe / 1460 + doe / 36524 - doe / 146096) / 365)%Z in
  let doy := (doe - (365 * yoe + yoe / 4 - yoe / 100))%Z in
  let mp := ((5 * doy + 2) / 153)%Z in
  let d := (doy - (153 * mp + 2) / 5 + 1)%Z in
  let m := if (mp <? 10)%Z then mp + 3 else mp - 9 in
  let y := yoe + era * 400 in
  (if (m <=? 2)%Z then y + 1 else y, m, d).

Definition days_in_month (y m : Z) : Z :=
  days_from_civil (if (m =? 12)%Z then y + 1 else y) (if (m =? 12)%Z then 1 else m + 1) 1
  - days_from_civil y m 1.

Fixpoint read_digits (n : nat) (s : string) (acc : Z) : option (Z * string) :=
  match n with
  | O => Some (acc, s)
  | S n' =>
      match s with
      | String c rest =>
          match digit_of c with
          | Some d => read_digits n' rest (10 * acc + d)
          | None => None
          end
      | EmptyString => None
      end
  end.

(** time.Parse("2006-01-02", s) *)
Definition Parse (s : string) : option Time :=
  match read_digits 4 s 0 with
  | Some (y, String "-"%char s1) =>
      match read_digits 2 s1 0 with
      | Some (m, String "-"%char s2) =>
          match read_digits 2 s2 0 with
          | Some (d, EmptyString) =>
              if (1 <=? m)%Z && (m <=? 12)%Z && (1 <=? d)%Z && (d <=? days_in_month y m)%Z
              then Some (days_from_civil y m d * ns_per_day)
              else None
          | _ => None
          end
      | _ => None
      end
  | _ => None
  end.

Definition day_of (t : Time) : Z := (t / ns_per_day)%Z.

Definition startOfDay (t : Time) : Time := day_of t * ns_per_day.

Definition endOfDay (t : Time) : Time := day_of t * ns_per_day + (ns_per_day - 1).

Definition startOfMonth (t : Time) : Time :=
  let '(y, m, _) := civil_from_days (day_of t) in
  days_from_civil y m 1 * ns_per_day.

Definition Weekday (t : Time) : Z := ((day_of t + 4) mod 7)%Z.

(** t.AddDate(years, months, days): the date is normalised the way
    time.Date normalises an overflowing month or day. *)
Definition AddDate (t : Time) (years months days : Z) : Time :=
  let '(y, m, d) := civil_from_days (day_of t) in
  let months' := (y + years) * 12 + (m - 1) + months in
  let y' := (months' / 12)%Z in
  let m' := (months' mod 12 + 1)%Z in
  (days_from_civil y' m' 1 + (d - 1) + days) * ns_per_day + (t mod ns_per_day)%Z.

Definition go : Runtime :=
  mkRuntime ParseFloat Sprintf_10f Parse startOfDay endOfDay startOfMonth Weekday AddDate.

End goruntime.

(** ** What echo answers for a call of c.JSON

    A handler ends in [return c.JSON(status, body)]. The values of [Reply]
    above, and of [CurrencyReply] below, are these calls: the status and the
    body that the handler hands to echo. What the client receives is another
    matter, and this module gives it. [c.JSON] encodes the body with
    encoding/json, which refuses a float64 that is NaN or an infinity
    (UnsupportedValueError); the encoder fills a buffer first, so nothing
    has been written when it fails; [c.JSON] returns the error, the handler
    returns it, and echo's DefaultHTTPErrorHandler answers
    500 {"message":"Internal Server Error"}. *)
Module echo.

(** A float64 that encoding/json encodes. *)
Definition encodes (x : float) : bool := PrimFloat.is_finite x.

(** What the client receives: the reply that the handler handed to c.JSON,
    or the 500 of echo's error handler. *)
Inductive Answer (R : Type) : Type :=
| Written (reply : R)
| ServerError.
Arguments Written {R} reply.
Arguments ServerError {R}.

(** [c.JSON(status, body)] for a reply whose body holds the given float64
    values. *)
Definition JSON {R : Type} (floats : list float) (reply : R) : Answer R :=
  if forallb encodes floats then Written reply else ServerError.

(** The float64 fields of the bodies, as encoding/json walks them. *)
Definition dashboardFloats (body : handlers.DashboardStatsResponse) : list float :=
  [ handlers.TotalHours body; handlers.TotalRevenue body;
    handlers.UnpaidInvoices body; handlers.PaidInvoices body ].

Definition entryFloats (entry : handlers.TimeEntryResponse) : list float :=
  [ handlers.te_Hours entry; handlers.te_HourlyRate entry ].

Definition invoiceFloats (invoice : handlers.InvoiceResponse) : list float :=
  flat_map entryFloats (handlers.ir_TimeEntries invoice)
  ++ [ handlers.ir_TotalHours invoice; handlers.ir_TotalAmount invoice ].

Definition invoiceStatsFloats (body : handlers.InvoiceStatsResponse) : list float :=
  flat_map invoiceFloats (handlers.Invoices body)
  ++ [ handlers.TotalAmount body; handlers.PaidAmount body; handlers.UnpaidAmount body ].

Definition timeEntriesFloats (body : handlers.TimeEntriesWithStatsResponse) : list float :=
  flat_map entryFloats (handlers.Entries body)
  ++ [ handlers.ts_TotalHours body; handlers.ts_TotalRevenue body ].

(** What the client receives for the reply of a statistics handler: an
    error body holds a text only. *)
Definition answered {A : Type} (floats : A -> list float) (reply : handlers.Reply A)
  : Answer (handlers.Reply A) :=
  match reply with
  | handlers.JSONError _ _ => Written reply
  | handlers.JSONOK body => JSON (floats body) reply
  end.

End echo.

(** ** package handlers: the currency handler *)
Module handlers_currency.
Section WithRuntime.
Context `{Runtime}.

(** ConvertCurrencyResponse represents a currency conversion response *)
Record ConvertCurrencyResponse : Type := mkConvertCurrencyResponse {
  cc_Amount : float;
  cc_From : string;
  cc_To : string;
  cc_ConvertedAmount : float;
  cc_Rate : float
}.

(** The call that ConvertCurrency ends in: [c.JSON(http.StatusBadRequest,
    map[string]string{"error": msg})], [c.JSON(http.StatusInternalServerError,
    map[string]string{"error": err.Error()})], or
    [c.JSON(http.StatusOK, body)]. What the client receives for it is
    [answered], below. *)
Inductive CurrencyReply : Type :=
| BadRequest (msg : string)
| InternalServerError (err : error)
| StatusOK (body : ConvertCurrencyResponse).

(** ConvertCurrency converts an amount from one currency to another using
    current exchange rates. *)
Definition ConvertCurrency (c : handlers.Context) : db.DB CurrencyReply :=
  let amountStr := handlers.QueryParam c "amount" in
  let from := handlers.QueryParam c "from" in
  let to := handlers.QueryParam c "to" in
  if String.eqb amountStr "" || String.eqb from "" || String.eqb to ""
  then db.ret (BadRequest "Missing required parameters")
  else
    let '(amount, err) := strconv_ParseFloat amountStr in
    match err with
    | Some _ => db.ret (BadRequest "Invalid amount")
    | None =>
        do ' (convertedAmount, err) <- services.ConvertAmount amount from to;
        match err with
        | Some e => db.ret (InternalServerError e)
        | None =>
            (* Calculate the rate *)
            let rate := if (0 <? amount)%float then (convertedAmount / amount)%float
                        else 1%float in
            db.ret (StatusOK {| cc_Amount := amount;
                                cc_From := from;
                                cc_To := to;
                                cc_ConvertedAmount := convertedAmount;
                                cc_Rate := rate |})
        end
    end.

(** What the client receives for a reply of ConvertCurrency. *)
Definition answered (reply : CurrencyReply) : echo.Answer CurrencyReply :=
  match reply with
  | StatusOK body =>
      echo.JSON [cc_Amount body; cc_ConvertedAmount body; cc_Rate body] reply
  | _ => echo.Written reply
  end.

(** The status code that the client receives. *)
Definition status (answer : echo.Answer CurrencyReply) : Z :=
  match answer with
  | echo.Written (BadRequest _) => 400
  | echo.Written (InternalServerError _) => 500
  | echo.Written (StatusOK _) => 200
  | echo.ServerError => 500
  end.

End WithRuntime.
End handlers_currency.

(** ** package handlers: the recent items of the dashboard *)

(** [strconv.Atoi], which only these handlers call: the value and the
    error, as Go returns both. *)
Class Strconv : Type := mkStrconv {
  strconv_Atoi : string -> Z * option error
}.

Module handlers_recent.
Section WithRuntime.
Context `{Runtime} `{Strconv}.

(** Parse limit *)
Definition limitParam (c : handlers.Context) : Z :=
  let limitStr := handlers.QueryParam c "limit" in
  if String.eqb limitStr "" then 5
  else
    let '(parsedLimit, err) := strconv_Atoi limitStr in
    match err with
    | None => if (0 <? parsedLimit)%Z then parsedLimit else 5
    | Some _ => 5
    end.

(** The lines that GetRecentTimeEntries and GetRecentInvoices share, over
    the rows [A] of either with their date. *)
Section Rows.
Context {A : Type} (date : A -> Time).

(** Apply date filter *)
Definition dateFilter (fromDate toDate : option Time) (rows : list A) : list A :=
  List.filter (fun row => negb (handlers.filteredOut fromDate toDate (date row))) rows.

(** [if filtered[j].Date.After(filtered[i].Date) { filtered[i], filtered[j] =
    filtered[j], filtered[i] }]; the bounds of the loops keep both indices
    inside the slice. *)
Definition swapIfAfter (i j : nat) (filtered : list A) : list A :=
  match filtered !! i, filtered !! j with
  | Some x, Some y =>
      if handlers.After (date y) (date x) then <[i := y]> (<[j := x]> filtered) else filtered
  | _, _ => filtered
  end.

(** [for j := i + 1; j < len(filtered); j++] *)
Definition sortInner (i : nat) (filtered : list A) : list A :=
  fold_left (fun filtered j => swapIfAfter i j filtered)
            (seq (S i) (length filtered - S i)) filtered.

(** Sort by date descending: [for i := 0; i < len(filtered); i++] *)
Definition sortByDateDesc (filtered : list A) : list A :=
  fold_left (fun filtered i => sortInner i filtered) (seq 0 (length filtered)) filtered.

(** Limit results *)
Definition limitTo (limit : Z) (filtered : list A) : list A :=
  if (limit <? Z.of_nat (length filtered))%Z then take (Z.to_nat limit) filtered else filtered.

End Rows.

(** RecentTimeEntryResponse represents a time entry with client information,
    without the columns that are only copied or formatted. *)
Record RecentTimeEntryResponse : Type := mkRecentTimeEntry {
  rt_ID : Z;
  rt_ClientID : Z;
  rt_ClientName : string;
  rt_Hours : float;
  rt_HourlyRate : float
}.

(** Create clients map *)
Definition clientNamesOf (clients : list db.GetClientsByUserIDRow) : gmap Z string :=
  fold_left (fun clientsMap client => <[db.client_ID client := db.client_Name client]> clientsMap)
            clients ∅.

(** Convert to response format *)
Definition recentTimeEntry (clientsMap : gmap Z string) (entry : db.GetTimeEntriesByUserIDRow)
  : RecentTimeEntryResponse :=
  {| rt_ID := db.entry_ID entry;
     rt_ClientID := db.entry_ClientID entry;
     rt_ClientName := default "Unknown" (clientsMap !! db.entry_ClientID entry);
     rt_Hours := fst (strconv_ParseFloat (db.entry_Hours entry));
     rt_HourlyRate := fst (strconv_ParseFloat (String_ (db.entry_HourlyRate entry))) |}.

(** GetRecentTimeEntries: recent time entries filtered by date range, sorted
    by date descending. *)
Definition GetRecentTimeEntries (c : handlers.Context)
  : db.DB (handlers.Reply (list RecentTimeEntryResponse)) :=
  let userID := handlers.user_id c in
  (* Parse date range filters *)
  match handlers.dateParam (handlers.QueryParam c "from") with
  | None => db.ret (handlers.JSONError 400 "Invalid from date format. Use YYYY-MM-DD")
  | Some fromDate =>
  match handlers.dateParam (handlers.QueryParam c "to") with
  | None => db.ret (handlers.JSONError 400 "Invalid to date format. Use YYYY-MM-DD")
  | Some parsed =>
  (* Set to end of day *)
  let toDate := option_map endOfDay parsed in
  let limit := limitParam c in
  do timeEntries <- handlers.query db.GetTimeEntriesByUserID userID;
  match timeEntries with
  | Err _ => db.ret (handlers.JSONError 500 "Failed to get time entries")
  | Ok timeEntries =>
  do clients <- handlers.query db.GetClientsByUserID userID;
  match clients with
  | Err _ => db.ret (handlers.JSONError 500 "Failed to get clients")
  | Ok clients =>
  let clientsMap := clientNamesOf clients in
  (* Filter and sort time entries *)
  let filtered := dateFilter db.entry_Date fromDate toDate timeEntries in
  let filtered := sortByDateDesc db.entry_Date filtered in
  let filtered := limitTo limit filtered in
  db.ret (handlers.JSONOK (map (recentTimeEntry clientsMap) filtered))
  end end end end.

(** RecentInvoiceResponse represents an invoice with client information,
    without the columns that are only copied or formatted. *)
Record RecentInvoiceResponse : Type := mkRecentInvoice {
  ri_ID : Z;
  ri_ClientID : Z;
  ri_ClientName : string;
  ri_ClientCurrency : string;
  ri_InvoiceNumber : string;
  ri_Status : string;
  ri_TimeEntries : list handlers.TimeEntryResponse;
  ri_TotalHours : float;
  ri_TotalAmount : float
}.

(** The zero value of RecentInvoiceResponse, which [make] puts in every
    slot of the response. *)
Definition zeroRecentInvoice : RecentInvoiceResponse :=
  {| ri_ID := 0; ri_ClientID := 0; ri_ClientName := ""; ri_ClientCurrency := "";
     ri_InvoiceNumber := ""; ri_Status := ""; ri_TimeEntries := [];
     ri_TotalHours := 0%float; ri_TotalAmount := 0%float |}.

(** Create clients map with name and currency *)
Definition clientInfosOf (clients : list db.GetClientsByUserIDRow) : gmap Z (string * string) :=
  fold_left (fun clientsMap client =>
               <[db.client_ID client := (db.client_Name client, db.client_Currency client)]>
                 clientsMap)
            clients ∅.

(** One round of [for i, invoice := range filtered]: what [response[i]]
    holds after it. *)
Definition recentInvoice (clientsMap : gmap Z (string * string))
    (GetInvoiceTimeEntries : Z -> result (list db.GetInvoiceTimeEntriesRow))
    (invoice : db.Invoice) : RecentInvoiceResponse :=
  (* Get time entries for this invoice *)
  match GetInvoiceTimeEntries (db.invoice_ID invoice) with
  | Err _ => zeroRecentInvoice
  | Ok timeEntries =>
      let timeEntryResponses := map handlers.invoiceEntryResponse timeEntries in
      let totalHours := handlers.invoiceHoursOf timeEntries in
      let totalAmount := handlers.invoiceTotalOf timeEntries in
      (* Get client info *)
      let '(clientName, clientCurrency) :=
        default ("Unknown", "USD") (clientsMap !! db.invoice_ClientID invoice) in
      {| ri_ID := db.invoice_ID invoice;
         ri_ClientID := db.invoice_ClientID invoice;
         ri_ClientName := clientName;
         ri_ClientCurrency := clientCurrency;
         ri_InvoiceNumber := db.invoice_InvoiceNumber invoice;
         ri_Status := db.invoice_Status invoice;
         ri_TimeEntries := timeEntryResponses;
         ri_TotalHours := totalHours;
         ri_TotalAmount := totalAmount |}
  end.

(** GetRecentInvoices: recent invoices filtered by date range, sorted by
    issue date descending. *)
Definition GetRecentInvoices (c : handlers.Context)
  : db.DB (handlers.Reply (list RecentInvoiceResponse)) :=
  let userID := handlers.user_id c in
  (* Parse date range filters *)
  match handlers.dateParam (handlers.QueryParam c "from") with
  | None => db.ret (handlers.JSONError 400 "Invalid from date format. Use YYYY-MM-DD")
  | Some fromDate =>
  match handlers.dateParam (handlers.QueryParam c "to") with
  | None => db.ret (handlers.JSONError 400 "Invalid to date format. Use YYYY-MM-DD")
  | Some parsed =>
  (* Set to end of day *)
  let toDate := option_map endOfDay parsed in
  let limit := limitParam c in
  do invoices <- handlers.query db.GetInvoicesByUserID userID;
  match invoices with
  | Err _ => db.ret (handlers.JSONError 500 "Failed to get invoices")
  | Ok invoices =>
  do clients <- handlers.query db.GetClientsByUserID userID;
  match clients with
  | Err _ => db.ret (handlers.JSONError 500 "Failed to get clients")
  | Ok clients =>
  let clientsMap := clientInfosOf clients in
  (* Filter and sort invoices *)
  let filtered := dateFilter db.invoice_IssueDate fromDate toDate invoices in
  let filtered := sortByDateDesc db.invoice_IssueDate filtered in
  let filtered := limitTo limit filtered in
  do invoiceTimeEntries <- (fun q => (db.GetInvoiceTimeEntries q, q));
  db.ret (handlers.JSONOK (map (recentInvoice clientsMap invoiceTimeEntries) filtered))
  end end end end.

End WithRuntime.
End handlers_recent.

(** ** package handlers: the list of time entries *)
Module handlers_time_entry.
Section WithRuntime.
Context `{Runtime}.

Definition getTimeEntriesByUserIDRowToResponse (entry : db.GetTimeEntriesByUserIDRow)
  : handlers.TimeEntryResponse :=
  {| handlers.te_ID := db.entry_ID entry;
     handlers.te_ClientName := "";
     handlers.te_ClientCurrency := "";
     handlers.te_Hours := fst (strconv_ParseFloat (db.entry_Hours entry));
     handlers.te_HourlyRate := fst (strconv_ParseFloat (String_ (db.entry_HourlyRate entry))) |}.

Definition filterTimeEntries (timeEntries : list db.GetTimeEntriesByUserIDRow)
    (viewMode dateStr : string) : result (list db.GetTimeEntriesByUserIDRow) :=
  (* Validate view mode *)
  if negb (String.eqb viewMode "daily") && negb (String.eqb viewMode "weekly")
     && negb (String.eqb viewMode "monthly")
  then Err (ErrorNew "view_mode must be daily, weekly, or monthly")
  else
    (* Parse date *)
    match time_Parse dateStr with
    | None => Err (ErrorNew "invalid date format. Use YYYY-MM-DD")
    | Some currentDate =>
        (* Calculate date range *)
        let '(startDate, endDate) := handlers.viewRange viewMode currentDate in
        (* Filter entries *)
        Ok (List.filter (fun entry => negb (handlers.Before (db.entry_Date entry) startDate)
                                      && negb (handlers.After (db.entry_Date entry) endDate))
                        timeEntries)
    end.

(** [err.Error()] of an error that fmt.Errorf made from a text alone, the
    only errors that filterTimeEntries returns. *)
Definition errorText (err : error) : string :=
  match err with
  | ErrorNew msg => msg
  | _ => ""
  end.

(** The response of one filtered entry: the client name is set when the
    client is found. *)
Definition namedResponse (clientsMap : gmap Z string) (entry : db.GetTimeEntriesByUserIDRow)
  : handlers.TimeEntryResponse :=
  let response := getTimeEntriesByUserIDRowToResponse entry in
  match clientsMap !! db.entry_ClientID entry with
  | Some clientName =>
      {| handlers.te_ID := handlers.te_ID response;
         handlers.te_ClientName := clientName;
         handlers.te_ClientCurrency := handlers.te_ClientCurrency response;
         handlers.te_Hours := handlers.te_Hours response;
         handlers.te_HourlyRate := handlers.te_HourlyRate response |}
  | None => response
  end.

(** GetTimeEntries: time entries with optional filtering. *)
Definition GetTimeEntries (c : handlers.Context)
  : db.DB (handlers.Reply (list handlers.TimeEntryResponse)) :=
  let userID := handlers.user_id c in
  let viewMode := handlers.QueryParam c "view_mode" in
  let dateStr := handlers.QueryParam c "date" in
  (* Get all time entries first *)
  do timeEntries <- handlers.query db.GetTimeEntriesByUserID userID;
  match timeEntries with
  | Err _ => db.ret (handlers.JSONError 500 "Failed to fetch time entries")
  | Ok timeEntries =>
  (* If no filtering, return all entries *)
  if String.eqb viewMode "" || String.eqb dateStr ""
  then db.ret (handlers.JSONOK (map getTimeEntriesByUserIDRowToResponse timeEntries))
  else
  (* Apply filtering *)
  match filterTimeEntries timeEntries viewMode dateStr with
  | Err err => db.ret (handlers.JSONError 400 (errorText err))
  | Ok filtered =>
  (* Get clients to add client names *)
  do clients <- handlers.query db.GetClientsByUserID userID;
  match clients with
  | Err _ => db.ret (handlers.JSONError 500 "Failed to get clients")
  | Ok clients =>
  let clientsMap := handlers_recent.clientNamesOf clients in
  db.ret (handlers.JSONOK (map (namedResponse clientsMap) filtered))
  end end end.

End WithRuntime.
End handlers_time_entry.

(** ** strconv.Atoi for the examples *)
Module gostrconv.

(** Reads decimal digits as one integer; [any] records that a digit was seen. *)
Fixpoint read_int (s : string) (acc : Z) (any : bool) : option Z :=
  match s with
  | EmptyString => if any then Some acc else None
  | String c rest =>
      match goruntime.digit_of c with
      | Some d => read_int rest (10 * acc + d) true
      | None => None
      end
  end.

(** strconv.Atoi on a 64-bit platform: an optional sign and decimal digits;
    a value that does not fit is clamped and reported as out of range. *)
Definition Atoi (s : string) : Z * option error :=
  let '(neg, body) :=
    match s with
    | String "-"%char rest => (true, rest)
    | String "+"%char rest => (false, rest)
    | _ => (false, s)
    end in
  match read_int body 0 false with
  | None => (0, Some ErrSyntax)
  | Some n =>
      let v := if neg then - n else n in
      if (2 ^ 63 - 1 <? v)%Z then (2 ^ 63 - 1, Some ErrRange)
      else if (v <? - 2 ^ 63)%Z then (- 2 ^ 63, Some ErrRange)
      else (v, None)
  end.

Definition go : Strconv := mkStrconv Atoi.

End gostrconv.

(** * Notions used in the statements *)

Set Warnings "-inexact-float".

Section Notions.
Context `{Runtime}.

(** The store after the statements [l] more were sent to it and left the
    table as it was. *)
Definition logged (l : list db.Stmt) (q : db.Queries) : db.Queries :=
  {| db.exchange_rates := db.exchange_rates q;
     db.statements := db.statements q ++ l;
     db.now := db.now q;
     db.select_error := db.select_error q;
     db.upsert_error := db.upsert_error q;
     db.GetUserByID := db.GetUserByID q;
     db.GetTimeEntriesByUserID := db.GetTimeEntriesByUserID q;
     db.GetClientsByUserID := db.GetClientsByUserID q;
     db.GetInvoicesByUserID := db.GetInvoicesByUserID q;
     db.GetInvoiceTimeEntries := db.GetInvoiceTimeEntries q |}.

(** The outcome of the service's lookup of the rate USD -> c. *)
Definition lookup (q : db.Queries) (c : string) : float * option error :=
  fst (services.GetExchangeRate "USD" c q).

(** The outcome of a conversion. *)
Definition convert (q : db.Queries) (a : float) (from to : string) : float * option error :=
  fst (services.ConvertAmount a from to q).

(** A call returned a non-nil error. *)
Definition failed {A : Type} (r : A * option error) : bool :=
  match snd r with Some _ => true | None => false end.

(** [convert(convert(a, x, "USD"), "USD", y)], as a caller composes the two
    calls: the second is made when the first returned no error. *)
Definition viaUSD (a : float) (x y : string) : db.DB (float * option error) :=
  do ' (usd, err) <- services.ConvertAmount a x "USD";
  match err with
  | Some e => db.ret (0%float, Some e)
  | None => services.ConvertAmount usd "USD" y
  end.

(** Two calls end alike: both fail, or both succeed with the same value. *)
Definition same_outcome (r1 r2 : float * option error) : Prop :=
  match snd r1, snd r2 with
  | None, None => fst r1 = fst r2
  | Some _, Some _ => True
  | _, _ => False
  end.

(** The supported codes that the mapping of a response contains, in the
order in which the refresher meets them. *)
Definition present (rates : gmap string float) (codes : list string) : list string :=
List.filter (fun c => bool_decide (is_Some (rates !! c))) codes.

(** The rate of a code in the mapping (Go's zero value when it is absent). *)
Definition rate_in (rates : gmap string float) (c : string) : float :=
default 0%float (rates !! c).

(** The upsert that the refresher sends for a code. *)
Definition upsert_stmt (rates : gmap string float) (c : string) : db.Stmt :=
db.UpsertRate "USD" c (fmt_Sprintf_10f (rate_in rates c)).

(** The store after the upsert for a code went through. *)
Definition upserted (rates : gmap string float) (q : db.Queries) (c : string) : db.Queries :=
db.sent (upsert_stmt rates c)
  (sql_UpsertExchangeRate (db.now q (length (db.statements q))) "USD" c
     (fmt_Sprintf_10f (rate_in rates c)) (db.exchange_rates q)) q.

(** The store after the upserts for a list of codes went through, in order. *)
Definition upserted_all (rates : gmap string float) (codes : list string) (q : db.Queries)
  : db.Queries :=
fold_left (upserted rates) codes q.

(** What http.Get returns when the provider answers 200 with a body that
decodes to the given mapping. *)
Definition decoded (base date : string) (rates : gmap string float) : result services.Response :=
Ok {| services.StatusCode := 200;
      services.Decode := Ok {| services.Base := base; services.Date := date;
                               services.Rates := Some rates |} |}.

(** A store with the given table and a healthy driver, in which the other
tables are empty: no user, no row. *)
Definition store_of (tbl : Table) : db.Queries :=
{| db.exchange_rates := tbl;
   db.statements := [];
   db.now := fun n => Z.of_nat n;
   db.select_error := fun _ _ => None;
   db.upsert_error := fun _ _ => None;
   db.GetUserByID := fun _ => Err ErrNoRows;
   db.GetTimeEntriesByUserID := fun _ => Ok [];
   db.GetClientsByUserID := fun _ => Ok [];
   db.GetInvoicesByUserID := fun _ => Ok [];
   db.GetInvoiceTimeEntries := fun _ => Ok [] |}.

(** The same store with other failures of the driver on upserts. *)
Definition with_upsert_error (f : string -> string -> option string) (q : db.Queries)
  : db.Queries :=
{| db.exchange_rates := db.exchange_rates q;
   db.statements := db.statements q;
   db.now := db.now q;
   db.select_error := db.select_error q;
   db.upsert_error := f;
   db.GetUserByID := db.GetUserByID q;
   db.GetTimeEntriesByUserID := db.GetTimeEntriesByUserID q;
   db.GetClientsByUserID := db.GetClientsByUserID q;
   db.GetInvoicesByUserID := db.GetInvoicesByUserID q;
   db.GetInvoiceTimeEntries := db.GetInvoiceTimeEntries q |}.

(** An empty store on which every upsert but the one of the given code
fails: the context of the cycle is past its deadline, or the connection is
lost, from then on. *)
Definition only_upserting (code msg : string) : db.Queries :=
with_upsert_error (fun _ c => if String.eqb c code then None else Some msg)
  (store_of create_table).

(** A store that holds a row for INR and on which the upsert of the given
code fails. *)
Definition failing_on (code msg : string) : db.Queries :=
with_upsert_error (fun _ c => if String.eqb c code then Some msg else None)
  (store_of {| rows := [ {| ID := 1; BaseCurrency := "USD"; TargetCurrency := "INR";
                            Rate := "83.1200000000"; UpdatedAt := 0 |} ];
               next_id := 2 |}).

(** A mapping as the provider sends it: no entry for the base, none for INR. *)
Definition eur_gbp_rates : gmap string float :=
{[ "EUR" := 0.92%float; "GBP" := 0.79%float ]}.

(** The table of the scenarios: USD -> EUR = 0.92 and USD -> USD = 1.0, as
the refresher writes them. *)
Definition eur_table : Table :=
{| rows := [ {| ID := 1; BaseCurrency := "USD"; TargetCurrency := "USD";
                Rate := "1.0000000000"; UpdatedAt := 0 |};
             {| ID := 2; BaseCurrency := "USD"; TargetCurrency := "EUR";
                Rate := "0.9200000000"; UpdatedAt := 1 |} ];
   next_id := 3 |}.

(** The statement that the lookup of USD -> c sends: none for USD itself. *)
Definition lookup_stmts (c : string) : list db.Stmt :=
if String.eqb "USD" c then [] else [db.SelectRate "USD" c].

(** The statements that one call of ConvertAmount(_, from, to) sends. *)
Definition conversion_stmts (q : db.Queries) (from to : string) : list db.Stmt :=
if String.eqb from to then []
else lookup_stmts to ++ (if failed (lookup q to) then [] else lookup_stmts from).

(** The statements that a pass sends to resolve its multipliers: those of
one call of ConvertAmount(1.0, c, R) for each currency needed. *)
Definition pass_stmts (q : db.Queries) (R : string) (clients : list db.GetClientsByUserIDRow)
  : list db.Stmt :=
flat_map (fun c => conversion_stmts q c R) (elements (handlers.currenciesNeededOf R clients)).

(** The multiplier of a currency [c] in a pass that reports in [R]: the
result of ConvertAmount(1.0, c, R) when that call succeeds, 1.0 when it
fails. *)
Definition multiplier (q : db.Queries) (R c : string) : float :=
match convert q 1%float c R with
| (convertedAmount, None) => convertedAmount
| (_, Some _) => 1%float
end.

(** A currency-tagged amount. *)
Record item : Type := mkItem { amount : float; currency : string }.

(** Adding one item to a running total as the specification describes it:
an amount in the reporting currency unchanged, any other multiplied by the
multiplier of its currency. *)
Definition addItem (R : string) (m : string -> float) (total : float) (it : item) : float :=
if String.eqb (currency it) R then (total + amount it)%float
else (total + amount it * m (currency it))%float.

(** The total of a pass: the items are added in their order, from 0. *)
Definition total_in (R : string) (m : string -> float) (items : list item) : float :=
fold_left (addItem R m) items 0%float.

(** The same when only some currencies have a multiplier: an amount whose
currency has none is added unchanged. *)
Definition addItemWith (R : string) (m : string -> option float) (total : float) (it : item)
  : float :=
if String.eqb (currency it) R then (total + amount it)%float
else match m (currency it) with
     | Some rate => (total + amount it * rate)%float
     | None => (total + amount it)%float
     end.

Definition total_with (R : string) (m : string -> option float) (items : list item) : float :=
fold_left (addItemWith R m) items 0%float.

(** The multipliers that a pass resolves: those of the currencies of the
user's clients. *)
Definition resolved (q : db.Queries) (R : string) (clients : list db.GetClientsByUserIDRow)
  (c : string) : option float :=
if bool_decide (c ∈ handlers.currenciesNeededOf R clients) then Some (multiplier q R c) else None.

(** The parsed hours of a time entry. *)
Definition hoursOf (entry : db.GetTimeEntriesByUserIDRow) : float :=
fst (strconv_ParseFloat (db.entry_Hours entry)).

(** The sum of the hours of a list of entries, in order. *)
Definition sumHours (entries : list db.GetTimeEntriesByUserIDRow) : float :=
fold_left (fun h entry => (h + hoursOf entry)%float) entries 0%float.

(** The items of a pass over time entries: one per entry that passes the
date filter [keep] and whose client is known, worth hours times the hourly
rate of the client, in the currency of the client. *)
Definition entryItems (clients : list db.GetClientsByUserIDRow) (keep : Time -> bool)
  (timeEntries : list db.GetTimeEntriesByUserIDRow) : list item :=
flat_map (fun entry =>
            if keep (db.entry_Date entry) then
              match handlers.clientsMapOf clients !! db.entry_ClientID entry with
              | Some client =>
                  [ {| amount := (hoursOf entry
                                  * fst (strconv_ParseFloat (String_ (db.client_HourlyRate client))))%float;
                       currency := db.client_Currency client |} ]
              | None => []
              end
            else [])
         timeEntries.

(** The items of the pass over invoices in GetInvoiceStats: one per invoice
whose time entries could be read, worth the total of the invoice, in the
currency of its client, "USD" when the client is unknown. *)
Definition invoiceItems (q : db.Queries) (clients : list db.GetClientsByUserIDRow)
  (invoices : list db.Invoice) : list item :=
flat_map (fun invoice =>
            match db.GetInvoiceTimeEntries q (db.invoice_ID invoice) with
            | Err _ => []
            | Ok timeEntries =>
                [ {| amount := handlers.invoiceTotalOf timeEntries;
                     currency :=
                       match handlers.clientsMapOf clients !! db.invoice_ClientID invoice with
                       | Some client => db.client_Currency client
                       | None => "USD"
                       end |} ]
            end)
         invoices.

(** The date range of a dashboard request, when both parameters parse. *)
Definition dashboardRange (c : handlers.Context) : option (option Time * option Time) :=
match handlers.dateParam (handlers.QueryParam c "from"),
      handlers.dateParam (handlers.QueryParam c "to") with
| Some fromDate, Some parsed => Some (fromDate, option_map endOfDay parsed)
| _, _ => None
end.

(** The date filter of the dashboard, as a test for keeping a date. *)
Definition inRange (range : option Time * option Time) (d : Time) : bool :=
negb (handlers.filteredOut (fst range) (snd range) d).

(** The date filter of the time-entry statistics. *)
Definition inView (range : Time * Time) (d : Time) : bool :=
negb (handlers.Before d (fst range) || handlers.After d (snd range)).

(** The totals of a reply of GetInvoiceStats, without the list of invoices. *)
Definition amounts (r : handlers.Reply handlers.InvoiceStatsResponse)
  : handlers.Reply (float * float * float) :=
match r with
| handlers.JSONError status msg => handlers.JSONError status msg
| handlers.JSONOK body =>
    handlers.JSONOK (handlers.TotalAmount body, handlers.PaidAmount body,
                     handlers.UnpaidAmount body)
end.

(** The same request with another value of the status parameter. *)
Definition with_status (status : string) (c : handlers.Context) : handlers.Context :=
{| handlers.user_id := handlers.user_id c;
   handlers.QueryParam :=
     fun name => if String.eqb name "status" then status else handlers.QueryParam c name |}.

(** The same store with other time entries for every user. *)
Definition with_entries (timeEntries : list db.GetTimeEntriesByUserIDRow) (q : db.Queries)
  : db.Queries :=
{| db.exchange_rates := db.exchange_rates q;
   db.statements := db.statements q;
   db.now := db.now q;
   db.select_error := db.select_error q;
   db.upsert_error := db.upsert_error q;
   db.GetUserByID := db.GetUserByID q;
   db.GetTimeEntriesByUserID := fun _ => Ok timeEntries;
   db.GetClientsByUserID := db.GetClientsByUserID q;
   db.GetInvoicesByUserID := db.GetInvoicesByUserID q;
   db.GetInvoiceTimeEntries := db.GetInvoiceTimeEntries q |}.

(** The store of the aggregation scenario: the user reports in USD, the
clients bill 50 USD, 40 EUR and 10 USD an hour, and each has one entry of one
hour; USD -> EUR = 0.92 is stored. *)
Definition scenario_clients : list db.GetClientsByUserIDRow :=
[ db.mkClient 1 "Acme" "USD" (mkNullString "50.00" true);
  db.mkClient 2 "Berlin" "EUR" (mkNullString "40.00" true);
  db.mkClient 3 "Corner" "USD" (mkNullString "10.00" true) ].

Definition scenario_entries : list db.GetTimeEntriesByUserIDRow :=
[ db.mkTimeEntry 1 1 1761436800000000000 "1.00" (mkNullString "50.00" true);
  db.mkTimeEntry 2 2 1761436800000000000 "1.00" (mkNullString "40.00" true);
  db.mkTimeEntry 3 3 1761436800000000000 "1.00" (mkNullString "10.00" true) ].

Definition scenario_store : db.Queries :=
{| db.exchange_rates := eur_table;
   db.statements := [];
   db.now := fun n => Z.of_nat n;
   db.select_error := fun _ _ => None;
   db.upsert_error := fun _ _ => None;
   db.GetUserByID := fun _ => Ok (db.mkUser (mkNullString "USD" true));
   db.GetTimeEntriesByUserID := fun _ => Ok scenario_entries;
   db.GetClientsByUserID := fun _ => Ok scenario_clients;
   db.GetInvoicesByUserID := fun _ => Ok [];
   db.GetInvoiceTimeEntries := fun _ => Ok [] |}.

(** A request of user 1 without query parameters. *)
Definition plain_request : handlers.Context :=
{| handlers.user_id := 1; handlers.QueryParam := fun _ => "" |}.

(** A time entry of two hours for a client, 99, that the user does not have. *)
Definition orphan_entry : db.GetTimeEntriesByUserIDRow :=
db.mkTimeEntry 4 99 1761436800000000000 "2.00" (mkNullString "" false).

(** A store in which the user reports in EUR and has no client, and one
invoice, of 2 hours at 50, refers to a client, 7, that the user does not
have; USD -> EUR = 0.92 is stored. *)
Definition orphan_invoice_store : db.Queries :=
{| db.exchange_rates := eur_table;
   db.statements := [];
   db.now := fun n => Z.of_nat n;
   db.select_error := fun _ _ => None;
   db.upsert_error := fun _ _ => None;
   db.GetUserByID := fun _ => Ok (db.mkUser (mkNullString "EUR" true));
   db.GetTimeEntriesByUserID := fun _ => Ok [];
   db.GetClientsByUserID := fun _ => Ok [];
   db.GetInvoicesByUserID := fun _ => Ok [ db.mkInvoice 1 7 "INV-1" 1761436800000000000 "sent" ];
   db.GetInvoiceTimeEntries :=
     fun _ => Ok [ db.mkInvoiceEntry 5 "2.00" (mkNullString "50.00" true) ] |}.

End Notions.

(** * Notions used in the further properties *)

Section MoreNotions.
Context `{Runtime}.

(** A statement that reads the rate of a pair of base USD. *)
Definition usd_select (s : db.Stmt) : Prop := exists c, s = db.SelectRate "USD" c.

(** Code that only reads the rates: it leaves the store as it was but for
the statements it sends, which all read a pair of base USD. *)
Definition read_only {A : Type} (m : db.DB A) : Prop :=
forall q, exists l, snd (m q) = logged l q /\ Forall usd_select l.

(** An upsert of a pair of base USD whose target is one of the codes. *)
Definition usd_upsert_of (codes : list string) (s : db.Stmt) : Prop :=
exists c rate, s = db.UpsertRate "USD" c rate /\ In c codes.

(** What the service makes of a row whose rate column holds [text]. *)
Definition rate_of_text (text : string) : float * option error :=
match strconv_ParseFloat text with
| (rate, None) => (rate, None)
| (_, Some e) => (0%float, Some (Errorf "failed to parse exchange rate" e))
end.

(** A table in which the rate of EUR was stored as zero. *)
Definition zero_rate_table : Table :=
{| rows := [ {| ID := 1; BaseCurrency := "USD"; TargetCurrency := "USD";
                Rate := "1.0000000000"; UpdatedAt := 0 |};
             {| ID := 2; BaseCurrency := "USD"; TargetCurrency := "EUR";
                Rate := "0.0000000000"; UpdatedAt := 1 |} ];
   next_id := 3 |}.

(** The store of the aggregation scenario with that table: the client who
bills in EUR has a rate that reads as 0. *)
Definition zero_rate_store : db.Queries :=
{| db.exchange_rates := zero_rate_table;
   db.statements := [];
   db.now := fun n => Z.of_nat n;
   db.select_error := fun _ _ => None;
   db.upsert_error := fun _ _ => None;
   db.GetUserByID := fun _ => Ok (db.mkUser (mkNullString "USD" true));
   db.GetTimeEntriesByUserID := fun _ => Ok scenario_entries;
   db.GetClientsByUserID := fun _ => Ok scenario_clients;
   db.GetInvoicesByUserID := fun _ => Ok [];
   db.GetInvoiceTimeEntries := fun _ => Ok [] |}.

(** An upsert of a pair of base USD whose target is one of the codes, as a
change of the table. *)
Definition usd_mutation (codes : list string) (w : Mutation) : Prop :=
exists now c rate, w = WUpsert now "USD" c rate /\ In c codes.

End MoreNotions.

(** A request of /api/convert-currency. *)
Definition conversion_request (amount from to : string) : handlers.Context :=
{| handlers.user_id := 0;
   handlers.QueryParam := fun name =>
     if String.eqb name "amount" then amount
     else if String.eqb name "from" then from
     else if String.eqb name "to" then to
     else "" |}.

(** Rows in the order of their dates, latest first. *)
Definition sortedDesc {A : Type} (date : A -> Time) (l : list A) : Prop :=
forall (p q : nat) (x y : A),
  (p < q)%nat -> l !! p = Some x -> l !! q = Some y -> (date y <= date x)%Z.

(** The rows before index [m] are in their final place: each is at least as
late as every row after it. *)
Definition sortedUpTo {A : Type} (date : A -> Time) (m : nat) (l : list A) : Prop :=
forall (p q : nat) (x y : A),
  (p < m)%nat -> (p < q)%nat -> l !! p = Some x -> l !! q = Some y -> (date y <= date x)%Z.

Section RecentNotions.
Context `{Runtime}.

(** The sum of the hours of a list of entry responses, in order. *)
Definition entriesHours (entries : list handlers.TimeEntryResponse) : float :=
fold_left (fun h e => (h + handlers.te_Hours e)%float) entries 0%float.

(** The sum of hours times hourly rate of a list of entry responses. *)
Definition entriesAmount (entries : list handlers.TimeEntryResponse) : float :=
fold_left (fun a e => (a + handlers.te_Hours e * handlers.te_HourlyRate e)%float) entries 0%float.

(** A request of user 1 for the recent items, with a limit. *)
Definition recent_request (limit : string) : handlers.Context :=
{| handlers.user_id := 1;
   handlers.QueryParam := fun name => if String.eqb name "limit" then limit else "" |}.

(** Three time entries, of 2025-10-24, 2025-10-26 and 2025-10-25. *)
Definition recent_entries : list db.GetTimeEntriesByUserIDRow :=
[ db.mkTimeEntry 1 1 1761264000000000000 "1.00" (mkNullString "50.00" true);
  db.mkTimeEntry 2 2 1761436800000000000 "2.00" (mkNullString "40.00" true);
  db.mkTimeEntry 3 3 1761350400000000000 "3.00" (mkNullString "10.00" true) ].

(** A store with three invoices, of 2025-10-24, 2025-10-26 and 2025-10-25,
in which the time entries of invoice 2 cannot be read. *)
Definition recent_invoice_store : db.Queries :=
{| db.exchange_rates := eur_table;
   db.statements := [];
   db.now := fun n => Z.of_nat n;
   db.select_error := fun _ _ => None;
   db.upsert_error := fun _ _ => None;
   db.GetUserByID := fun _ => Ok (db.mkUser (mkNullString "USD" true));
   db.GetTimeEntriesByUserID := fun _ => Ok [];
   db.GetClientsByUserID := fun _ => Ok scenario_clients;
   db.GetInvoicesByUserID :=
     fun _ => Ok [ db.mkInvoice 1 1 "INV-1" 1761264000000000000 "paid";
                   db.mkInvoice 2 2 "INV-2" 1761436800000000000 "sent";
                   db.mkInvoice 3 3 "INV-3" 1761350400000000000 "draft" ];
   db.GetInvoiceTimeEntries :=
     fun id => if (id =? 2)%Z then Err (ErrDriver "connection lost")
               else Ok [ db.mkInvoiceEntry 5 "2.00" (mkNullString "50.00" true) ] |}.

End RecentNotions.

Section StatsNotions.
Context `{Runtime}.

(** An invoice that counts as paid, and one that counts as unpaid. *)
Definition isPaid (invoice : db.Invoice) : bool :=
String.eqb (db.invoice_Status invoice) "paid".

Definition isUnpaid (invoice : db.Invoice) : bool :=
String.eqb (db.invoice_Status invoice) "sent" || String.eqb (db.invoice_Status invoice) "overdue".

(** The totals of an invoice response are those of the entries it lists. *)
Definition invoice_totals_match (r : handlers.InvoiceResponse) : Prop :=
handlers.ir_TotalHours r = entriesHours (handlers.ir_TimeEntries r)
/\ handlers.ir_TotalAmount r = entriesAmount (handlers.ir_TimeEntries r).

Definition recent_totals_match (r : handlers_recent.RecentInvoiceResponse) : Prop :=
handlers_recent.ri_TotalHours r = entriesHours (handlers_recent.ri_TimeEntries r)
/\ handlers_recent.ri_TotalAmount r = entriesAmount (handlers_recent.ri_TimeEntries r).

(** A request of user 1 for a view of the time entries. *)
Definition view_request (viewMode date : string) : handlers.Context :=
{| handlers.user_id := 1;
   handlers.QueryParam := fun name =>
     if String.eqb name "view_mode" then viewMode
     else if String.eqb name "date" then date
     else "" |}.

End StatsNotions.

Section ListNotions.
Context `{Runtime}.

(** The response that the time-entry statistics list for an entry. *)
Definition statsEntry (userCurrency : string) (clientsMap : gmap Z db.GetClientsByUserIDRow)
  (entry : db.GetTimeEntriesByUserIDRow) : handlers.TimeEntryResponse :=
{| handlers.te_ID := db.entry_ID entry;
   handlers.te_ClientName :=
     match clientsMap !! db.entry_ClientID entry with
     | Some client => db.client_Name client
     | None => "Unknown"
     end;
   handlers.te_ClientCurrency :=
     match clientsMap !! db.entry_ClientID entry with
     | Some client => db.client_Currency client
     | None => userCurrency
     end;
   handlers.te_Hours := fst (strconv_ParseFloat (db.entry_Hours entry));
   handlers.te_HourlyRate := fst (strconv_ParseFloat (String_ (db.entry_HourlyRate entry))) |}.

(** Two responses of the same entry, one of the list of time entries and
one of the statistics: the same id, hours and hourly rate, and the same
client name, but that for an unknown client the list leaves the name
empty where the statistics say "Unknown". *)
Definition same_entry (listed stats : handlers.TimeEntryResponse) : Prop :=
handlers.te_ID listed = handlers.te_ID stats
/\ handlers.te_Hours listed = handlers.te_Hours stats
/\ handlers.te_HourlyRate listed = handlers.te_HourlyRate stats
/\ (handlers.te_ClientName listed = handlers.te_ClientName stats
    \/ (handlers.te_ClientName listed = "" /\ handlers.te_ClientName stats = "Unknown")).

End ListNotions.

(** * Theorems *)

(** ** binary64 arithmetic with the constant 1.0 *)

Lemma Prim2SF_one : Prim2SF 1%float = S754_finite false 4503599627370496 (-52).
Proof. vm_compute. reflexivity. Qed.

Lemma digits_shift52 (m : positive) :
  Zpos (digits2_pos (Pos.iter xO m 52)) = (Zpos (digits2_pos m) + 52)%Z.
Proof. cbn [Pos.iter digits2_pos]. lia. Qed.

Lemma shr_52 (m : positive) :
  SpecFloat.iter_pos shr_1 52
    {| shr_m := Zpos (Pos.iter xO m 52); shr_r := false; shr_s := false |}
  = {| shr_m := Zpos m; shr_r := false; shr_s := false |}.
Proof. reflexivity. Qed.

Lemma fexp_binary64 (k : Z) : fexp prec emax k = Z.max (k - 53) (-1074).
Proof. reflexivity. Qed.

Lemma SFmul_one_r (x : spec_float) :
  valid_binary x = true ->
  SF64mul x (S754_finite false 4503599627370496 (-52)) = x.
Proof.
  destruct x as [s | s | | s m e]; cbn [SpecFloat.valid_binary]; intros Hv;
    try (cbn; now rewrite ?xorb_false_r).
  unfold SF64mul, SFmul. rewrite xorb_false_r.
  unfold bounded, canonical_mantissa in Hv.
  apply andb_prop in Hv as [Hc Hb].
  apply Z.eqb_eq in Hc. rewrite fexp_binary64 in Hc.
  rewrite Pos.mul_comm.
  change (4503599627370496 * m)%positive with (Pos.iter xO m 52).
  unfold binary_round_aux, shr_fexp.
  unfold Zdigits2 at 1. rewrite digits_shift52.
  replace (fexp prec emax (Z.pos (digits2_pos m) + 52 + (e + -52)) - (e + -52))%Z with 52%Z
    by (rewrite fexp_binary64; lia).
  cbn [shr shr_record_of_loc]. rewrite shr_52.
  cbn [shr_m loc_of_shr_record round_nearest_even].
  unfold Zdigits2.
  replace (fexp prec emax (Z.pos (digits2_pos m) + (e + -52 + 52)) - (e + -52 + 52))%Z with 0%Z
    by (rewrite fexp_binary64; lia).
  cbn [shr shr_record_of_loc shr_m].
  replace (e + -52 + 52)%Z with e by lia.
  now rewrite Hb.
Qed.

Lemma SFdiv_one_r (x : spec_float) :
  valid_binary x = true ->
  SF64div x (S754_finite false 4503599627370496 (-52)) = x.
Proof.
  destruct x as [s | s | | s m e]; cbn [SpecFloat.valid_binary]; intros Hv;
    try (cbn; now rewrite ?xorb_false_r).
  unfold SF64div, SFdiv. rewrite xorb_false_r.
  unfold bounded, canonical_mantissa in Hv.
  apply andb_prop in Hv as [Hc Hb].
  apply Z.eqb_eq in Hc. rewrite fexp_binary64 in Hc.
  unfold SFdiv_core_binary.
  change (Zdigits2 4503599627370496) with 53%Z.
  unfold Zdigits2.
  destruct (Z.eq_dec e (-1074)) as [He | He].
  - (* the lowest exponent: the quotient is the mantissa itself *)
    replace (Z.min (fexp prec emax (Z.pos (digits2_pos m) + e - (53 + -52))) (e - -52))%Z
      with e by (rewrite fexp_binary64; lia).
    replace (e - -52 - e)%Z with 52%Z by lia.
    replace (Z.shiftl (Z.pos m) 52) with (Z.pos m * 4503599627370496)%Z
      by (rewrite Z.shiftl_mul_pow2; lia).
    pose proof (Z_div_mod (Z.pos m * 4503599627370496) 4503599627370496 ltac:(lia)) as Hdm.
    destruct (Z.div_eucl (Z.pos m * 4503599627370496) 4503599627370496) as [q r].
    assert (q = Z.pos m /\ r = 0%Z) as [-> ->] by lia.
    cbn [new_location Z.even new_location_even Z.eqb].
    unfold binary_round_aux, shr_fexp, Zdigits2.
    replace (fexp prec emax (Z.pos (digits2_pos m) + e) - e)%Z with 0%Z
      by (rewrite fexp_binary64; lia).
    cbn [shr shr_record_of_loc shr_m loc_of_shr_record round_nearest_even].
    replace (fexp prec emax (Z.pos (digits2_pos m) + e) - e)%Z with 0%Z
      by (rewrite fexp_binary64; lia).
    cbn [shr shr_record_of_loc shr_m].
    now rewrite Hb.
  - (* otherwise the quotient carries one more bit, which rounding drops *)
    replace (Z.min (fexp prec emax (Z.pos (digits2_pos m) + e - (53 + -52))) (e - -52))%Z
      with (e - 1)%Z by (rewrite fexp_binary64; lia).
    replace (e - -52 - (e - 1))%Z with 53%Z by lia.
    replace (Z.shiftl (Z.pos m) 53) with (Z.pos (xO m) * 4503599627370496)%Z
      by (rewrite Z.shiftl_mul_pow2; lia).
    pose proof (Z_div_mod (Z.pos (xO m) * 4503599627370496) 4503599627370496 ltac:(lia)) as Hdm.
    destruct (Z.div_eucl (Z.pos (xO m) * 4503599627370496) 4503599627370496) as [q r].
    assert (q = Z.pos (xO m) /\ r = 0%Z) as [-> ->] by lia.
    cbn [new_location Z.even new_location_even Z.eqb].
    unfold binary_round_aux, shr_fexp, Zdigits2.
    cbn [digits2_pos].
    replace (fexp prec emax (Z.pos (Pos.succ (digits2_pos m)) + (e - 1)) - (e - 1))%Z with 1%Z
      by (rewrite fexp_binary64; lia).
    cbn [shr shr_record_of_loc SpecFloat.iter_pos shr_1 orb shr_m loc_of_shr_record
           round_nearest_even].
    replace (fexp prec emax (Z.pos (digits2_pos m) + (e - 1 + 1)) - (e - 1 + 1))%Z with 0%Z
      by (rewrite fexp_binary64; lia).
    cbn [shr shr_record_of_loc shr_m].
    replace (e - 1 + 1)%Z with e by lia.
    now rewrite Hb.
Qed.

(** [x * 1.0] is [x], exactly. *)
Lemma float_mul_one_r (x : float) : (x * 1)%float = x.
Proof.
  apply Prim2SF_inj. rewrite mul_spec, Prim2SF_one.
  apply SFmul_one_r, Prim2SF_valid.
Qed.

(** [x / 1.0] is [x], exactly. *)
Lemma float_div_one_r (x : float) : (x / 1)%float = x.
Proof.
  apply Prim2SF_inj. rewrite div_spec, Prim2SF_one.
  apply SFdiv_one_r, Prim2SF_valid.
Qed.

(** ** The exchange_rates table *)

Lemma same_pair_true (b t : string) (r : ExchangeRate) :
  same_pair b t r = true <-> pair_of r = (b, t).
Proof.
  unfold same_pair, pair_of. rewrite andb_true_iff, !String.eqb_eq.
  split; [intros [-> ->]; reflexivity | intros [= -> ->]; auto].
Qed.

Lemma same_pair_false (b t : string) (r : ExchangeRate) :
  same_pair b t r = false <-> pair_of r <> (b, t).
Proof.
  rewrite <- same_pair_true. destruct (same_pair b t r); split; congruence.
Qed.

Lemma do_update_pair (b t rate : string) (now : Time) (r : ExchangeRate) :
  pair_of (do_update b t rate now r) = pair_of r.
Proof. unfold do_update. destruct (same_pair b t r); reflexivity. Qed.

Lemma same_pair_do_update (b t b' t' rate : string) (now : Time) (r : ExchangeRate) :
  same_pair b t (do_update b' t' rate now r) = same_pair b t r.
Proof. unfold do_update. destruct (same_pair b' t' r); reflexivity. Qed.

Lemma pairs_do_update (b t rate : string) (now : Time) (l : list ExchangeRate) :
  map pair_of (map (do_update b t rate now) l) = map pair_of l.
Proof.
  induction l as [| r l IH]; cbn; [reflexivity |].
  now rewrite do_update_pair, IH.
Qed.

Lemma existsb_same_pair (b t : string) (l : list ExchangeRate) :
  existsb (same_pair b t) l = true <-> In (b, t) (map pair_of l).
Proof.
  rewrite existsb_exists, in_map_iff. split.
  - intros (r & Hin & Hp). exists r. now rewrite same_pair_true in Hp.
  - intros (r & Hp & Hin). exists r. now rewrite same_pair_true.
Qed.

Lemma existsb_rows_for (b t : string) (tbl : Table) :
  existsb (same_pair b t) (rows tbl) = false <-> rows_for b t tbl = [].
Proof.
  unfold rows_for. induction (rows tbl) as [| r l IH]; cbn; [tauto |].
  destruct (same_pair b t r); cbn; [split; discriminate | exact IH].
Qed.

Lemma NoDup_snoc {A : Type} (l : list A) (x : A) :
  NoDup l -> ~ In x l -> NoDup (l ++ [x]).
Proof.
  induction l as [| a l IH]; cbn; intros Hnd Hx.
  - constructor; [rewrite list_elem_of_In; auto | constructor].
  - apply NoDup_cons in Hnd as [Ha Hnd]. apply NoDup_cons. split.
    + rewrite list_elem_of_In in *. rewrite in_app_iff. cbn. intros [? | [-> | []]]; tauto.
    + apply IH; tauto.
Qed.

Lemma NoDup_map_filter {A B : Type} (f : A -> B) (p : A -> bool) (l : list A) :
  NoDup (map f l) -> NoDup (map f (List.filter p l)).
Proof.
  induction l as [| a l IH]; cbn; intros Hnd; [constructor |].
  apply NoDup_cons in Hnd as [Ha Hnd]. destruct (p a); cbn; [| auto].
  apply NoDup_cons. split; [| auto].
  rewrite list_elem_of_In in *. rewrite in_map_iff in *.
  intros (y & Hy & Hin). apply Ha. exists y. split; [exact Hy |].
  now apply filter_In in Hin.
Qed.

(** Every statement keeps the pairs distinct. *)
Lemma upsert_unique (now : Time) (b t rate : string) (tbl : Table) :
  unique_pairs tbl -> unique_pairs (sql_UpsertExchangeRate now b t rate tbl).
Proof.
  unfold unique_pairs, sql_UpsertExchangeRate. intros Hnd.
  destruct (existsb (same_pair b t) (rows tbl)) eqn:Hex; cbn.
  - now rewrite pairs_do_update.
  - rewrite map_app. cbn. apply NoDup_snoc; [exact Hnd |].
    change (~ In (b, t) (map pair_of (rows tbl))).
    rewrite <- existsb_same_pair. congruence.
Qed.

Lemma delete_old_unique (cutoff : Time) (tbl : Table) :
  unique_pairs tbl -> unique_pairs (sql_DeleteOldExchangeRates cutoff tbl).
Proof. unfold unique_pairs. cbn. apply NoDup_map_filter. Qed.

Lemma exec_unique (w : Mutation) (tbl : Table) :
  unique_pairs tbl -> unique_pairs (exec w tbl).
Proof. destruct w; cbn; [apply upsert_unique | apply delete_old_unique]. Qed.

Lemma run_unique (ws : list Mutation) (tbl : Table) :
  unique_pairs tbl -> unique_pairs (run ws tbl).
Proof.
  unfold run. revert tbl. induction ws as [| w ws IH]; cbn; intros tbl Hu; [exact Hu |].
  apply IH, exec_unique, Hu.
Qed.

(** Distinct pairs leave at most one row for a pair. *)
Lemma unique_rows_for (b t : string) (tbl : Table) :
  unique_pairs tbl -> (length (rows_for b t tbl) <= 1)%nat.
Proof.
  unfold unique_pairs, rows_for. induction (rows tbl) as [| r l IH]; cbn; intros Hnd; [lia |].
  apply NoDup_cons in Hnd as [Hr Hnd]. specialize (IH Hnd).
  destruct (same_pair b t r) eqn:Hp; [| exact IH]. cbn.
  apply same_pair_true in Hp.
  destruct (List.filter (same_pair b t) l) as [| r' l'] eqn:Hf; [cbn; lia |].
  exfalso. apply Hr. rewrite list_elem_of_In, in_map_iff. exists r'.
  assert (Hin : In r' (List.filter (same_pair b t) l)) by (rewrite Hf; now left).
  apply filter_In in Hin as [Hin Hp']. apply same_pair_true in Hp'. split; congruence.
Qed.

(** An upsert of another pair leaves the rows of this pair as they are. *)
Lemma rows_for_upsert_other (now : Time) (b t b' t' rate : string) (tbl : Table) :
  (b', t') <> (b, t) ->
  rows_for b t (sql_UpsertExchangeRate now b' t' rate tbl) = rows_for b t tbl.
Proof.
  intros Hne. unfold rows_for, sql_UpsertExchangeRate.
  destruct (existsb (same_pair b' t') (rows tbl)); cbn.
  - induction (rows tbl) as [| r l IH]; cbn; [reflexivity |].
    rewrite same_pair_do_update, IH. destruct (same_pair b t r) eqn:Hp; [| reflexivity].
    f_equal. unfold do_update. destruct (same_pair b' t' r) eqn:Hp'; [| reflexivity].
    apply same_pair_true in Hp, Hp'. congruence.
  - rewrite List.filter_app. cbn.
    assert (Hp : same_pair b t
                   {| ID := next_id tbl; BaseCurrency := b'; TargetCurrency := t';
                      Rate := rate; UpdatedAt := now |} = false)
      by (apply same_pair_false; exact Hne).
    rewrite Hp. apply app_nil_r.
Qed.

(** An upsert leaves, for its pair, rows that all carry the new rate and
    timestamp, and at least one of them. *)
Lemma rows_for_upsert_same (now : Time) (b t rate : string) (tbl : Table) :
  rows_for b t (sql_UpsertExchangeRate now b t rate tbl) <> []
  /\ Forall (fun r => pair_of r = (b, t) /\ Rate r = rate /\ UpdatedAt r = now)
            (rows_for b t (sql_UpsertExchangeRate now b t rate tbl)).
Proof.
  unfold sql_UpsertExchangeRate.
  destruct (existsb (same_pair b t) (rows tbl)) eqn:Hex; unfold rows_for; cbn.
  - split.
    + apply existsb_exists in Hex as (r & Hin & Hp).
      intros Hnil.
      assert (Hin' : In (do_update b t rate now r)
                        (List.filter (same_pair b t) (map (do_update b t rate now) (rows tbl)))).
      { apply filter_In. split; [now apply in_map |]. now rewrite same_pair_do_update. }
      rewrite Hnil in Hin'. exact Hin'.
    + apply Forall_forall. intros r Hin. rewrite list_elem_of_In in Hin.
      apply filter_In in Hin as [Hin Hp].
      apply in_map_iff in Hin as (r0 & <- & _).
      rewrite same_pair_do_update in Hp. unfold do_update. rewrite Hp. cbn.
      apply same_pair_true in Hp. auto.
  - apply existsb_rows_for in Hex. unfold rows_for in Hex.
    rewrite List.filter_app, Hex. cbn.
    assert (Hp : same_pair b t
                   {| ID := next_id tbl; BaseCurrency := b; TargetCurrency := t;
                      Rate := rate; UpdatedAt := now |} = true)
      by (apply same_pair_true; reflexivity).
    rewrite Hp. split; [discriminate |].
    repeat constructor.
Qed.

(** An upsert of a pair that is stored does not add a row. *)
Lemma upsert_existing_length (now : Time) (b t rate : string) (tbl : Table) :
  rows_for b t tbl <> [] ->
  length (rows (sql_UpsertExchangeRate now b t rate tbl)) = length (rows tbl).
Proof.
  intros Hne. unfold sql_UpsertExchangeRate.
  destruct (existsb (same_pair b t) (rows tbl)) eqn:Hex; cbn.
  - apply length_map.
  - apply existsb_rows_for in Hex. contradiction.
Qed.

(** C8. The Rate Store holds at most one row per (base_currency,
    target_currency) pair in every state that the statements of
    exchange_rates.sql produce from the empty table; and upsert is
    last-write-wins: after upsert(b, t, r1, t1) and then upsert(b, t, r2, t2)
    (for instance "USD", "EUR", 0.92 and then 0.95) exactly one row exists
    for the pair, with rate r2 and timestamp t2, and the second upsert, on a
    pair that exists, adds no row. *)
Theorem rate_store_one_row_per_pair_last_write_wins :
  forall (history : list Mutation) (b t r1 r2 : string) (t1 t2 : Time),
    let tbl := run history create_table in
    let tbl1 := sql_UpsertExchangeRate t1 b t r1 tbl in
    let tbl2 := sql_UpsertExchangeRate t2 b t r2 tbl1 in
    unique_pairs tbl
    /\ (forall b' t', (length (rows_for b' t' tbl) <= 1)%nat)
    /\ (exists row, rows_for b t tbl2 = [row] /\ pair_of row = (b, t)
                    /\ Rate row = r2 /\ UpdatedAt row = t2)
    /\ length (rows tbl2) = length (rows tbl1).
Proof.
  intros history b t r1 r2 t1 t2 tbl tbl1 tbl2.
  assert (Hu : unique_pairs tbl) by (apply run_unique; constructor).
  assert (Hu2 : unique_pairs tbl2) by (do 2 apply upsert_unique; exact Hu).
  split; [exact Hu |]. split; [intros; now apply unique_rows_for |]. split.
  - pose proof (unique_rows_for b t tbl2 Hu2) as Hlen.
    destruct (rows_for_upsert_same t2 b t r2 tbl1) as [Hne Hall].
    fold tbl2 in Hne, Hall.
    destruct (rows_for b t tbl2) as [| row [| row' l]]; [congruence | | cbn in Hlen; lia].
    exists row. apply Forall_cons in Hall as [(Hp & Hr & Ht) _]. auto.
  - apply upsert_existing_length. apply rows_for_upsert_same.
Qed.

(** ** The exchange-rate service *)

Section ServiceFacts.
Context `{Runtime}.

Lemma logged_nil (q : db.Queries) : logged [] q = q.
Proof. destruct q. unfold logged. cbn. now rewrite app_nil_r. Qed.

Lemma logged_logged (l1 l2 : list db.Stmt) (q : db.Queries) :
  logged l2 (logged l1 q) = logged (l1 ++ l2) q.
Proof. unfold logged. cbn. now rewrite app_assoc. Qed.

(** A lookup changes the store only by the statement it sends, if any. *)
Lemma GetExchangeRate_state (b t : string) (q : db.Queries) :
  snd (services.GetExchangeRate b t q)
  = logged (if String.eqb b t then [] else [db.SelectRate b t]) q.
Proof.
  unfold services.GetExchangeRate.
  destruct (String.eqb b t); cbn; [now rewrite logged_nil |].
  unfold db.bind, db.GetExchangeRate.
  destruct (db.select_error q b t); cbn; [reflexivity |].
  destruct (sql_GetExchangeRate b t (db.exchange_rates q)) as [row |]; cbn; [| reflexivity].
  destruct (strconv_ParseFloat (Rate row)) as [rate [e |]]; reflexivity.
Qed.

(** What a lookup returns depends on the table and the driver, not on the
    statements sent before. *)
Lemma GetExchangeRate_logged (l : list db.Stmt) (b t : string) (q : db.Queries) :
  fst (services.GetExchangeRate b t (logged l q)) = fst (services.GetExchangeRate b t q).
Proof.
  unfold services.GetExchangeRate.
  destruct (String.eqb b t); cbn; [reflexivity |].
  unfold db.bind, db.GetExchangeRate. cbn.
  destruct (db.select_error q b t); cbn; [reflexivity |].
  destruct (sql_GetExchangeRate b t (db.exchange_rates q)) as [row |]; cbn; [| reflexivity].
  destruct (strconv_ParseFloat (Rate row)) as [rate [e |]]; reflexivity.
Qed.

Lemma lookup_logged (l : list db.Stmt) (q : db.Queries) (c : string) :
  lookup (logged l q) c = lookup q c.
Proof. apply GetExchangeRate_logged. Qed.

Lemma lookup_USD (q : db.Queries) : lookup q "USD" = (1%float, None).
Proof. reflexivity. Qed.

(** ConvertAmount, as a function of the two lookups. *)
Lemma ConvertAmount_result (a : float) (from to : string) (q : db.Queries) :
  convert q a from to =
  if String.eqb from to then (a, None)
  else match lookup q to with
       | (_, Some e) => (0%float, Some e)
       | (rate, None) =>
           match lookup q from with
           | (_, Some e) => (0%float, Some e)
           | (fromRate, None) => ((a / fromRate * rate)%float, None)
           end
       end.
Proof.
  unfold convert, services.ConvertAmount.
  destruct (String.eqb from to); [reflexivity |].
  unfold db.bind, lookup.
  pose proof (GetExchangeRate_state "USD" to q) as Hst.
  destruct (services.GetExchangeRate "USD" to q) as [[rate err] q1]. cbn [snd] in Hst. cbn [fst snd].
  destruct err as [e |]; [reflexivity |].
  rewrite <- (GetExchangeRate_logged (if String.eqb "USD" to then [] else [db.SelectRate "USD" to])
                "USD" from q), <- Hst.
  destruct (services.GetExchangeRate "USD" from q1) as [[fromRate err] q2]. cbn [fst snd].
  destruct err; reflexivity.
Qed.

Lemma ConvertAmount_state (a : float) (from to : string) (q : db.Queries) :
  exists l, snd (services.ConvertAmount a from to q) = logged l q.
Proof.
  unfold services.ConvertAmount.
  destruct (String.eqb from to); [exists []; cbn; now rewrite logged_nil |].
  unfold db.bind.
  pose proof (GetExchangeRate_state "USD" to q) as Hst.
  destruct (services.GetExchangeRate "USD" to q) as [[rate err] q1]. cbn [snd] in Hst. subst q1.
  destruct err as [e |]; [eexists; reflexivity |].
  match goal with |- context [services.GetExchangeRate "USD" from ?q1] =>
    pose proof (GetExchangeRate_state "USD" from q1) as Hst;
    destruct (services.GetExchangeRate "USD" from q1) as [[fromRate err] q2] end.
  cbn [snd] in Hst. subst q2. rewrite logged_logged.
  destruct err; eexists; reflexivity.
Qed.

(** A conversion changes the store only by the lookups it sends. *)
Lemma ConvertAmount_stmts (a : float) (from to : string) (q : db.Queries) :
  snd (services.ConvertAmount a from to q) = logged (conversion_stmts q from to) q.
Proof.
  unfold services.ConvertAmount, conversion_stmts, lookup, failed.
  destruct (String.eqb from to); [cbn; now rewrite logged_nil |].
  unfold db.bind.
  pose proof (GetExchangeRate_state "USD" to q) as Hst.
  destruct (services.GetExchangeRate "USD" to q) as [[rate err] q1]. cbn [fst snd] in *. subst q1.
  fold (lookup_stmts to).
  destruct err as [e |]; [cbn [snd]; now rewrite app_nil_r |].
  match goal with |- context [services.GetExchangeRate "USD" from ?q1] =>
    pose proof (GetExchangeRate_state "USD" from q1) as Hst;
    destruct (services.GetExchangeRate "USD" from q1) as [[fromRate err] q2] end.
  cbn [snd] in Hst. subst q2. rewrite logged_logged. fold (lookup_stmts from).
  destruct err; reflexivity.
Qed.

Lemma convert_logged (l : list db.Stmt) (q : db.Queries) (a : float) (from to : string) :
  convert (logged l q) a from to = convert q a from to.
Proof. now rewrite !ConvertAmount_result, !lookup_logged. Qed.

(** The composition through USD, as a function of the two conversions. *)
Lemma viaUSD_result (a : float) (x y : string) (q : db.Queries) :
  fst (viaUSD a x y q) =
  match convert q a x "USD" with
  | (_, Some e) => (0%float, Some e)
  | (usd, None) => convert q usd "USD" y
  end.
Proof.
  unfold viaUSD, db.bind, convert.
  destruct (ConvertAmount_state a x "USD" q) as [l Hst].
  destruct (services.ConvertAmount a x "USD" q) as [[usd err] q1]. cbn [snd] in Hst. subst q1. cbn.
  destruct err; [reflexivity |].
  apply convert_logged.
Qed.

End ServiceFacts.

(** C1. For every amount a and currencies from <> to: if the lookups of
    USD -> from and USD -> to give the rates rFrom and rTo, ConvertAmount
    succeeds and returns (a / rFrom) * rTo. The lookup of USD -> c gives the
    rate that the row of ("USD", c) holds, when c is not "USD", the driver
    answers and the rate parses; the rate of USD -> USD is 1.0. In
    particular 100 EUR convert to 100 / 0.92 * 1.0 USD, about 108.70, when
    USD -> EUR = 0.92 and USD -> USD = 1.0 are stored. *)
Theorem ConvertAmount_divides_then_multiplies :
  (forall `{Runtime} (q : db.Queries) (a rFrom rTo : float) (from to : string),
      from <> to ->
      lookup q from = (rFrom, None) ->
      lookup q to = (rTo, None) ->
      convert q a from to = ((a / rFrom * rTo)%float, None))
  /\ (forall `{Runtime} (q : db.Queries) (c : string) (row : ExchangeRate) (r : float),
        c <> "USD" ->
        db.select_error q "USD" c = None ->
        sql_GetExchangeRate "USD" c (db.exchange_rates q) = Some row ->
        strconv_ParseFloat (Rate row) = (r, None) ->
        lookup q c = (r, None))
  /\ (forall `{Runtime} (q : db.Queries), lookup q "USD" = (1%float, None))
  /\ (let r := @convert goruntime.go (store_of eur_table) 100%float "EUR" "USD" in
      r = ((100 / 0.92 * 1)%float, None)
      /\ (108.695 <? fst r)%float = true /\ (fst r <? 108.705)%float = true).
Proof.
  split; [| split; [| split]].
  - intros rt q a rFrom rTo from to Hne Hfrom Hto.
    rewrite ConvertAmount_result, Hfrom, Hto.
    apply String.eqb_neq in Hne. now rewrite Hne.
  - intros rt q c row r Hc Herr Hrow Hparse.
    unfold lookup, services.GetExchangeRate.
    assert (Hneq : String.eqb "USD" c = false) by (apply String.eqb_neq; congruence).
    rewrite Hneq. unfold db.bind, db.GetExchangeRate. rewrite Herr, Hrow. cbn [fst].
    now rewrite Hparse.
  - intros rt q. reflexivity.
  - vm_compute. auto.
Qed.

Lemma ConvertAmount_divides_then_multiplies_witness :
  @convert goruntime.go (store_of eur_table) 100%float "EUR" "USD"
  = ((100 / fst (goruntime.ParseFloat "0.9200000000") * 1)%float, None).
Proof.
  apply (proj1 ConvertAmount_divides_then_multiplies goruntime.go (store_of eur_table)
           100%float (fst (goruntime.ParseFloat "0.9200000000")) 1%float "EUR" "USD").
  - discriminate.
  - vm_compute. reflexivity.
  - vm_compute. reflexivity.
Defined.

(** C3. For every amount a and every currency c, supported or not,
    ConvertAmount(a, c, c) returns a itself with a nil error and leaves the
    store as it found it, the list of statements sent included: there is no
    Rate Store lookup, whatever the store holds. *)
Theorem ConvertAmount_same_currency_is_identity :
  forall `{Runtime} (q : db.Queries) (a : float) (c : string),
    services.ConvertAmount a c c q = ((a, None), q)
    /\ db.statements (snd (services.ConvertAmount a c c q)) = db.statements q.
Proof.
  intros rt q a c. unfold services.ConvertAmount. rewrite String.eqb_refl. split; reflexivity.
Qed.

(** C4, as the specification states it, fails when x = y is not USD: the
    direct conversion is the identity and succeeds without a lookup, while
    the composition through USD needs the rate of x. With no rate stored the
    composition fails; with USD -> EUR = 0.92 stored it returns
    15 / 0.92 * 0.92, which is not 15. *)
Lemma bridge_consistency_fails_for_same_currency :
  @convert goruntime.go (store_of create_table) 100%float "EUR" "EUR" = (100%float, None)
  /\ failed (fst (@viaUSD goruntime.go 100%float "EUR" "EUR" (store_of create_table))) = true
  /\ @convert goruntime.go (store_of eur_table) 15%float "EUR" "EUR" = (15%float, None)
  /\ snd (fst (@viaUSD goruntime.go 15%float "EUR" "EUR" (store_of eur_table))) = None
  /\ (fst (fst (@viaUSD goruntime.go 15%float "EUR" "EUR" (store_of eur_table))) =? 15)%float
     = false.
Proof. vm_compute. auto. Qed.

(** C4, amended. For every amount a and currencies x, y with x <> y, or
    with x = "USD": ConvertAmount(a, x, y) and
    ConvertAmount(ConvertAmount(a, x, "USD"), "USD", y) both fail or both
    succeed, and on success return the same binary64 value. The cases
    x = "USD" and y = "USD" are included. *)
Theorem bridge_consistency :
  forall `{Runtime} (q : db.Queries) (a : float) (x y : string),
    x <> y \/ x = "USD" ->
    same_outcome (convert q a x y) (fst (viaUSD a x y q)).
Proof.
  intros rt q a x y Hxy.
  rewrite viaUSD_result, (ConvertAmount_result a x "USD"), lookup_USD.
  destruct (String.eqb_spec x "USD") as [-> | HxU].
  - (* from USD: the first call is the identity *)
    unfold same_outcome. destruct (snd (convert q a "USD" y)); auto.
  - assert (Hne : x <> y) by (destruct Hxy; [assumption | contradiction]).
    rewrite (ConvertAmount_result a x y).
    apply String.eqb_neq in Hne. rewrite Hne.
    destruct (String.eqb_spec "USD" y) as [<- | HyU].
    + (* to USD: the second call is the identity *)
      rewrite lookup_USD.
      destruct (lookup q x) as [rx [e |]]; unfold same_outcome; cbn [fst snd]; [trivial |].
      rewrite ConvertAmount_result. reflexivity.
    + destruct (lookup q x) as [rx [ex |]].
      * destruct (lookup q y) as [ry [ey |]]; exact I.
      * rewrite ConvertAmount_result, lookup_USD.
        apply String.eqb_neq in HyU. rewrite HyU.
        destruct (lookup q y) as [ry [ey |]]; unfold same_outcome; cbn [fst snd]; [trivial |].
        now rewrite float_mul_one_r, float_div_one_r.
Qed.

Lemma bridge_consistency_witness :
  same_outcome (@convert goruntime.go (store_of eur_table) 100%float "EUR" "GBP")
               (fst (@viaUSD goruntime.go 100%float "EUR" "GBP" (store_of eur_table))).
Proof.
  apply (@bridge_consistency goruntime.go). left. discriminate.
Defined.

(** C5. ConvertAmount(a, from, to) returns an error if and only if
    from <> to and one of the lookups of USD -> to and USD -> from fails. On
    error the amount it returns is 0 and the error is the one the failing
    lookup returned (that of USD -> to when both fail): no 1:1 value is made
    up. A lookup of USD -> c fails exactly when c is not "USD" and the
    driver reports an error, or no row is stored, or the stored rate does
    not parse. *)
Theorem ConvertAmount_fails_iff_a_lookup_fails :
  forall `{Runtime} (q : db.Queries) (a : float) (from to : string),
    (failed (convert q a from to) = true <->
       from <> to /\ (failed (lookup q to) = true \/ failed (lookup q from) = true))
    /\ (failed (convert q a from to) = true ->
          fst (convert q a from to) = 0%float
          /\ snd (convert q a from to)
             = if failed (lookup q to) then snd (lookup q to) else snd (lookup q from))
    /\ (forall c : string,
          failed (lookup q c) = true <->
            c <> "USD"
            /\ (db.select_error q "USD" c <> None
                \/ sql_GetExchangeRate "USD" c (db.exchange_rates q) = None
                \/ exists row, sql_GetExchangeRate "USD" c (db.exchange_rates q) = Some row
                               /\ snd (strconv_ParseFloat (Rate row)) <> None)).
Proof.
  intros rt q a from to. rewrite ConvertAmount_result. repeat split.
  - destruct (String.eqb_spec from to) as [-> | Hne]; [discriminate | exact Hne].
  - revert H. destruct (String.eqb from to); [discriminate |].
    unfold failed. destruct (lookup q to) as [rt' [e |]]; cbn [snd]; [auto |].
    destruct (lookup q from) as [rf [e |]]; cbn [snd]; [auto | discriminate].
  - intros [Hne Hfail]. apply String.eqb_neq in Hne. rewrite Hne.
    unfold failed in *. destruct (lookup q to) as [rt' [e |]]; cbn [snd] in *; [reflexivity |].
    destruct (lookup q from) as [rf [e |]]; cbn [snd] in *; [reflexivity |].
    destruct Hfail; discriminate.
  - revert H. destruct (String.eqb from to); [discriminate |].
    unfold failed. destruct (lookup q to) as [rt' [e |]]; cbn [fst snd]; [reflexivity |].
    destruct (lookup q from) as [rf [e |]]; cbn [fst snd]; [reflexivity | discriminate].
  - revert H. destruct (String.eqb from to); [discriminate |].
    unfold failed. destruct (lookup q to) as [rt' [e |]]; cbn [fst snd]; [reflexivity |].
    destruct (lookup q from) as [rf [e |]]; cbn [fst snd]; [reflexivity | discriminate].
  - intros ->. revert H. rewrite lookup_USD. discriminate.
  - revert H. unfold failed, lookup, services.GetExchangeRate.
    destruct (String.eqb "USD" c); [discriminate |].
    unfold db.bind, db.GetExchangeRate.
    destruct (db.select_error q "USD" c); cbn [fst snd]; [intros _; left; discriminate |].
    destruct (sql_GetExchangeRate "USD" c (db.exchange_rates q)) as [row |];
      cbn [fst snd]; [| intros _; right; left; reflexivity].
    intros Hf. right. right. exists row. split; [reflexivity |].
    destruct (strconv_ParseFloat (Rate row)) as [rate [e |]]; cbn [fst snd] in *;
      [discriminate | discriminate].
  - intros [HcU Hcause]. unfold failed, lookup, services.GetExchangeRate.
    assert (Hneq : String.eqb "USD" c = false) by (apply String.eqb_neq; congruence).
    rewrite Hneq. unfold db.bind, db.GetExchangeRate.
    destruct (db.select_error q "USD" c); cbn [fst snd]; [reflexivity |].
    destruct (sql_GetExchangeRate "USD" c (db.exchange_rates q)) as [row |];
      cbn [fst snd]; [| reflexivity].
    destruct Hcause as [Hc | [Hc | (row' & Hc & Hp)]]; [congruence | discriminate |].
    injection Hc as <-.
    destruct (strconv_ParseFloat (Rate row)) as [rate [e |]]; cbn [fst snd] in *;
      [reflexivity | congruence].
Qed.

(** ** The refresher *)

Section RefreshFacts.
Context `{Runtime}.

Lemma find_filter {A : Type} (p : A -> bool) (l : list A) :
  find p l = hd_error (List.filter p l).
Proof.
  induction l as [| a l IH]; cbn; [reflexivity |]. destruct (p a); [reflexivity | exact IH].
Qed.

Lemma sql_GetExchangeRate_rows_for (b t : string) (tbl : Table) :
  sql_GetExchangeRate b t tbl = hd_error (rows_for b t tbl).
Proof. apply find_filter. Qed.

Lemma present_cons_Some (rates : gmap string float) (c : string) (cs : list string) (r : float) :
  rates !! c = Some r -> present rates (c :: cs) = c :: present rates cs.
Proof.
  intros Hr. unfold present. cbn. rewrite bool_decide_true; [reflexivity | now rewrite Hr].
Qed.

Lemma present_cons_None (rates : gmap string float) (c : string) (cs : list string) :
  rates !! c = None -> present rates (c :: cs) = present rates cs.
Proof.
  intros Hr. unfold present. cbn. rewrite bool_decide_false; [reflexivity |].
  rewrite Hr. intros [x Hx]. discriminate.
Qed.

Lemma In_present (rates : gmap string float) (c : string) (cs : list string) :
  In c (present rates cs) <-> In c cs /\ is_Some (rates !! c).
Proof. unfold present. rewrite filter_In, bool_decide_eq_true. reflexivity. Qed.

Lemma NoDup_present (rates : gmap string float) (cs : list string) :
  NoDup cs -> NoDup (present rates cs).
Proof.
  intros Hnd. unfold present. induction cs as [| c cs IH]; cbn; [constructor |].
  apply NoDup_cons in Hnd as [Hc Hnd].
  destruct (bool_decide (is_Some (rates !! c))); [| auto].
  apply NoDup_cons. split; [| auto].
  rewrite list_elem_of_In in *. rewrite filter_In. tauto.
Qed.

Lemma NoDup_SupportedCurrencies : NoDup services.SupportedCurrencies.
Proof. apply (bool_decide_unpack _). vm_compute. exact I. Qed.

Lemma UpsertExchangeRate_ok (rates : gmap string float) (q : db.Queries) (c : string) (r : float) :
  rates !! c = Some r ->
  db.upsert_error q "USD" c = None ->
  db.UpsertExchangeRate "USD" c (fmt_Sprintf_10f r) q = (None, upserted rates q c).
Proof.
  intros Hr He. unfold db.UpsertExchangeRate, upserted, upsert_stmt, rate_in.
  now rewrite He, Hr.
Qed.

Lemma UpsertExchangeRate_err (rates : gmap string float) (q : db.Queries) (c msg : string)
    (r : float) :
  rates !! c = Some r ->
  db.upsert_error q "USD" c = Some msg ->
  db.UpsertExchangeRate "USD" c (fmt_Sprintf_10f r) q
  = (Some (ErrDriver msg), logged [upsert_stmt rates c] q).
Proof.
  intros Hr He. unfold db.UpsertExchangeRate, upsert_stmt, rate_in.
  now rewrite He, Hr.
Qed.

(** When no upsert fails, the loop upserts every code that is present. *)
Lemma updateRates_ok (rates : gmap string float) (cs : list string) :
  forall (n : Z) (q : db.Queries),
    (forall c, In c (present rates cs) -> db.upsert_error q "USD" c = None) ->
    services.updateRates rates cs n q
    = ((None, (n + Z.of_nat (length (present rates cs)))%Z),
       upserted_all rates (present rates cs) q).
Proof.
  induction cs as [| c cs IH]; intros n q Hok.
  - cbn. unfold db.ret. now rewrite Z.add_0_r.
  - cbn [services.updateRates]. destruct (rates !! c) as [r |] eqn:Hr.
    + rewrite (present_cons_Some _ _ _ _ Hr) in *.
      unfold db.bind. rewrite (UpsertExchangeRate_ok rates q c r Hr) by (apply Hok; now left).
      rewrite IH by (intros c' Hc'; apply (Hok c'); now right).
      cbn [length upserted_all fold_left]. do 2 f_equal. lia.
    + rewrite (present_cons_None _ _ _ Hr) in *. now apply IH.
Qed.

(** When the loop returns an error, it is the error of the first upsert
    that failed, and the upserts before it went through. *)
Lemma updateRates_err (rates : gmap string float) (cs : list string) :
  forall (n m : Z) (q q' : db.Queries) (e : error),
    services.updateRates rates cs n q = ((Some e, m), q') ->
    exists done c rest msg,
      present rates cs = done ++ c :: rest
      /\ db.upsert_error q "USD" c = Some msg
      /\ (forall c', In c' done -> db.upsert_error q "USD" c' = None)
      /\ e = Errorf "failed to update rate" (ErrDriver msg)
      /\ q' = logged [upsert_stmt rates c] (upserted_all rates done q).
Proof.
  induction cs as [| c cs IH]; intros n m q q' e Hrun.
  - discriminate.
  - cbn [services.updateRates] in Hrun. destruct (rates !! c) as [r |] eqn:Hr.
    + rewrite (present_cons_Some _ _ _ _ Hr).
      unfold db.bind in Hrun.
      destruct (db.upsert_error q "USD" c) as [msg |] eqn:He.
      * rewrite (UpsertExchangeRate_err rates q c msg r Hr He) in Hrun.
        injection Hrun as <- _ <-.
        exists [], c, (present rates cs), msg. cbn. repeat split; auto. intros _ [].
      * rewrite (UpsertExchangeRate_ok rates q c r Hr He) in Hrun.
        apply IH in Hrun as (done & c1 & rest & msg & Hp & He1 & Hdone & -> & ->).
        exists (c :: done), c1, rest, msg. rewrite Hp. cbn. repeat split; auto.
        intros c' [<- | Hin]; [exact He | exact (Hdone c' Hin)].
    + rewrite (present_cons_None _ _ _ Hr). eapply IH, Hrun.
Qed.

(** When the upsert of a code fails and those before it go through, the loop
    stops there: it returns the error of that upsert, wrapped, and the
    store holds the upserts made so far and the statement that failed. *)
Lemma updateRates_fails (rates : gmap string float) (cs : list string) :
  forall (n : Z) (q : db.Queries) (done : list string) (c : string) (rest : list string)
         (msg : string),
    present rates cs = done ++ c :: rest ->
    (forall c', In c' done -> db.upsert_error q "USD" c' = None) ->
    db.upsert_error q "USD" c = Some msg ->
    services.updateRates rates cs n q
    = ((Some (Errorf "failed to update rate" (ErrDriver msg)), (n + Z.of_nat (length done))%Z),
       logged [upsert_stmt rates c] (upserted_all rates done q)).
Proof.
  induction cs as [| c0 cs IH]; intros n q done c rest msg Hp Hdone He.
  - cbn in Hp. destruct done; discriminate.
  - cbn [services.updateRates]. destruct (rates !! c0) as [r |] eqn:Hr.
    + rewrite (present_cons_Some _ _ _ _ Hr) in Hp. unfold db.bind.
      destruct done as [| d done'].
      * cbn in Hp. injection Hp as -> _.
        rewrite (UpsertExchangeRate_err rates q c msg r Hr He).
        cbn [length upserted_all fold_left]. now rewrite Z.add_0_r.
      * cbn in Hp. injection Hp as -> Hp.
        rewrite (UpsertExchangeRate_ok rates q d r Hr) by (apply Hdone; now left).
        rewrite (IH (n + 1)%Z (upserted rates q d) done' c rest msg Hp).
        -- cbn [length upserted_all fold_left]. do 2 f_equal. lia.
        -- intros c' Hc'. cbn. apply Hdone. now right.
        -- exact He.
    + rewrite (present_cons_None _ _ _ Hr) in Hp. now apply (IH n q done c rest msg).
Qed.

Lemma statements_upserted_all (rates : gmap string float) (cs : list string) :
  forall q : db.Queries,
    db.statements (upserted_all rates cs q) = db.statements q ++ map (upsert_stmt rates) cs.
Proof.
  induction cs as [| c cs IH]; intros q; cbn; [now rewrite app_nil_r |].
  unfold upserted_all in IH. rewrite IH. cbn. now rewrite <- app_assoc.
Qed.

Lemma rows_for_upserted_other (rates : gmap string float) (q : db.Queries) (c b t : string) :
  (b, t) <> ("USD", c) ->
  rows_for b t (db.exchange_rates (upserted rates q c)) = rows_for b t (db.exchange_rates q).
Proof. intros Hne. cbn. apply rows_for_upsert_other. congruence. Qed.

(** The upserts leave the rows of every other pair as they are. *)
Lemma rows_for_upserted_all_other (rates : gmap string float) (cs : list string) (b t : string) :
  forall q : db.Queries,
    (forall c, In c cs -> (b, t) <> ("USD", c)) ->
    rows_for b t (db.exchange_rates (upserted_all rates cs q)) = rows_for b t (db.exchange_rates q).
Proof.
  induction cs as [| c cs IH]; intros q Hne; cbn; [reflexivity |].
  unfold upserted_all in IH. rewrite IH by (intros c' Hc'; apply Hne; now right).
  apply rows_for_upserted_other, Hne. now left.
Qed.

(** After the upserts, a code of the list has rows, all with its rate. *)
Lemma rows_for_upserted_all_in (rates : gmap string float) (cs : list string) (c : string) :
  forall q : db.Queries,
    NoDup cs -> In c cs ->
    rows_for "USD" c (db.exchange_rates (upserted_all rates cs q)) <> []
    /\ Forall (fun r => pair_of r = ("USD", c) /\ Rate r = fmt_Sprintf_10f (rate_in rates c))
              (rows_for "USD" c (db.exchange_rates (upserted_all rates cs q))).
Proof.
  induction cs as [| c0 cs IH]; intros q Hnd Hin; [destruct Hin |].
  apply NoDup_cons in Hnd as [Hc0 Hnd]. cbn [upserted_all fold_left].
  destruct (string_dec c c0) as [-> | Hne].
  - fold (upserted_all rates cs (upserted rates q c0)).
    rewrite rows_for_upserted_all_other.
    + cbn.
      destruct (rows_for_upsert_same (db.now q (length (db.statements q))) "USD" c0
                  (fmt_Sprintf_10f (rate_in rates c0)) (db.exchange_rates q)) as [Hne Hall].
      split; [exact Hne |].
      rewrite Forall_forall in Hall |- *. intros r Hr.
      destruct (Hall r Hr) as (Hp & Hrate & _). auto.
    + intros c' Hc' [= <-]. apply Hc0. now rewrite list_elem_of_In.
  - apply IH; [exact Hnd |]. destruct Hin as [<- | Hin]; [contradiction | exact Hin].
Qed.

(** A cycle in which an upsert fails: what it returns and what it leaves. *)
Lemma UpdateAllRates_fails (q : db.Queries) (base date : string) (rates : gmap string float)
    (done : list string) (c : string) (rest : list string) (msg : string) :
  let rates' := <["USD" := 1%float]> rates in
  present rates' services.SupportedCurrencies = done ++ c :: rest ->
  (forall c', In c' done -> db.upsert_error q "USD" c' = None) ->
  db.upsert_error q "USD" c = Some msg ->
  let cycle := services.UpdateAllRates (decoded base date rates) q in
  cycle = (services.Returns (Some (Errorf "failed to update rate" (ErrDriver msg))),
           logged [upsert_stmt rates' c] (upserted_all rates' done q))
  /\ db.statements (snd cycle) = db.statements q ++ map (upsert_stmt rates') (done ++ [c])
  /\ db.exchange_rates (snd cycle) = db.exchange_rates (upserted_all rates' done q)
  /\ (forall c', In c' done ->
        exists row, sql_GetExchangeRate "USD" c' (db.exchange_rates (snd cycle)) = Some row
                    /\ pair_of row = ("USD", c')
                    /\ Rate row = fmt_Sprintf_10f (rate_in rates' c'))
  /\ (forall b c', b <> "USD" \/ ~ In c' done ->
        rows_for b c' (db.exchange_rates (snd cycle)) = rows_for b c' (db.exchange_rates q))
  /\ (done = [] -> db.exchange_rates (snd cycle) = db.exchange_rates q).
Proof.
  intros rates' Hp Hdone He cycle.
  assert (Hrun : cycle
                 = (services.Returns (Some (Errorf "failed to update rate" (ErrDriver msg))),
                    logged [upsert_stmt rates' c] (upserted_all rates' done q))).
  { unfold cycle, services.UpdateAllRates, decoded. cbn [services.StatusCode services.Decode
      services.Rates Z.eqb Pos.eqb negb]. fold rates'. unfold db.bind.
    now rewrite (updateRates_fails rates' services.SupportedCurrencies 0 q done c rest msg
                   Hp Hdone He). }
  assert (Hnodup : NoDup done).
  { pose proof (NoDup_present rates' _ NoDup_SupportedCurrencies) as Hnd.
    rewrite Hp in Hnd. apply NoDup_app in Hnd as [Hnd _]. exact Hnd. }
  rewrite Hrun. cbn [fst snd logged db.statements db.exchange_rates].
  split; [reflexivity |]. split; [| split; [reflexivity |]; split; [| split]].
  - rewrite statements_upserted_all, map_app, <- app_assoc. reflexivity.
  - intros c' Hc'.
    destruct (rows_for_upserted_all_in rates' done c' q Hnodup Hc') as [Hne Hall].
    rewrite sql_GetExchangeRate_rows_for.
    destruct (rows_for "USD" c' _) as [| row l]; [congruence |].
    exists row. apply Forall_cons in Hall as [[Hpair Hrate] _]. auto.
  - intros b c' Hbc. apply rows_for_upserted_all_other.
    intros c'' Hc'' [= -> ->]. destruct Hbc as [Hb | Hc]; [congruence | contradiction].
  - intros ->. reflexivity.
Qed.

End RefreshFacts.

(** C6, as the specification states it, fails when an upsert fails: the
    response below parses and contains GBP, the upsert of EUR fails, the
    cycle returns that error and GBP is not upserted. *)
Lemma refresh_stops_at_the_first_failed_upsert :
  let cycle := @services.UpdateAllRates goruntime.go
                 (decoded "USD" "2025-10-26" eur_gbp_rates)
                 (failing_on "EUR" "connection lost") in
  fst cycle = services.Returns
                (Some (Errorf "failed to update rate" (ErrDriver "connection lost")))
  /\ In "GBP" services.SupportedCurrencies
  /\ (<["USD" := 1%float]> eur_gbp_rates) !! "GBP" = Some 0.79%float
  /\ sql_GetExchangeRate "USD" "GBP" (db.exchange_rates (snd cycle)) = None.
Proof. vm_compute. tauto. Qed.

(** C6, amended. For every refresh cycle whose response parses into a
    mapping: the refresher adds rate 1.0 for "USD" to the mapping and walks
    the 13 supported currencies in the order of the list, sending one upsert
    ("USD", code, rate) for each that the mapping contains and none for the
    others. When no upsert fails it returns no error; afterwards the lookup
    of every supported code of the mapping finds a row with its rate,
    printed with ten fractional digits, and every pair that was not
    upserted, such as ("USD", "INR") when the response omits INR, has the
    rows that it had. When an upsert fails the cycle stops there and
    returns that error, wrapped: the codes before the failing one are
    upserted and their rows hold their rates, the failing upsert is the last
    statement sent, and the failing code and every code after it keep the
    rows that they had. *)
Theorem refresh_upserts_the_supported_currencies_of_the_response :
  forall `{Runtime} (q : db.Queries) (base date : string) (rates : gmap string float),
    let rates' := <["USD" := 1%float]> rates in
    let cycle := services.UpdateAllRates (decoded base date rates) q in
    let codes := present rates' services.SupportedCurrencies in
    length services.SupportedCurrencies = 13%nat
    /\ rates' !! "USD" = Some 1%float
    /\ ((forall c, In c codes -> db.upsert_error q "USD" c = None) ->
        fst cycle = services.Returns None
        /\ db.statements (snd cycle) = db.statements q ++ map (upsert_stmt rates') codes
        /\ (forall c r, In c services.SupportedCurrencies -> rates' !! c = Some r ->
              exists row, sql_GetExchangeRate "USD" c (db.exchange_rates (snd cycle)) = Some row
                          /\ pair_of row = ("USD", c) /\ Rate row = fmt_Sprintf_10f r)
        /\ (forall b c, b <> "USD" \/ ~ In c services.SupportedCurrencies \/ rates' !! c = None ->
              rows_for b c (db.exchange_rates (snd cycle)) = rows_for b c (db.exchange_rates q)))
    /\ (forall (done : list string) (c : string) (rest : list string) (msg : string),
          codes = done ++ c :: rest ->
          (forall c', In c' done -> db.upsert_error q "USD" c' = None) ->
          db.upsert_error q "USD" c = Some msg ->
          fst cycle
          = services.Returns (Some (Errorf "failed to update rate" (ErrDriver msg)))
          /\ db.statements (snd cycle)
             = db.statements q ++ map (upsert_stmt rates') (done ++ [c])
          /\ (forall c', In c' done ->
                exists row,
                  sql_GetExchangeRate "USD" c' (db.exchange_rates (snd cycle)) = Some row
                  /\ pair_of row = ("USD", c')
                  /\ Rate row = fmt_Sprintf_10f (rate_in rates' c'))
          /\ (forall c', c' = c \/ In c' rest ->
                rows_for "USD" c' (db.exchange_rates (snd cycle))
                = rows_for "USD" c' (db.exchange_rates q))).
Proof.
  intros rt q base date rates rates' cycle codes.
  split; [reflexivity |]. split; [apply lookup_insert_eq |]. split.
  - intros Hok.
    assert (Hrun : cycle = (services.Returns None, upserted_all rates' codes q)).
    { unfold cycle, services.UpdateAllRates, decoded. cbn [services.StatusCode services.Decode
        services.Rates Z.eqb Pos.eqb negb]. fold rates'. unfold db.bind.
      now rewrite (updateRates_ok rates' services.SupportedCurrencies 0 q Hok). }
    rewrite Hrun. cbn [fst snd]. repeat split.
    + apply statements_upserted_all.
    + intros c r Hc Hr.
      destruct (rows_for_upserted_all_in rates' codes c q) as [Hne Hall].
      * apply NoDup_present, NoDup_SupportedCurrencies.
      * apply In_present. split; [exact Hc | now rewrite Hr].
      * rewrite sql_GetExchangeRate_rows_for.
        destruct (rows_for "USD" c _) as [| row l]; [congruence |].
        exists row. apply Forall_cons in Hall as [[Hp Hrate] _].
        unfold rate_in in Hrate. rewrite Hr in Hrate. auto.
    + intros b c Hbc. apply rows_for_upserted_all_other.
      intros c' Hc' [= -> ->]. apply In_present in Hc' as [Hin [r Hr]].
      destruct Hbc as [Hb | [Hc | Hc]]; [congruence | contradiction | congruence].
  - intros done c rest msg Hp Hdone He.
    destruct (UpdateAllRates_fails q base date rates done c rest msg Hp Hdone He)
      as (Hrun & Hst & _ & Hrows & Hother & _).
    fold rates' cycle in Hrun, Hst, Hrows, Hother.
    split; [now rewrite Hrun |]. split; [exact Hst |]. split; [exact Hrows |].
    intros c' Hc'. apply Hother. right.
    pose proof (NoDup_present rates' _ NoDup_SupportedCurrencies) as Hnd.
    fold codes in Hnd. rewrite Hp in Hnd. apply NoDup_app in Hnd as (_ & Hdisj & _).
    intros Hin. apply (Hdisj c'); [now apply list_elem_of_In |].
    apply list_elem_of_In. destruct Hc' as [-> | Hrest]; [now left | now right].
Qed.

Lemma refresh_upserts_the_supported_currencies_of_the_response_witness :
  (let cycle := @services.UpdateAllRates goruntime.go
                  (decoded "USD" "2025-10-26" eur_gbp_rates)
                  (failing_on "INR" "connection lost") in
   fst cycle = services.Returns None
   /\ db.statements (snd cycle)
      = [ db.UpsertRate "USD" "USD" "1.0000000000";
          db.UpsertRate "USD" "EUR" "0.9200000000";
          db.UpsertRate "USD" "GBP" "0.7900000000" ]
   /\ rows_for "USD" "INR" (db.exchange_rates (snd cycle))
      = [ {| ID := 1; BaseCurrency := "USD"; TargetCurrency := "INR";
             Rate := "83.1200000000"; UpdatedAt := 0 |} ])
  /\ (let cycle := @services.UpdateAllRates goruntime.go
                     (decoded "USD" "2025-10-26" eur_gbp_rates)
                     (failing_on "GBP" "connection lost") in
      fst cycle
      = services.Returns (Some (Errorf "failed to update rate" (ErrDriver "connection lost")))
      /\ db.statements (snd cycle)
         = [ db.UpsertRate "USD" "USD" "1.0000000000";
             db.UpsertRate "USD" "EUR" "0.9200000000";
             db.UpsertRate "USD" "GBP" "0.7900000000" ]
      /\ rows_for "USD" "GBP" (db.exchange_rates (snd cycle)) = []).
Proof.
  split.
  - destruct (@refresh_upserts_the_supported_currencies_of_the_response goruntime.go
                (failing_on "INR" "connection lost") "USD" "2025-10-26" eur_gbp_rates)
      as (_ & _ & Hsuccess & _).
    destruct Hsuccess as (Hret & Hst & _ & Hother).
    + intros c Hc. vm_compute in Hc.
      destruct Hc as [<- | [<- | [<- | []]]]; reflexivity.
    + split; [exact Hret |]. split; [exact Hst |].
      apply (Hother "USD" "INR"). right. right. reflexivity.
  - destruct (@refresh_upserts_the_supported_currencies_of_the_response goruntime.go
                (failing_on "GBP" "connection lost") "USD" "2025-10-26" eur_gbp_rates)
      as (_ & _ & _ & Hfailure).
    destruct (Hfailure ["USD"; "EUR"] "GBP" [] "connection lost") as (Hret & Hst & _ & Hkept).
    + reflexivity.
    + intros c' [<- | [<- | []]]; reflexivity.
    + reflexivity.
    + split; [exact Hret |]. split; [exact Hst |].
      rewrite (Hkept "GBP") by now left. reflexivity.
Defined.

(** C7, as the specification states it, fails for a cycle that the timeout
    cuts short inside the loop: below the deadline passes after the first
    upsert, UpdateAllRates returns the error of the second, and the table,
    empty before the cycle, holds the row of USD. *)
Lemma timed_out_refresh_keeps_the_rows_written :
  let before := only_upserting "USD" "context deadline exceeded" in
  let cycle := @services.UpdateAllRates goruntime.go
                 (decoded "USD" "2025-10-26" eur_gbp_rates) before in
  fst cycle = services.Returns
                (Some (Errorf "failed to update rate" (ErrDriver "context deadline exceeded")))
  /\ rows (db.exchange_rates before) = []
  /\ rows (db.exchange_rates (snd cycle))
     = [ {| ID := 1; BaseCurrency := "USD"; TargetCurrency := "USD";
            Rate := "1.0000000000"; UpdatedAt := 0 |} ].
Proof. vm_compute. tauto. Qed.

(** C7, amended. A refresh cycle that is aborted by a failure of the
    outbound request (http.Get fails, the status is not 200, or the body
    does not decode) returns an error and leaves the store exactly as it
    was: no statement is sent. A cycle that is aborted inside the loop, by
    the timeout of its context or by a failure of the storage, that is, a
    cycle in which an upsert fails, also returns an error, that of the
    first upsert that failed; the upserts of the supported currencies
    before that one stay written, with their rates, so the table is
    unchanged only when the first upsert is the one that fails. Conversely
    a cycle whose response decodes returns an error only when an upsert
    failed. *)
Theorem aborted_refresh_returns_an_error :
  forall `{Runtime} (q : db.Queries),
    (forall e, services.UpdateAllRates (Err e) q
               = (services.Returns (Some (Errorf "failed to fetch exchange rates" e)), q))
    /\ (forall code body, code <> 200%Z ->
          services.UpdateAllRates
            (Ok {| services.StatusCode := code; services.Decode := body |}) q
          = (services.Returns (Some (ErrorStatus code)), q))
    /\ (forall e, services.UpdateAllRates
                    (Ok {| services.StatusCode := 200; services.Decode := Err e |}) q
                  = (services.Returns (Some (Errorf "failed to decode API response" e)), q))
    /\ (forall base date rates (done : list string) (c : string) (rest : list string)
               (msg : string),
          let rates' := <["USD" := 1%float]> rates in
          let cycle := services.UpdateAllRates (decoded base date rates) q in
          present rates' services.SupportedCurrencies = done ++ c :: rest ->
          (forall c', In c' done -> db.upsert_error q "USD" c' = None) ->
          db.upsert_error q "USD" c = Some msg ->
          fst cycle
          = services.Returns (Some (Errorf "failed to update rate" (ErrDriver msg)))
          /\ db.exchange_rates (snd cycle) = db.exchange_rates (upserted_all rates' done q)
          /\ db.statements (snd cycle)
             = db.statements q ++ map (upsert_stmt rates') (done ++ [c])
          /\ (forall c', In c' done ->
                exists row,
                  sql_GetExchangeRate "USD" c' (db.exchange_rates (snd cycle)) = Some row
                  /\ pair_of row = ("USD", c')
                  /\ Rate row = fmt_Sprintf_10f (rate_in rates' c'))
          /\ (done = [] -> db.exchange_rates (snd cycle) = db.exchange_rates q))
    /\ (forall base date rates err q',
          services.UpdateAllRates (decoded base date rates) q = (services.Returns (Some err), q') ->
          let rates' := <["USD" := 1%float]> rates in
          exists done c rest msg,
            present rates' services.SupportedCurrencies = done ++ c :: rest
            /\ db.upsert_error q "USD" c = Some msg
            /\ (forall c', In c' done -> db.upsert_error q "USD" c' = None)
            /\ err = Errorf "failed to update rate" (ErrDriver msg)
            /\ db.exchange_rates q' = db.exchange_rates (upserted_all rates' done q)
            /\ db.statements q'
               = db.statements q ++ map (upsert_stmt rates') (done ++ [c])
            /\ (done = [] -> db.exchange_rates q' = db.exchange_rates q)).
Proof.
  intros rt q. split; [reflexivity |]. split; [| split; [reflexivity |]; split].
  - intros code body Hcode. unfold services.UpdateAllRates. cbn [services.StatusCode].
    apply Z.eqb_neq in Hcode. now rewrite Hcode.
  - intros base date rates done c rest msg rates' cycle Hp Hdone He.
    destruct (UpdateAllRates_fails q base date rates done c rest msg Hp Hdone He)
      as (Hrun & Hst & Htbl & Hrows & _ & Hfirst).
    fold rates' cycle in Hrun, Hst, Htbl, Hrows, Hfirst.
    split; [now rewrite Hrun |]. auto.
  - intros base date rates err q' Hrun rates'.
    unfold services.UpdateAllRates, decoded in Hrun.
    cbn [services.StatusCode services.Decode services.Rates Z.eqb Pos.eqb negb] in Hrun.
    fold rates' in Hrun. unfold db.bind in Hrun.
    destruct (services.updateRates rates' services.SupportedCurrencies 0 q)
      as [[e n] q1] eqn:Hloop.
    injection Hrun as -> ->.
    apply updateRates_err in Hloop as (done & c & rest & msg & Hp & He & Hdone & -> & ->).
    exists done, c, rest, msg. repeat split; auto.
    + cbn. rewrite statements_upserted_all, map_app, <- app_assoc. reflexivity.
    + intros ->. reflexivity.
Qed.

Lemma aborted_refresh_returns_an_error_witness :
  @services.UpdateAllRates goruntime.go
    (Ok {| services.StatusCode := 503; services.Decode := Err (ErrJSON "unexpected end") |})
    (store_of eur_table)
  = (services.Returns (Some (ErrorStatus 503)), store_of eur_table)
  /\ (let cycle := @services.UpdateAllRates goruntime.go
                     (decoded "USD" "2025-10-26" eur_gbp_rates)
                     (only_upserting "USD" "context deadline exceeded") in
      fst cycle
      = services.Returns
          (Some (Errorf "failed to update rate" (ErrDriver "context deadline exceeded")))
      /\ db.statements (snd cycle)
         = [ db.UpsertRate "USD" "USD" "1.0000000000";
             db.UpsertRate "USD" "EUR" "0.9200000000" ]
      /\ exists row,
           sql_GetExchangeRate "USD" "USD" (db.exchange_rates (snd cycle)) = Some row
           /\ Rate row = "1.0000000000").
Proof.
  destruct (@aborted_refresh_returns_an_error goruntime.go (store_of eur_table))
    as (_ & Hstatus & _).
  destruct (@aborted_refresh_returns_an_error goruntime.go
              (only_upserting "USD" "context deadline exceeded"))
    as (_ & _ & _ & Hloop & _).
  split.
  - apply Hstatus. discriminate.
  - destruct (Hloop "USD" "2025-10-26" eur_gbp_rates ["USD"] "EUR" ["GBP"]
                "context deadline exceeded") as (Hret & _ & Hst & Hrows & _).
    + reflexivity.
    + intros c' [<- | []]. reflexivity.
    + reflexivity.
    + split; [exact Hret |]. split; [exact Hst |].
      destruct (Hrows "USD") as (row & Hrow & _ & Hrate); [now left |].
      exists row. split; [exact Hrow | exact Hrate].
Defined.

(** ** The statistics handlers *)

Section HandlerFacts.
Context `{Runtime}.

Lemma multiplier_logged (l : list db.Stmt) (q : db.Queries) (R c : string) :
  multiplier (logged l q) R c = multiplier q R c.
Proof. unfold multiplier. now rewrite convert_logged. Qed.

Lemma conversion_stmts_logged (l : list db.Stmt) (q : db.Queries) (from to : string) :
  conversion_stmts (logged l q) from to = conversion_stmts q from to.
Proof. unfold conversion_stmts. now rewrite lookup_logged. Qed.

(** The statements sent are those of one conversion per currency of the list. *)
Lemma fetchConversionRates_stmts (R : string) (cs : list string) :
  forall (m : gmap string float) (q : db.Queries),
    snd (handlers.fetchConversionRates R cs m q)
    = logged (flat_map (fun c => conversion_stmts q c R) cs) q.
Proof.
  induction cs as [| c cs IH]; intros m q; cbn [handlers.fetchConversionRates flat_map].
  - cbn. now rewrite logged_nil.
  - unfold db.bind. pose proof (ConvertAmount_stmts 1%float c R q) as Hst.
    destruct (services.ConvertAmount 1%float c R q) as [[v err] q1]. cbn [snd] in Hst. subst q1.
    destruct err as [e |]; rewrite IH, logged_logged; f_equal; f_equal;
      apply flat_map_ext; intros c'; apply conversion_stmts_logged.
Qed.

(** Every currency of the list gets its multiplier; the others keep what
    the map held. *)
Lemma fetchConversionRates_lookup (R : string) (cs : list string) (c : string) :
  forall (m : gmap string float) (q : db.Queries),
    fst (handlers.fetchConversionRates R cs m q) !! c
    = if bool_decide (c ∈ cs) then Some (multiplier q R c) else m !! c.
Proof.
  induction cs as [| c0 cs IH]; intros m q; cbn [handlers.fetchConversionRates].
  - cbn. rewrite bool_decide_false; [reflexivity | apply not_elem_of_nil].
  - unfold db.bind. destruct (ConvertAmount_state 1%float c0 R q) as [l Hst].
    assert (Hm : multiplier q R c0
                 = match fst (services.ConvertAmount 1%float c0 R q) with
                   | (v, None) => v
                   | (_, Some _) => 1%float
                   end) by reflexivity.
    destruct (services.ConvertAmount 1%float c0 R q) as [[v err] q1].
    cbn [fst snd] in Hst, Hm. subst q1.
    assert (Hgoal : forall x, multiplier q R c0 = x ->
              fst (handlers.fetchConversionRates R cs (<[c0 := x]> m) (logged l q)) !! c
              = if bool_decide (c ∈ c0 :: cs) then Some (multiplier q R c) else m !! c).
    { intros x Hx. rewrite IH, multiplier_logged.
      destruct (decide (c ∈ cs)) as [Hin | Hnin].
      - rewrite !bool_decide_true; [reflexivity | now right | exact Hin].
      - rewrite (bool_decide_false _ Hnin). destruct (decide (c = c0)) as [-> | Hne].
        + rewrite lookup_insert_eq, bool_decide_true; [now rewrite Hx | now left].
        + rewrite lookup_insert_ne by congruence.
          rewrite bool_decide_false; [reflexivity |].
          intros Hin. apply elem_of_cons in Hin as [? | ?]; contradiction. }
    destruct err as [e |]; apply Hgoal; exact Hm.
Qed.

(** The currencies needed are those of the clients that differ from the
    currency of the user. *)
Lemma elem_of_currenciesNeededOf (R : string) (clients : list db.GetClientsByUserIDRow)
    (c : string) :
  c ∈ handlers.currenciesNeededOf R clients
  <-> exists client, In client clients /\ db.client_Currency client = c /\ c <> R.
Proof.
  unfold handlers.currenciesNeededOf.
  assert (Hgen : forall acc : gset string,
            c ∈ fold_left (fun currenciesNeeded client =>
                             if negb (String.eqb (db.client_Currency client) R)
                             then {[ db.client_Currency client ]} ∪ currenciesNeeded
                             else currenciesNeeded) clients acc
            <-> c ∈ acc \/ exists client, In client clients
                                          /\ db.client_Currency client = c /\ c <> R).
  { induction clients as [| client clients IH]; intros acc; cbn [fold_left].
    - split; [auto | intros [? | (? & [] & _)]; assumption].
    - rewrite IH. destruct (String.eqb_spec (db.client_Currency client) R) as [He | Hne];
        cbn [negb].
      + split.
        * intros [? | (cl & Hin & Hc & Hr)]; [auto | right; exists cl; cbn; auto].
        * intros [? | (cl & [<- | Hin] & Hc & Hr)]; [auto | congruence | right; exists cl; auto].
      + rewrite elem_of_union, elem_of_singleton. split.
        * intros [[-> | ?] | (cl & Hin & Hc & Hr)];
            [right; exists client; cbn; auto | auto | right; exists cl; cbn; auto].
        * intros [? | (cl & [<- | Hin] & Hc & Hr)]; [auto | auto | right; exists cl; auto]. }
  rewrite Hgen. split; [intros [Hin | ?]; [| assumption] | auto].
  now apply not_elem_of_empty in Hin.
Qed.

(** A client found in the map under an id is one of the clients and has
    that id. *)
Lemma clientsMapOf_In (clients : list db.GetClientsByUserIDRow) (id : Z)
    (client : db.GetClientsByUserIDRow) :
  handlers.clientsMapOf clients !! id = Some client ->
  In client clients /\ db.client_ID client = id.
Proof.
  unfold handlers.clientsMapOf.
  assert (Hgen : forall acc : gmap Z db.GetClientsByUserIDRow,
            fold_left (fun clientsMap cl => <[db.client_ID cl := cl]> clientsMap) clients acc
              !! id = Some client ->
            acc !! id = Some client \/ (In client clients /\ db.client_ID client = id)).
  { induction clients as [| cl clients IH]; intros acc; cbn [fold_left]; [auto |].
    intros Hl. apply IH in Hl as [Hl | [Hin Hid]]; [| right; split; [now right | exact Hid]].
    destruct (decide (db.client_ID cl = id)) as [<- | Hne].
    - rewrite lookup_insert_eq in Hl. injection Hl as ->. right. split; [now left | reflexivity].
    - rewrite lookup_insert_ne in Hl by exact Hne. now left. }
  intros Hl. apply Hgen in Hl as [Hl | Hin]; [| exact Hin].
  rewrite lookup_empty in Hl. discriminate.
Qed.

(** The rates that a pass fetches are the multipliers that it resolves. *)
Lemma fetched_rates (q : db.Queries) (R : string) (clients : list db.GetClientsByUserIDRow)
    (c : string) :
  fst (handlers.fetchConversionRates R (elements (handlers.currenciesNeededOf R clients)) ∅ q)
    !! c
  = resolved q R clients c.
Proof.
  rewrite fetchConversionRates_lookup. unfold resolved.
  rewrite lookup_empty.
  destruct (decide (c ∈ handlers.currenciesNeededOf R clients)) as [Hin | Hnin].
  - rewrite !bool_decide_true; [reflexivity | exact Hin | now apply elem_of_elements].
  - rewrite !bool_decide_false; [reflexivity | exact Hnin | now rewrite elem_of_elements].
Qed.

Lemma resolved_client (q : db.Queries) (R : string) (clients : list db.GetClientsByUserIDRow)
    (client : db.GetClientsByUserIDRow) :
  In client clients -> db.client_Currency client <> R ->
  resolved q R clients (db.client_Currency client)
  = Some (multiplier q R (db.client_Currency client)).
Proof.
  intros Hin Hne. unfold resolved. rewrite bool_decide_true; [reflexivity |].
  apply elem_of_currenciesNeededOf. exists client. auto.
Qed.

(** The order in which the loop meets the currencies does not matter for
    the rates: in every order it fetches the multipliers that the pass
    resolves, by the statements of one conversion for each currency. *)
Lemma fetchConversionRates_order (q : db.Queries) (R : string)
    (clients : list db.GetClientsByUserIDRow) (order : list string) :
  Permutation order (elements (handlers.currenciesNeededOf R clients)) ->
  fst (handlers.fetchConversionRates R order ∅ q)
  = fst (handlers.fetchConversionRates R (elements (handlers.currenciesNeededOf R clients)) ∅ q)
  /\ (forall c, fst (handlers.fetchConversionRates R order ∅ q) !! c = resolved q R clients c)
  /\ snd (handlers.fetchConversionRates R order ∅ q)
     = logged (flat_map (fun c => conversion_stmts q c R) order) q.
Proof.
  intros Hperm.
  assert (Hlookup : forall c, fst (handlers.fetchConversionRates R order ∅ q) !! c
                              = resolved q R clients c).
  { intros c. rewrite <- fetched_rates, !fetchConversionRates_lookup.
    destruct (decide (c ∈ order)) as [Hin | Hnin].
    - rewrite !bool_decide_true; [reflexivity | now rewrite <- Hperm | exact Hin].
    - rewrite !bool_decide_false; [reflexivity | now rewrite <- Hperm | exact Hnin]. }
  split; [| split; [exact Hlookup | apply fetchConversionRates_stmts]].
  apply map_eq. intros c. now rewrite Hlookup, fetched_rates.
Qed.

End HandlerFacts.

Section DashboardFacts.
Context `{Runtime}.

(** The lookups of the service do not read the time entries. *)
Lemma convert_with_entries (es : list db.GetTimeEntriesByUserIDRow) (q : db.Queries)
    (a : float) (from to : string) :
  convert (with_entries es q) a from to = convert q a from to.
Proof.
  assert (Hl : forall c, lookup (with_entries es q) c = lookup q c).
  { intros c. unfold lookup, services.GetExchangeRate.
    destruct (String.eqb "USD" c); [reflexivity |].
    unfold db.bind, db.GetExchangeRate. cbn [db.select_error db.exchange_rates with_entries].
    destruct (db.select_error q "USD" c); [reflexivity |].
    destruct (sql_GetExchangeRate "USD" c (db.exchange_rates q)) as [row |]; [| reflexivity].
    cbn [fst]. destruct (strconv_ParseFloat (Rate row)) as [rate [e |]]; reflexivity. }
  now rewrite !ConvertAmount_result, !Hl.
Qed.

Lemma multiplier_with_entries (es : list db.GetTimeEntriesByUserIDRow) (q : db.Queries)
    (R c : string) :
  multiplier (with_entries es q) R c = multiplier q R c.
Proof. unfold multiplier. now rewrite convert_with_entries. Qed.

Lemma entryItems_cons (clients : list db.GetClientsByUserIDRow) (keep : Time -> bool)
    (e : db.GetTimeEntriesByUserIDRow) (es : list db.GetTimeEntriesByUserIDRow) :
  entryItems clients keep (e :: es) = entryItems clients keep [e] ++ entryItems clients keep es.
Proof. unfold entryItems. cbn [flat_map]. now rewrite app_nil_r. Qed.

(** One round of the loop over the time entries of the dashboard adds the
    hours of an entry in the range, and its amount when its client is known. *)
Lemma dashboardEntry_step (R : string) (range : option Time * option Time)
    (clients : list db.GetClientsByUserIDRow) (rates : gmap string float)
    (m : string -> float) :
  (forall client, In client clients -> db.client_Currency client <> R ->
                  rates !! db.client_Currency client = Some (m (db.client_Currency client))) ->
  forall (e : db.GetTimeEntriesByUserIDRow) (h r : float),
    handlers.dashboardEntry R (fst range) (snd range) (handlers.clientsMapOf clients) rates
      (h, r) e
    = (if inRange range (db.entry_Date e) then (h + hoursOf e)%float else h,
       fold_left (addItem R m) (entryItems clients (inRange range) [e]) r).
Proof.
  intros Hrates e h r. unfold handlers.dashboardEntry, entryItems, inRange. cbn [flat_map].
  destruct (handlers.filteredOut (fst range) (snd range) (db.entry_Date e)); cbn [negb].
  - reflexivity.
  - fold (hoursOf e).
    destruct (handlers.clientsMapOf clients !! db.entry_ClientID e) as [client |] eqn:Hc.
    + apply clientsMapOf_In in Hc as [Hin _]. cbn [app fold_left].
      unfold addItem. cbn [currency amount].
      destruct (String.eqb_spec (db.client_Currency client) R) as [He | Hne]; cbn [negb].
      * reflexivity.
      * now rewrite (Hrates client Hin Hne).
    + reflexivity.
Qed.

Lemma dashboardEntry_totals (R : string) (range : option Time * option Time)
    (clients : list db.GetClientsByUserIDRow) (rates : gmap string float)
    (m : string -> float) :
  (forall client, In client clients -> db.client_Currency client <> R ->
                  rates !! db.client_Currency client = Some (m (db.client_Currency client))) ->
  forall (es : list db.GetTimeEntriesByUserIDRow) (h r : float),
    fold_left (handlers.dashboardEntry R (fst range) (snd range)
                 (handlers.clientsMapOf clients) rates) es (h, r)
    = (fold_left (fun h entry => (h + hoursOf entry)%float)
                 (List.filter (fun entry => inRange range (db.entry_Date entry)) es) h,
       fold_left (addItem R m) (entryItems clients (inRange range) es) r).
Proof.
  intros Hrates. induction es as [| e es IH]; intros h r; [reflexivity |].
  cbn [fold_left List.filter]. rewrite entryItems_cons, fold_left_app.
  rewrite (dashboardEntry_step R range clients rates m Hrates), IH.
  destruct (inRange range (db.entry_Date e)); reflexivity.
Qed.

(** The reply of GetDashboardStats when its queries succeed and its dates
    parse. *)
Lemma GetDashboardStats_reply (c : handlers.Context) (q : db.Queries)
    (user : db.GetUserByIDRow) (range : option Time * option Time)
    (timeEntries : list db.GetTimeEntriesByUserIDRow)
    (clients : list db.GetClientsByUserIDRow) (invoices : list db.Invoice) :
  db.GetUserByID q (handlers.user_id c) = Ok user ->
  dashboardRange c = Some range ->
  db.GetTimeEntriesByUserID q (handlers.user_id c) = Ok timeEntries ->
  db.GetClientsByUserID q (handlers.user_id c) = Ok clients ->
  db.GetInvoicesByUserID q (handlers.user_id c) = Ok invoices ->
  exists body,
    handlers.GetDashboardStats c q
    = (handlers.JSONOK body, logged (pass_stmts q (handlers.userCurrencyOf user) clients) q)
    /\ handlers.TotalHours body
       = sumHours (List.filter (fun entry => inRange range (db.entry_Date entry)) timeEntries)
    /\ handlers.TotalRevenue body
       = total_in (handlers.userCurrencyOf user) (multiplier q (handlers.userCurrencyOf user))
           (entryItems clients (inRange range) timeEntries).
Proof.
  intros Hu Hrange He Hc Hi.
  unfold handlers.GetDashboardStats, db.bind, handlers.query. rewrite Hu.
  unfold dashboardRange in Hrange.
  destruct (handlers.dateParam (handlers.QueryParam c "from")) as [fromDate |]; [| discriminate].
  destruct (handlers.dateParam (handlers.QueryParam c "to")) as [parsed |]; [| discriminate].
  injection Hrange as <-. rewrite He, Hc.
  set (R := handlers.userCurrencyOf user).
  pose proof (fetched_rates q R clients) as Hrates.
  pose proof (fetchConversionRates_stmts R (elements (handlers.currenciesNeededOf R clients)) ∅ q)
    as Hst.
  fold (pass_stmts q R clients) in Hst.
  destruct (handlers.fetchConversionRates R (elements (handlers.currenciesNeededOf R clients)) ∅ q)
    as [rates q1]. cbn [fst snd] in Hrates, Hst. subst q1.
  assert (Hm : forall client, In client clients -> db.client_Currency client <> R ->
                 rates !! db.client_Currency client
                 = Some (multiplier q R (db.client_Currency client)))
    by (intros client Hin Hne; rewrite Hrates; now apply resolved_client).
  pose proof (dashboardEntry_totals R (fromDate, option_map endOfDay parsed) clients rates
                (multiplier q R) Hm timeEntries 0%float 0%float) as Ht.
  cbn [fst snd] in Ht. rewrite Ht.
  cbn [logged db.GetInvoicesByUserID]. rewrite Hi.
  match goal with |- context [fold_left ?f invoices ?a] => destruct (fold_left f invoices a) end.
  eexists. split; [reflexivity |]. split; reflexivity.
Qed.

(** An entry whose client is none of the clients yields no item. *)
Lemma entryItems_orphan (clients : list db.GetClientsByUserIDRow) (keep : Time -> bool)
    (es1 es2 : list db.GetTimeEntriesByUserIDRow) (e : db.GetTimeEntriesByUserIDRow) :
  (forall client, In client clients -> db.client_ID client <> db.entry_ClientID e) ->
  entryItems clients keep (es1 ++ e :: es2) = entryItems clients keep (es1 ++ es2).
Proof.
  intros Horphan. unfold entryItems. rewrite !flat_map_app. cbn [flat_map].
  destruct (handlers.clientsMapOf clients !! db.entry_ClientID e) as [client |] eqn:Hc.
  - apply clientsMapOf_In in Hc as [Hin Hid]. now apply Horphan in Hin.
  - destruct (keep (db.entry_Date e)); reflexivity.
Qed.

End DashboardFacts.

Section StatsFacts.
Context `{Runtime}.

(** One round of the loop of the time-entry statistics. *)
Lemma timeEntryStep_step (R : string) (range : Time * Time)
    (clients : list db.GetClientsByUserIDRow) (rates : gmap string float)
    (m : string -> float) :
  (forall client, In client clients -> db.client_Currency client <> R ->
                  rates !! db.client_Currency client = Some (m (db.client_Currency client))) ->
  forall (e : db.GetTimeEntriesByUserIDRow) (acc : handlers.entryAcc),
    handlers.acc_totalRevenue
      (handlers.timeEntryStep R (fst range) (snd range) (handlers.clientsMapOf clients) rates
         acc e)
    = fold_left (addItem R m) (entryItems clients (inView range) [e])
        (handlers.acc_totalRevenue acc).
Proof.
  intros Hrates e acc. unfold handlers.timeEntryStep, entryItems, inView. cbn [flat_map].
  destruct (handlers.Before (db.entry_Date e) (fst range)
            || handlers.After (db.entry_Date e) (snd range)); cbn [negb].
  - reflexivity.
  - fold (hoursOf e).
    destruct (handlers.clientsMapOf clients !! db.entry_ClientID e) as [client |] eqn:Hc.
    + apply clientsMapOf_In in Hc as [Hin _]. cbn [app fold_left handlers.acc_totalRevenue].
      unfold addItem. cbn [currency amount].
      destruct (String.eqb_spec (db.client_Currency client) R) as [He | Hne]; cbn [negb].
      * reflexivity.
      * now rewrite (Hrates client Hin Hne).
    + reflexivity.
Qed.

Lemma timeEntryStep_totals (R : string) (range : Time * Time)
    (clients : list db.GetClientsByUserIDRow) (rates : gmap string float)
    (m : string -> float) :
  (forall client, In client clients -> db.client_Currency client <> R ->
                  rates !! db.client_Currency client = Some (m (db.client_Currency client))) ->
  forall (es : list db.GetTimeEntriesByUserIDRow) (acc : handlers.entryAcc),
    handlers.acc_totalRevenue
      (fold_left (handlers.timeEntryStep R (fst range) (snd range)
                    (handlers.clientsMapOf clients) rates) es acc)
    = fold_left (addItem R m) (entryItems clients (inView range) es)
        (handlers.acc_totalRevenue acc).
Proof.
  intros Hrates. induction es as [| e es IH]; intros acc; [reflexivity |].
  cbn [fold_left]. rewrite entryItems_cons, fold_left_app, IH.
  now rewrite (timeEntryStep_step R range clients rates m Hrates).
Qed.

(** The reply of GetTimeEntriesStats when its parameters are accepted and
    its queries succeed. *)
Lemma GetTimeEntriesStats_reply (c : handlers.Context) (q : db.Queries)
    (currentDate : Time) (user : db.GetUserByIDRow)
    (timeEntries : list db.GetTimeEntriesByUserIDRow)
    (clients : list db.GetClientsByUserIDRow) :
  let viewMode := handlers.QueryParam c "view_mode" in
  let dateStr := handlers.QueryParam c "date" in
  In viewMode ["daily"; "weekly"; "monthly"] ->
  dateStr <> "" ->
  time_Parse dateStr = Some currentDate ->
  db.GetUserByID q (handlers.user_id c) = Ok user ->
  db.GetTimeEntriesByUserID q (handlers.user_id c) = Ok timeEntries ->
  db.GetClientsByUserID q (handlers.user_id c) = Ok clients ->
  exists body,
    handlers.GetTimeEntriesStats c q
    = (handlers.JSONOK body, logged (pass_stmts q (handlers.userCurrencyOf user) clients) q)
    /\ handlers.ts_TotalRevenue body
       = total_in (handlers.userCurrencyOf user) (multiplier q (handlers.userCurrencyOf user))
           (entryItems clients (inView (handlers.viewRange viewMode currentDate)) timeEntries).
Proof.
  intros viewMode dateStr Hview Hdate Hparse Hu He Hc.
  unfold handlers.GetTimeEntriesStats. fold viewMode dateStr.
  assert (Hvalid : negb (String.eqb viewMode "daily") && negb (String.eqb viewMode "weekly")
                   && negb (String.eqb viewMode "monthly") = false
                   /\ String.eqb viewMode "" = false).
  { destruct Hview as [<- | [<- | [<- | []]]]; split; reflexivity. }
  destruct Hvalid as [Hvalid Hnonempty].
  apply String.eqb_neq in Hdate. rewrite Hnonempty, Hdate. cbn [orb].
  unfold handlers.getFilteredTimeEntriesWithStats. rewrite Hvalid, Hparse.
  unfold db.bind, handlers.query. rewrite Hu.
  set (R := handlers.userCurrencyOf user).
  destruct (handlers.viewRange viewMode currentDate) as [startDate endDate] eqn:Hrange.
  rewrite He, Hc.
  pose proof (fetched_rates q R clients) as Hrates.
  pose proof (fetchConversionRates_stmts R (elements (handlers.currenciesNeededOf R clients)) ∅ q)
    as Hst.
  fold (pass_stmts q R clients) in Hst.
  destruct (handlers.fetchConversionRates R (elements (handlers.currenciesNeededOf R clients)) ∅ q)
    as [rates q1]. cbn [fst snd] in Hrates, Hst. subst q1.
  assert (Hm : forall client, In client clients -> db.client_Currency client <> R ->
                 rates !! db.client_Currency client
                 = Some (multiplier q R (db.client_Currency client)))
    by (intros client Hin Hne; rewrite Hrates; now apply resolved_client).
  eexists. split; [reflexivity |]. cbn [handlers.ts_TotalRevenue].
  apply (timeEntryStep_totals R (startDate, endDate) clients rates (multiplier q R) Hm).
Qed.

Lemma invoiceItems_cons (q : db.Queries) (clients : list db.GetClientsByUserIDRow)
    (invoice : db.Invoice) (invoices : list db.Invoice) :
  invoiceItems q clients (invoice :: invoices)
  = invoiceItems q clients [invoice] ++ invoiceItems q clients invoices.
Proof. unfold invoiceItems. cbn [flat_map]. now rewrite app_nil_r. Qed.

(** One round of the loop of the invoice statistics adds the total of the
    invoice, converted when a rate was fetched for its currency. *)
Lemma invoiceStatsStep_step (q : db.Queries) (statusFilter R : string)
    (clients : list db.GetClientsByUserIDRow) (rates : gmap string float)
    (m : string -> option float) :
  (forall c, rates !! c = m c) ->
  forall (invoice : db.Invoice) (acc : handlers.invoiceAcc),
    handlers.totalAmount
      (handlers.invoiceStatsStep statusFilter R (handlers.clientsMapOf clients) rates
         (db.GetInvoiceTimeEntries q) acc invoice)
    = fold_left (addItemWith R m) (invoiceItems q clients [invoice]) (handlers.totalAmount acc).
Proof.
  intros Hrates invoice acc. unfold handlers.invoiceStatsStep, invoiceItems. cbn [flat_map].
  destruct (db.GetInvoiceTimeEntries q (db.invoice_ID invoice)) as [timeEntries | e];
    [| reflexivity].
  cbn [app fold_left]. unfold addItemWith. cbn [currency amount].
  destruct (handlers.clientsMapOf clients !! db.invoice_ClientID invoice) as [client |];
    rewrite <- Hrates;
    match goal with |- context [negb (String.eqb ?c R)] => destruct (String.eqb c R) end;
    cbn [negb];
    match goal with
    | |- context [rates !! ?c] => destruct (rates !! c)
    | |- _ => idtac
    end;
    destruct (negb (String.eqb statusFilter "all")
              && negb (String.eqb (db.invoice_Status invoice) statusFilter));
    reflexivity.
Qed.

Lemma invoiceStatsStep_totals (q : db.Queries) (statusFilter R : string)
    (clients : list db.GetClientsByUserIDRow) (rates : gmap string float)
    (m : string -> option float) :
  (forall c, rates !! c = m c) ->
  forall (invoices : list db.Invoice) (acc : handlers.invoiceAcc),
    handlers.totalAmount
      (fold_left (handlers.invoiceStatsStep statusFilter R (handlers.clientsMapOf clients) rates
                    (db.GetInvoiceTimeEntries q)) invoices acc)
    = fold_left (addItemWith R m) (invoiceItems q clients invoices) (handlers.totalAmount acc).
Proof.
  intros Hrates. induction invoices as [| invoice invoices IH]; intros acc; [reflexivity |].
  cbn [fold_left]. rewrite invoiceItems_cons, fold_left_app, IH.
  now rewrite (invoiceStatsStep_step q statusFilter R clients rates m Hrates).
Qed.

(** The reply of GetInvoiceStats when its queries succeed. *)
Lemma GetInvoiceStats_reply (c : handlers.Context) (q : db.Queries)
    (user : db.GetUserByIDRow) (invoices : list db.Invoice)
    (clients : list db.GetClientsByUserIDRow) :
  db.GetUserByID q (handlers.user_id c) = Ok user ->
  db.GetInvoicesByUserID q (handlers.user_id c) = Ok invoices ->
  db.GetClientsByUserID q (handlers.user_id c) = Ok clients ->
  exists body,
    handlers.GetInvoiceStats c q
    = (handlers.JSONOK body, logged (pass_stmts q (handlers.userCurrencyOf user) clients) q)
    /\ handlers.TotalAmount body
       = total_with (handlers.userCurrencyOf user)
           (resolved q (handlers.userCurrencyOf user) clients)
           (invoiceItems q clients invoices).
Proof.
  intros Hu Hi Hc.
  unfold handlers.GetInvoiceStats, db.bind, handlers.query. rewrite Hu, Hi, Hc.
  set (R := handlers.userCurrencyOf user).
  pose proof (fetched_rates q R clients) as Hrates.
  pose proof (fetchConversionRates_stmts R (elements (handlers.currenciesNeededOf R clients)) ∅ q)
    as Hst.
  fold (pass_stmts q R clients) in Hst.
  destruct (handlers.fetchConversionRates R (elements (handlers.currenciesNeededOf R clients)) ∅ q)
    as [rates q1]. cbn [fst snd] in Hrates, Hst. subst q1.
  eexists. split; [reflexivity |]. cbn [handlers.TotalAmount].
  apply (invoiceStatsStep_totals q _ R clients rates (resolved q R clients) Hrates).
Qed.

(** The three amounts of the accumulator of the invoice statistics. *)
Lemma invoiceStatsStep_amounts (f1 f2 R : string) (clientsMap : gmap Z db.GetClientsByUserIDRow)
    (rates : gmap string float)
    (getEntries : Z -> result (list db.GetInvoiceTimeEntriesRow))
    (invoices : list db.Invoice) :
  forall acc1 acc2 : handlers.invoiceAcc,
    handlers.totalAmount acc1 = handlers.totalAmount acc2 ->
    handlers.paidAmount acc1 = handlers.paidAmount acc2 ->
    handlers.unpaidAmount acc1 = handlers.unpaidAmount acc2 ->
    let r1 := fold_left (handlers.invoiceStatsStep f1 R clientsMap rates getEntries) invoices acc1 in
    let r2 := fold_left (handlers.invoiceStatsStep f2 R clientsMap rates getEntries) invoices acc2 in
    handlers.totalAmount r1 = handlers.totalAmount r2
    /\ handlers.paidAmount r1 = handlers.paidAmount r2
    /\ handlers.unpaidAmount r1 = handlers.unpaidAmount r2.
Proof.
  induction invoices as [| invoice invoices IH]; intros acc1 acc2 Ht Hp Hu; [cbn; auto |].
  cbn [fold_left]. apply IH; unfold handlers.invoiceStatsStep;
    destruct (getEntries (db.invoice_ID invoice)) as [timeEntries | e]; try assumption;
    destruct (clientsMap !! db.invoice_ClientID invoice) as [client |];
    destruct (negb (String.eqb f1 "all") && negb (String.eqb (db.invoice_Status invoice) f1));
    destruct (negb (String.eqb f2 "all") && negb (String.eqb (db.invoice_Status invoice) f2));
    cbn [handlers.totalAmount handlers.paidAmount handlers.unpaidAmount];
    rewrite ?Ht, ?Hp, ?Hu; reflexivity.
Qed.

Lemma invoiceStatsStep_triple (f1 f2 R : string) (clientsMap : gmap Z db.GetClientsByUserIDRow)
    (rates : gmap string float)
    (getEntries : Z -> result (list db.GetInvoiceTimeEntriesRow))
    (invoices : list db.Invoice) (acc : handlers.invoiceAcc) :
  let r1 := fold_left (handlers.invoiceStatsStep f1 R clientsMap rates getEntries) invoices acc in
  let r2 := fold_left (handlers.invoiceStatsStep f2 R clientsMap rates getEntries) invoices acc in
  (handlers.totalAmount r1, handlers.paidAmount r1, handlers.unpaidAmount r1)
  = (handlers.totalAmount r2, handlers.paidAmount r2, handlers.unpaidAmount r2).
Proof.
  intros r1 r2.
  destruct (invoiceStatsStep_amounts f1 f2 R clientsMap rates getEntries invoices acc acc
              eq_refl eq_refl eq_refl) as (Ht & Hp & Hu).
  fold r1 r2 in Ht, Hp, Hu. now rewrite Ht, Hp, Hu.
Qed.

(** With a status filter the list of invoices is the list without filter,
    restricted to the invoices of that status. *)
Lemma invoiceStatsStep_list (f R : string) (clientsMap : gmap Z db.GetClientsByUserIDRow)
    (rates : gmap string float)
    (getEntries : Z -> result (list db.GetInvoiceTimeEntriesRow))
    (invoices : list db.Invoice) :
  f <> "all" ->
  forall acc1 acc2 : handlers.invoiceAcc,
    handlers.invoiceResponses acc1
    = List.filter (fun r => String.eqb (handlers.ir_Status r) f) (handlers.invoiceResponses acc2) ->
    handlers.invoiceResponses
      (fold_left (handlers.invoiceStatsStep f R clientsMap rates getEntries) invoices acc1)
    = List.filter (fun r => String.eqb (handlers.ir_Status r) f)
        (handlers.invoiceResponses
           (fold_left (handlers.invoiceStatsStep "all" R clientsMap rates getEntries)
              invoices acc2)).
Proof.
  intros Hf. apply String.eqb_neq in Hf.
  induction invoices as [| invoice invoices IH]; intros acc1 acc2 Hacc; [exact Hacc |].
  cbn [fold_left]. apply IH. unfold handlers.invoiceStatsStep.
  destruct (getEntries (db.invoice_ID invoice)) as [timeEntries | e]; [| exact Hacc].
  rewrite Hf. cbn [negb andb String.eqb Ascii.eqb Bool.eqb].
  destruct (clientsMap !! db.invoice_ClientID invoice) as [client |];
    destruct (String.eqb (db.invoice_Status invoice) f) eqn:Hs;
    cbn [negb handlers.invoiceResponses];
    rewrite List.filter_app, Hacc; cbn [List.filter handlers.ir_Status]; rewrite Hs;
    now rewrite ?app_nil_r.
Qed.

End StatsFacts.

Lemma total_in_ext (R : string) (m1 m2 : string -> float) (items : list item) :
  (forall c, m1 c = m2 c) -> total_in R m1 items = total_in R m2 items.
Proof.
  intros Hm. unfold total_in. generalize 0%float.
  induction items as [| it items IH]; intros total; cbn [fold_left]; [reflexivity |].
  rewrite IH. f_equal. unfold addItem. now rewrite Hm.
Qed.

(** C10. In GetDashboardStats a time entry that passes the date filter and
    whose client_id matches none of the user's clients adds its parsed hours
    to total_hours and adds nothing to total_revenue: with the entry, at any
    place of the list, total_revenue is what it is without it, while
    total_hours is the sum of the hours before it, its own hours, and the
    hours after it; when it comes last, total_hours grows by its hours. *)
Theorem orphan_entry_counts_in_hours_not_in_revenue :
  forall `{Runtime} (q : db.Queries) (c : handlers.Context) (user : db.GetUserByIDRow)
         (range : option Time * option Time) (clients : list db.GetClientsByUserIDRow)
         (invoices : list db.Invoice)
         (es1 es2 : list db.GetTimeEntriesByUserIDRow) (e : db.GetTimeEntriesByUserIDRow),
    db.GetUserByID q (handlers.user_id c) = Ok user ->
    dashboardRange c = Some range ->
    db.GetClientsByUserID q (handlers.user_id c) = Ok clients ->
    db.GetInvoicesByUserID q (handlers.user_id c) = Ok invoices ->
    (forall client, In client clients -> db.client_ID client <> db.entry_ClientID e) ->
    inRange range (db.entry_Date e) = true ->
    exists body body0,
      fst (handlers.GetDashboardStats c (with_entries (es1 ++ e :: es2) q)) = handlers.JSONOK body
      /\ fst (handlers.GetDashboardStats c (with_entries (es1 ++ es2) q)) = handlers.JSONOK body0
      /\ handlers.TotalRevenue body = handlers.TotalRevenue body0
      /\ handlers.TotalHours body
         = fold_left (fun h entry => (h + hoursOf entry)%float)
             (List.filter (fun entry => inRange range (db.entry_Date entry)) es2)
             (sumHours (List.filter (fun entry => inRange range (db.entry_Date entry)) es1)
              + hoursOf e)%float
      /\ (es2 = [] ->
          handlers.TotalHours body = (handlers.TotalHours body0 + hoursOf e)%float).
Proof.
  intros rt q c user range clients invoices es1 es2 e Hu Hrange Hc Hi Horphan Hin.
  destruct (GetDashboardStats_reply c (with_entries (es1 ++ e :: es2) q) user range
              (es1 ++ e :: es2) clients invoices Hu Hrange eq_refl Hc Hi)
    as (body & Hbody & Hh & Hr).
  destruct (GetDashboardStats_reply c (with_entries (es1 ++ es2) q) user range
              (es1 ++ es2) clients invoices Hu Hrange eq_refl Hc Hi)
    as (body0 & Hbody0 & Hh0 & Hr0).
  exists body, body0. split; [now rewrite Hbody |]. split; [now rewrite Hbody0 |].
  assert (Hsum : handlers.TotalHours body
                 = fold_left (fun h entry => (h + hoursOf entry)%float)
                     (List.filter (fun entry => inRange range (db.entry_Date entry)) es2)
                     (sumHours (List.filter (fun entry => inRange range (db.entry_Date entry)) es1)
                      + hoursOf e)%float).
  { rewrite Hh. unfold sumHours. rewrite List.filter_app, fold_left_app.
    cbn [List.filter]. rewrite Hin. reflexivity. }
  split; [| split; [exact Hsum |]].
  - rewrite Hr, Hr0.
    rewrite (entryItems_orphan clients (inRange range) es1 es2 e Horphan).
    apply total_in_ext. intros c'. now rewrite !multiplier_with_entries.
  - intros ->. rewrite Hsum, Hh0, app_nil_r. reflexivity.
Qed.

Lemma orphan_entry_counts_in_hours_not_in_revenue_witness :
  exists body body0,
    fst (@handlers.GetDashboardStats goruntime.go plain_request
           (with_entries (scenario_entries ++ orphan_entry :: []) scenario_store))
    = handlers.JSONOK body
    /\ fst (@handlers.GetDashboardStats goruntime.go plain_request
              (with_entries (scenario_entries ++ []) scenario_store))
       = handlers.JSONOK body0
    /\ handlers.TotalRevenue body = handlers.TotalRevenue body0
    /\ handlers.TotalHours body = (handlers.TotalHours body0 + 2)%float.
Proof.
  destruct (@orphan_entry_counts_in_hours_not_in_revenue goruntime.go scenario_store
              plain_request (db.mkUser (mkNullString "USD" true)) (None, None)
              scenario_clients [] scenario_entries [] orphan_entry)
    as (body & body0 & Hbody & Hbody0 & Hrev & _ & Hhours); try reflexivity.
  - intros client [<- | [<- | [<- | []]]]; discriminate.
  - exists body, body0. repeat split; try assumption. now apply Hhours.
Defined.

(** C9. In GetInvoiceStats the status query parameter has no influence on
    total_amount, paid_amount and unpaid_amount: for every store and every
    request, two values of the parameter give the same three amounts, or
    the same error reply. What the parameter changes is the list of
    invoices: with a status other than "all" it is the list returned for
    "all" restricted to the invoices of that status, and total_invoices is
    the length of the list returned. *)
Theorem invoice_amounts_ignore_the_status_filter :
  forall `{Runtime} (q : db.Queries) (c : handlers.Context) (status1 status2 : string),
    amounts (fst (handlers.GetInvoiceStats (with_status status1 c) q))
    = amounts (fst (handlers.GetInvoiceStats (with_status status2 c) q))
    /\ (forall body body_all,
          status1 <> "" -> status1 <> "all" ->
          fst (handlers.GetInvoiceStats (with_status status1 c) q) = handlers.JSONOK body ->
          fst (handlers.GetInvoiceStats (with_status "all" c) q) = handlers.JSONOK body_all ->
          handlers.Invoices body
          = List.filter (fun r => String.eqb (handlers.ir_Status r) status1)
              (handlers.Invoices body_all)
          /\ handlers.TotalInvoices body = Z.of_nat (length (handlers.Invoices body))).
Proof.
  intros rt q c status1 status2.
  unfold handlers.GetInvoiceStats, db.bind, handlers.query.
  cbn [with_status handlers.user_id handlers.QueryParam].
  destruct (db.GetUserByID q (handlers.user_id c)) as [user | e];
    [| split; [reflexivity | discriminate]].
  destruct (db.GetInvoicesByUserID q (handlers.user_id c)) as [invoices | e];
    [| split; [reflexivity | discriminate]].
  destruct (db.GetClientsByUserID q (handlers.user_id c)) as [clients | e];
    [| split; [reflexivity | discriminate]].
  destruct (handlers.fetchConversionRates _ _ _ q) as [rates q1].
  unfold db.ret.
  cbn [fst amounts handlers.TotalAmount handlers.PaidAmount handlers.UnpaidAmount].
  split.
  - f_equal. apply invoiceStatsStep_triple.
  - intros body body_all Hne Hall [= <-] [= <-].
    cbn [handlers.Invoices handlers.TotalInvoices]. split; [| reflexivity].
    change (String.eqb "status" "status") with true. cbn iota.
    apply String.eqb_neq in Hne. rewrite Hne.
    change (String.eqb "all" "") with false. cbn iota.
    now apply invoiceStatsStep_list.
Qed.

(** C2, as the specification states it, fails in GetInvoiceStats for an
    invoice whose client is unknown: the invoice is tagged "USD", and when
    no client of the user bills in USD no multiplier was resolved for it, so
    its amount is added unconverted. Below the user reports in EUR,
    USD -> EUR = 0.92 is stored and ConvertAmount(1.0, "USD", "EUR") succeeds
    with 0.92: the formula of the claim gives 100 * 0.92, the handler
    returns 100. *)
Lemma invoice_of_unknown_client_is_added_unconverted :
  let items := @invoiceItems goruntime.go orphan_invoice_store []
                 [ db.mkInvoice 1 7 "INV-1" 1761436800000000000 "sent" ] in
  let claimed := total_in "EUR" (@multiplier goruntime.go orphan_invoice_store "EUR") items in
  amounts (fst (@handlers.GetInvoiceStats goruntime.go plain_request orphan_invoice_store))
  = handlers.JSONOK (100%float, 0%float, 100%float)
  /\ items = [ {| amount := 100%float; currency := "USD" |} ]
  /\ @convert goruntime.go orphan_invoice_store 1%float "USD" "EUR" = (0.92%float, None)
  /\ claimed = (0 + 100 * 0.92)%float
  /\ (claimed <? 93)%float = true.
Proof. vm_compute. tauto. Qed.

(** C2, amended. In each aggregation pass (dashboard, time-entry
    statistics, invoice statistics), once the handler has read the user,
    the clients and the rows to aggregate, it computes a total and hands it
    to c.JSON with status 200, whatever the Rate Store holds or fails to
    answer. The client receives that body when every number in it is
    finite; when one is NaN or an infinity (a stored rate that reads as 0
    makes the multiplier +Inf) the body cannot be encoded and the answer is
    500. With R the reporting currency: the pass resolves one multiplier
    for each distinct currency c <> R of the user's clients, by one call
    ConvertAmount(1.0, c, R), in whatever order the loop meets the
    currencies, and m(c) is the result of that call when it succeeds and 1.0
    when it fails. The total is the sum over the items, in order from 0, of
    the amount when the currency of the item is R and of amount * m(c)
    otherwise; in the invoice statistics an item whose currency has no
    resolved multiplier (an invoice of an unknown client, tagged "USD",
    while no client bills in USD) is added unchanged. In particular 50 USD,
    40 EUR and 10 USD with R = USD and USD -> EUR = 0.92 total
    50 + 40 / 0.92 + 10, about 103.48, and are answered; with the rate of EUR
    stored as 0.0000000000 the total is +Inf and the answer is 500. *)
Theorem aggregation_total_in_reporting_currency :
  (forall `{Runtime} (q : db.Queries) (c : handlers.Context) (user : db.GetUserByIDRow)
          (range : option Time * option Time)
          (timeEntries : list db.GetTimeEntriesByUserIDRow)
          (clients : list db.GetClientsByUserIDRow) (invoices : list db.Invoice),
      db.GetUserByID q (handlers.user_id c) = Ok user ->
      dashboardRange c = Some range ->
      db.GetTimeEntriesByUserID q (handlers.user_id c) = Ok timeEntries ->
      db.GetClientsByUserID q (handlers.user_id c) = Ok clients ->
      db.GetInvoicesByUserID q (handlers.user_id c) = Ok invoices ->
      let R := handlers.userCurrencyOf user in
      exists body order,
        fst (handlers.GetDashboardStats c q) = handlers.JSONOK body
        /\ handlers.TotalRevenue body
           = total_in R (multiplier q R) (entryItems clients (inRange range) timeEntries)
        /\ Permutation order (elements (handlers.currenciesNeededOf R clients))
        /\ snd (handlers.GetDashboardStats c q)
           = logged (flat_map (fun code => conversion_stmts q code R) order) q
        /\ echo.answered echo.dashboardFloats (fst (handlers.GetDashboardStats c q))
           = if forallb echo.encodes (echo.dashboardFloats body)
             then echo.Written (handlers.JSONOK body) else echo.ServerError)
  /\ (forall `{Runtime} (q : db.Queries) (c : handlers.Context) (currentDate : Time)
             (user : db.GetUserByIDRow) (timeEntries : list db.GetTimeEntriesByUserIDRow)
             (clients : list db.GetClientsByUserIDRow),
      In (handlers.QueryParam c "view_mode") ["daily"; "weekly"; "monthly"] ->
      handlers.QueryParam c "date" <> "" ->
      time_Parse (handlers.QueryParam c "date") = Some currentDate ->
      db.GetUserByID q (handlers.user_id c) = Ok user ->
      db.GetTimeEntriesByUserID q (handlers.user_id c) = Ok timeEntries ->
      db.GetClientsByUserID q (handlers.user_id c) = Ok clients ->
      let R := handlers.userCurrencyOf user in
      exists body order,
        fst (handlers.GetTimeEntriesStats c q) = handlers.JSONOK body
        /\ handlers.ts_TotalRevenue body
           = total_in R (multiplier q R)
               (entryItems clients
                  (inView (handlers.viewRange (handlers.QueryParam c "view_mode") currentDate))
                  timeEntries)
        /\ Permutation order (elements (handlers.currenciesNeededOf R clients))
        /\ snd (handlers.GetTimeEntriesStats c q)
           = logged (flat_map (fun code => conversion_stmts q code R) order) q
        /\ echo.answered echo.timeEntriesFloats (fst (handlers.GetTimeEntriesStats c q))
           = if forallb echo.encodes (echo.timeEntriesFloats body)
             then echo.Written (handlers.JSONOK body) else echo.ServerError)
  /\ (forall `{Runtime} (q : db.Queries) (c : handlers.Context) (user : db.GetUserByIDRow)
             (invoices : list db.Invoice) (clients : list db.GetClientsByUserIDRow),
      db.GetUserByID q (handlers.user_id c) = Ok user ->
      db.GetInvoicesByUserID q (handlers.user_id c) = Ok invoices ->
      db.GetClientsByUserID q (handlers.user_id c) = Ok clients ->
      let R := handlers.userCurrencyOf user in
      exists body order,
        fst (handlers.GetInvoiceStats c q) = handlers.JSONOK body
        /\ handlers.TotalAmount body
           = total_with R (resolved q R clients) (invoiceItems q clients invoices)
        /\ Permutation order (elements (handlers.currenciesNeededOf R clients))
        /\ snd (handlers.GetInvoiceStats c q)
           = logged (flat_map (fun code => conversion_stmts q code R) order) q
        /\ echo.answered echo.invoiceStatsFloats (fst (handlers.GetInvoiceStats c q))
           = if forallb echo.encodes (echo.invoiceStatsFloats body)
             then echo.Written (handlers.JSONOK body) else echo.ServerError)
  /\ (forall `{Runtime} (q : db.Queries) (R : string) (clients : list db.GetClientsByUserIDRow),
      NoDup (elements (handlers.currenciesNeededOf R clients))
      /\ (forall c, c ∈ elements (handlers.currenciesNeededOf R clients)
                    <-> exists client, In client clients
                                       /\ db.client_Currency client = c /\ c <> R)
      /\ (forall c, resolved q R clients c
                    = if bool_decide (c ∈ elements (handlers.currenciesNeededOf R clients))
                      then Some (multiplier q R c) else None)
      /\ (forall order,
            Permutation order (elements (handlers.currenciesNeededOf R clients)) ->
            (forall c, fst (handlers.fetchConversionRates R order ∅ q) !! c
                       = resolved q R clients c)
            /\ snd (handlers.fetchConversionRates R order ∅ q)
               = logged (flat_map (fun code => conversion_stmts q code R) order) q))
  /\ match echo.answered echo.dashboardFloats
             (fst (@handlers.GetDashboardStats goruntime.go plain_request scenario_store)) with
     | echo.Written (handlers.JSONOK body) =>
         handlers.TotalRevenue body = (50 + 40 / 0.92 + 10)%float
         /\ (103.475 <? handlers.TotalRevenue body)%float = true
         /\ (handlers.TotalRevenue body <? 103.485)%float = true
     | _ => False
     end
  /\ @convert goruntime.go zero_rate_store 1%float "EUR" "USD" = (infinity, None)
  /\ match fst (@handlers.GetDashboardStats goruntime.go plain_request zero_rate_store) with
     | handlers.JSONOK body => handlers.TotalRevenue body = infinity
     | handlers.JSONError _ _ => False
     end
  /\ echo.answered echo.dashboardFloats
       (fst (@handlers.GetDashboardStats goruntime.go plain_request zero_rate_store))
     = echo.ServerError.
Proof.
  split; [| split; [| split; [| split; [| split; [| split; [| split]]]]]].
  - intros rt q c user range timeEntries clients invoices Hu Hrange He Hc Hi R.
    destruct (GetDashboardStats_reply c q user range timeEntries clients invoices
                Hu Hrange He Hc Hi) as (body & Hbody & _ & Hrev).
    exists body, (elements (handlers.currenciesNeededOf R clients)).
    rewrite Hbody. cbn [fst snd]. repeat split; auto.
  - intros rt q c currentDate user timeEntries clients Hview Hdate Hparse Hu He Hc R.
    destruct (GetTimeEntriesStats_reply c q currentDate user timeEntries clients
                Hview Hdate Hparse Hu He Hc) as (body & Hbody & Hrev).
    exists body, (elements (handlers.currenciesNeededOf R clients)).
    rewrite Hbody. cbn [fst snd]. repeat split; auto.
  - intros rt q c user invoices clients Hu Hi Hc R.
    destruct (GetInvoiceStats_reply c q user invoices clients Hu Hi Hc) as (body & Hbody & Hrev).
    exists body, (elements (handlers.currenciesNeededOf R clients)).
    rewrite Hbody. cbn [fst snd]. repeat split; auto.
  - intros rt q R clients. split; [apply NoDup_elements |]. split; [| split].
    + intros c. rewrite elem_of_elements. apply elem_of_currenciesNeededOf.
    + intros c. unfold resolved.
      destruct (decide (c ∈ handlers.currenciesNeededOf R clients)) as [Hin | Hnin].
      * rewrite !bool_decide_true; [reflexivity | now apply elem_of_elements | exact Hin].
      * rewrite !bool_decide_false; [reflexivity | now rewrite elem_of_elements | exact Hnin].
    + intros order Hperm.
      destruct (fetchConversionRates_order q R clients order Hperm) as (_ & Hrates & Hst).
      split; [exact Hrates | exact Hst].
  - vm_compute. tauto.
  - vm_compute. reflexivity.
  - vm_compute. reflexivity.
  - vm_compute. reflexivity.
Qed.

Lemma aggregation_total_in_reporting_currency_witness :
  exists body order,
    fst (@handlers.GetDashboardStats goruntime.go plain_request scenario_store)
    = handlers.JSONOK body
    /\ handlers.TotalRevenue body
       = total_in "USD" (@multiplier goruntime.go scenario_store "USD")
           (@entryItems goruntime.go scenario_clients (inRange (None, None))
              scenario_entries)
    /\ Permutation order (elements (handlers.currenciesNeededOf "USD" scenario_clients))
    /\ snd (@handlers.GetDashboardStats goruntime.go plain_request scenario_store)
       = logged (flat_map (fun code => @conversion_stmts goruntime.go scenario_store code "USD")
                          order) scenario_store
    /\ echo.answered echo.dashboardFloats
         (fst (@handlers.GetDashboardStats goruntime.go plain_request scenario_store))
       = if forallb echo.encodes (echo.dashboardFloats body)
         then echo.Written (handlers.JSONOK body) else echo.ServerError.
Proof.
  apply (proj1 aggregation_total_in_reporting_currency goruntime.go scenario_store plain_request
           (db.mkUser (mkNullString "USD" true)) (None, None) scenario_entries scenario_clients []);
    reflexivity.
Defined.

(** * Further properties of the code *)

(** ** binary64 arithmetic at zero and infinity *)

Lemma Prim2SF_zero : Prim2SF 0%float = S754_zero false. Proof. reflexivity. Qed.
Lemma Prim2SF_infinity : Prim2SF infinity = S754_infinity false. Proof. reflexivity. Qed.

Lemma float_pos_cases (x : float) :
  (0 <? x)%float = true ->
  (exists m e, Prim2SF x = S754_finite false m e) \/ Prim2SF x = S754_infinity false.
Proof.
  rewrite ltb_spec, Prim2SF_zero. unfold SFltb, SFcompare.
  destruct (Prim2SF x) as [s | [|] | | [|] m e]; try discriminate; eauto.
Qed.

Lemma float_div_zero (a : float) : (0 <? a)%float = true -> (a / 0)%float = infinity.
Proof.
  intros Ha. apply Prim2SF_inj. rewrite div_spec, Prim2SF_zero, Prim2SF_infinity.
  destruct (float_pos_cases a Ha) as [(m & e & ->) | ->]; reflexivity.
Qed.

Lemma float_infinity_mul (r : float) : (0 <? r)%float = true -> (infinity * r)%float = infinity.
Proof.
  intros Hr. apply Prim2SF_inj. rewrite mul_spec, Prim2SF_infinity.
  destruct (float_pos_cases r Hr) as [(m & e & ->) | ->]; reflexivity.
Qed.


(** ** What a refresh cycle can change *)
Section RefreshInvariants.
Context `{Runtime}.

Lemma usd_mutation_mono (cs cs' : list string) (ws : list Mutation) :
  (forall c, In c cs -> In c cs') -> Forall (usd_mutation cs) ws -> Forall (usd_mutation cs') ws.
Proof.
  intros Hsub Hws. rewrite Forall_forall in Hws |- *. intros w Hw.
  destruct (Hws w Hw) as (now & c & rate & -> & Hc). exists now, c, rate. auto.
Qed.

Lemma usd_upsert_of_mono (cs cs' : list string) (l : list db.Stmt) :
  (forall c, In c cs -> In c cs') -> Forall (usd_upsert_of cs) l -> Forall (usd_upsert_of cs') l.
Proof.
  intros Hsub Hl. rewrite Forall_forall in Hl |- *. intros s Hs.
  destruct (Hl s Hs) as (c & rate & -> & Hc). exists c, rate. auto.
Qed.

(** The loop changes the table by upserts of pairs ("USD", code) alone, and
    sends nothing else. *)
Lemma updateRates_writes (rates : gmap string float) (cs : list string) :
  forall (n : Z) (q : db.Queries),
    exists ws l,
      db.exchange_rates (snd (services.updateRates rates cs n q)) = run ws (db.exchange_rates q)
      /\ Forall (usd_mutation cs) ws
      /\ db.statements (snd (services.updateRates rates cs n q)) = db.statements q ++ l
      /\ Forall (usd_upsert_of cs) l.
Proof.
  induction cs as [| c cs IH]; intros n q.
  - exists [], []. cbn. rewrite app_nil_r. auto.
  - cbn [services.updateRates]. destruct (rates !! c) as [r |] eqn:Hr.
    + unfold db.bind, db.UpsertExchangeRate.
      destruct (db.upsert_error q "USD" c) as [msg |].
      * exists [], [db.UpsertRate "USD" c (fmt_Sprintf_10f r)]. cbn.
        repeat split; auto. constructor; [| constructor].
        exists c, (fmt_Sprintf_10f r). split; [reflexivity | now left].
      * match goal with
        | |- context [services.updateRates rates cs ?m ?q1] =>
            destruct (IH m q1) as (ws & l & Ht & Hws & Hs & Hl)
        end.
        exists (WUpsert (db.now q (length (db.statements q))) "USD" c (fmt_Sprintf_10f r) :: ws),
               (db.UpsertRate "USD" c (fmt_Sprintf_10f r) :: l).
        rewrite Ht, Hs. cbn. rewrite <- app_assoc. repeat split.
        -- constructor.
           ++ eexists _, c, _. split; [reflexivity | now left].
           ++ eapply usd_mutation_mono; [| exact Hws]. intros; now right.
        -- constructor.
           ++ exists c, (fmt_Sprintf_10f r). split; [reflexivity | now left].
           ++ eapply usd_upsert_of_mono; [| exact Hl]. intros; now right.
    + destruct (IH n q) as (ws & l & Ht & Hws & Hs & Hl). exists ws, l.
      repeat split; auto.
      * eapply usd_mutation_mono; [| exact Hws]. intros; now right.
      * eapply usd_upsert_of_mono; [| exact Hl]. intros; now right.
Qed.

(** The same for a whole cycle, however it ends. *)
Lemma UpdateAllRates_writes (get : result services.Response) (q : db.Queries) :
  exists ws l,
    db.exchange_rates (snd (services.UpdateAllRates get q)) = run ws (db.exchange_rates q)
    /\ Forall (usd_mutation services.SupportedCurrencies) ws
    /\ db.statements (snd (services.UpdateAllRates get q)) = db.statements q ++ l
    /\ Forall (usd_upsert_of services.SupportedCurrencies) l.
Proof.
  assert (Hnone : forall (r : services.completion),
             exists ws l,
               db.exchange_rates (snd (db.ret r q)) = run ws (db.exchange_rates q)
               /\ Forall (usd_mutation services.SupportedCurrencies) ws
               /\ db.statements (snd (db.ret r q)) = db.statements q ++ l
               /\ Forall (usd_upsert_of services.SupportedCurrencies) l).
  { intros r. exists [], []. cbn. rewrite app_nil_r. auto. }
  unfold services.UpdateAllRates.
  destruct get as [resp | err]; [| apply Hnone].
  destruct (negb (services.StatusCode resp =? 200)%Z); [apply Hnone |].
  destruct (services.Decode resp) as [body | err]; [| apply Hnone].
  destruct (services.Rates body) as [rates |]; [| apply Hnone].
  unfold db.bind.
  destruct (updateRates_writes (<["USD" := 1%float]> rates) services.SupportedCurrencies 0 q)
    as (ws & l & Ht & Hws & Hs & Hl).
  destruct (services.updateRates _ _ _ q) as [[err n] q'].
  exists ws, l. cbn in *. auto.
Qed.


Lemma rows_for_run_other (cs : list string) (b c : string) (ws : list Mutation) :
  (b <> "USD" \/ ~ In c cs) ->
  Forall (usd_mutation cs) ws ->
  forall tbl, rows_for b c (run ws tbl) = rows_for b c tbl.
Proof.
  intros Hbc Hws. induction Hws as [| w ws (now & c' & rate & -> & Hc') _ IH]; intros tbl.
  - reflexivity.
  - unfold run in *. cbn [fold_left exec]. rewrite IH.
    apply rows_for_upsert_other. intros [= <- <-]. destruct Hbc; [congruence | contradiction].
Qed.

End RefreshInvariants.

(** X1. A refresh cycle, however it ends (with success, with an error of
    the provider or of the storage, or with a panic), keeps the pairs of the
    rate store distinct. *)
Theorem refresh_keeps_the_pairs_distinct :
  forall `{Runtime} (get : result services.Response) (q : db.Queries),
    unique_pairs (db.exchange_rates q) ->
    unique_pairs (db.exchange_rates (snd (services.UpdateAllRates get q))).
Proof.
  intros rt get q Hu.
  destruct (UpdateAllRates_writes get q) as (ws & l & -> & _). now apply run_unique.
Qed.

Lemma refresh_keeps_the_pairs_distinct_witness :
  unique_pairs
    (db.exchange_rates
       (snd (@services.UpdateAllRates goruntime.go (decoded "USD" "2025-10-26" eur_gbp_rates)
               (store_of eur_table)))).
Proof.
  apply (@refresh_keeps_the_pairs_distinct goruntime.go).
  apply (bool_decide_unpack _). vm_compute. exact I.
Defined.

(** X2. Whatever the provider answers and however the cycle ends, a refresh
    sends nothing but upserts of pairs ("USD", c) with c one of the
    supported currencies, and the rows of every other pair are after the
    cycle what they were before it. *)
Theorem refresh_touches_only_the_supported_USD_pairs :
  forall `{Runtime} (get : result services.Response) (q : db.Queries),
    let after := snd (services.UpdateAllRates get q) in
    (exists l, db.statements after = db.statements q ++ l
               /\ Forall (usd_upsert_of services.SupportedCurrencies) l)
    /\ (forall b c, b <> "USD" \/ ~ In c services.SupportedCurrencies ->
          rows_for b c (db.exchange_rates after) = rows_for b c (db.exchange_rates q)).
Proof.
  intros rt get q after. unfold after.
  destruct (UpdateAllRates_writes get q) as (ws & l & Ht & Hws & Hs & Hl). split.
  - exists l. auto.
  - intros b c Hbc. rewrite Ht. now apply (rows_for_run_other services.SupportedCurrencies).
Qed.

Section RefreshRoundTrip.
Context `{Runtime}.

Lemma select_error_upserted_all (rates : gmap string float) (cs : list string) :
  forall q : db.Queries, db.select_error (upserted_all rates cs q) = db.select_error q.
Proof.
  induction cs as [| c cs IH]; intros q; [reflexivity |].
  unfold upserted_all in *. cbn [fold_left]. now rewrite IH.
Qed.

Lemma upsert_error_upserted_all (rates : gmap string float) (cs : list string) :
  forall q : db.Queries, db.upsert_error (upserted_all rates cs q) = db.upsert_error q.
Proof.
  induction cs as [| c cs IH]; intros q; [reflexivity |].
  unfold upserted_all in *. cbn [fold_left]. now rewrite IH.
Qed.

(** A cycle in which no upsert fails. *)
Lemma UpdateAllRates_ok (q : db.Queries) (base date : string) (rates : gmap string float) :
  let rates' := <["USD" := 1%float]> rates in
  (forall c, In c (present rates' services.SupportedCurrencies) ->
             db.upsert_error q "USD" c = None) ->
  services.UpdateAllRates (decoded base date rates) q
  = (services.Returns None, upserted_all rates' (present rates' services.SupportedCurrencies) q).
Proof.
  intros rates' Hok.
  unfold services.UpdateAllRates, decoded. cbn [services.StatusCode services.Decode
    services.Rates Z.eqb Pos.eqb negb]. fold rates'. unfold db.bind.
  now rewrite (updateRates_ok rates' services.SupportedCurrencies 0 q Hok).
Qed.

(** The lookup of a code whose pair has a row with a given text. *)
Lemma lookup_row (q : db.Queries) (c : string) (row : ExchangeRate) :
  c <> "USD" ->
  db.select_error q "USD" c = None ->
  sql_GetExchangeRate "USD" c (db.exchange_rates q) = Some row ->
  lookup q c = rate_of_text (Rate row).
Proof.
  intros Hc He Hrow. unfold lookup, services.GetExchangeRate, rate_of_text.
  assert (Hne : String.eqb "USD" c = false) by (apply String.eqb_neq; congruence).
  rewrite Hne. unfold db.bind, db.GetExchangeRate. rewrite He, Hrow.
  destruct (strconv_ParseFloat (Rate row)) as [rate [e |]]; reflexivity.
Qed.

Lemma map_ID_do_update (b t rate : string) (now : Time) (l : list ExchangeRate) :
  map ID (map (do_update b t rate now) l) = map ID l.
Proof.
  rewrite map_map. apply map_ext. intros r. unfold do_update.
  destruct (same_pair b t r); reflexivity.
Qed.

(** Upserts of pairs that are stored keep the rows in place: the same
    pairs with the same ids, in the same order. *)
Lemma upserted_all_existing (rates : gmap string float) (cs : list string) :
  forall q : db.Queries,
    (forall c, In c cs -> In ("USD", c) (map pair_of (rows (db.exchange_rates q)))) ->
    map pair_of (rows (db.exchange_rates (upserted_all rates cs q)))
    = map pair_of (rows (db.exchange_rates q))
    /\ map ID (rows (db.exchange_rates (upserted_all rates cs q)))
       = map ID (rows (db.exchange_rates q)).
Proof.
  induction cs as [| c cs IH]; intros q Hin; [split; reflexivity |].
  unfold upserted_all in *. cbn [fold_left].
  assert (Hex : existsb (same_pair "USD" c) (rows (db.exchange_rates q)) = true)
    by (apply existsb_same_pair, Hin; now left).
  assert (Hp : map pair_of (rows (db.exchange_rates (upserted rates q c)))
               = map pair_of (rows (db.exchange_rates q))).
  { unfold upserted, db.sent, sql_UpsertExchangeRate. cbn [db.exchange_rates].
    rewrite Hex. cbn [rows]. apply pairs_do_update. }
  assert (Hi : map ID (rows (db.exchange_rates (upserted rates q c)))
               = map ID (rows (db.exchange_rates q))).
  { unfold upserted, db.sent, sql_UpsertExchangeRate. cbn [db.exchange_rates].
    rewrite Hex. cbn [rows]. apply map_ID_do_update. }
  destruct (IH (upserted rates q c)) as [IHp IHi].
  - intros c' Hc'. rewrite Hp. apply Hin. now right.
  - rewrite IHp, IHi. auto.
Qed.

End RefreshRoundTrip.

(** X3. After a refresh cycle in which no upsert fails, the lookup of a
    supported currency c other than USD that the response gave with rate r
    returns what strconv.ParseFloat makes of the text "%.10f" of r: the rate
    comes back through its decimal text, not as the float that was sent. *)
Theorem refreshed_rate_is_read_back_through_its_text :
  forall `{Runtime} (q : db.Queries) (base date : string) (rates : gmap string float)
         (c : string) (r : float),
    (forall c', In c' (present (<["USD" := 1%float]> rates) services.SupportedCurrencies) ->
                db.upsert_error q "USD" c' = None) ->
    In c services.SupportedCurrencies ->
    c <> "USD" ->
    rates !! c = Some r ->
    db.select_error q "USD" c = None ->
    lookup (snd (services.UpdateAllRates (decoded base date rates) q)) c
    = rate_of_text (fmt_Sprintf_10f r).
Proof.
  intros rt q base date rates c r Hok Hc Hne Hr He.
  rewrite (UpdateAllRates_ok q base date rates Hok). cbn [snd].
  set (rates' := <["USD" := 1%float]> rates).
  set (cs := present rates' services.SupportedCurrencies).
  assert (Hr' : rates' !! c = Some r).
  { unfold rates'. rewrite lookup_insert_ne; [exact Hr | congruence]. }
  destruct (rows_for_upserted_all_in rates' cs c q) as [Hrows Hall].
  { apply NoDup_present, NoDup_SupportedCurrencies. }
  { apply In_present. split; [exact Hc | now rewrite Hr']. }
  pose proof (sql_GetExchangeRate_rows_for "USD" c (db.exchange_rates (upserted_all rates' cs q)))
    as Hget.
  destruct (rows_for "USD" c (db.exchange_rates (upserted_all rates' cs q))) as [| row l];
    [congruence |].
  apply Forall_cons in Hall as [[_ Hrate] _].
  rewrite (lookup_row _ c row Hne).
  - rewrite Hrate. unfold rate_in. now rewrite Hr'.
  - now rewrite select_error_upserted_all.
  - exact Hget.
Qed.

Lemma refreshed_rate_is_read_back_through_its_text_witness :
  @lookup goruntime.go
    (snd (@services.UpdateAllRates goruntime.go (decoded "USD" "2025-10-26" eur_gbp_rates)
            (store_of create_table))) "EUR"
  = @rate_of_text goruntime.go (goruntime.Sprintf_10f 0.92%float).
Proof.
  apply (@refreshed_rate_is_read_back_through_its_text goruntime.go
           (store_of create_table) "USD" "2025-10-26" eur_gbp_rates "EUR" 0.92%float).
  - intros; reflexivity.
  - vm_compute. tauto.
  - discriminate.
  - reflexivity.
  - reflexivity.
Defined.

(** X4. When no upsert fails, a second refresh whose response names no
    supported currency that the first one lacked adds no row: the table
    holds the same pairs under the same ids, in the same order (the
    rates and timestamps of the rows are what the second cycle wrote). *)
Theorem repeated_refresh_adds_no_row :
  forall `{Runtime} (q : db.Queries) (base1 date1 base2 date2 : string)
         (rates1 rates2 : gmap string float),
    (forall c, db.upsert_error q "USD" c = None) ->
    (forall c, In c services.SupportedCurrencies ->
               is_Some (rates2 !! c) -> is_Some (rates1 !! c)) ->
    let q1 := snd (services.UpdateAllRates (decoded base1 date1 rates1) q) in
    let q2 := snd (services.UpdateAllRates (decoded base2 date2 rates2) q1) in
    map pair_of (rows (db.exchange_rates q2)) = map pair_of (rows (db.exchange_rates q1))
    /\ map ID (rows (db.exchange_rates q2)) = map ID (rows (db.exchange_rates q1))
    /\ length (rows (db.exchange_rates q2)) = length (rows (db.exchange_rates q1)).
Proof.
  intros rt q base1 date1 base2 date2 rates1 rates2 Hok Hsub q1 q2.
  assert (Hq1 : q1 = upserted_all (<["USD" := 1%float]> rates1)
                       (present (<["USD" := 1%float]> rates1) services.SupportedCurrencies) q).
  { unfold q1. rewrite UpdateAllRates_ok; [reflexivity | intros; apply Hok]. }
  assert (Hq2 : q2 = upserted_all (<["USD" := 1%float]> rates2)
                       (present (<["USD" := 1%float]> rates2) services.SupportedCurrencies) q1).
  { unfold q2. rewrite UpdateAllRates_ok; [reflexivity |].
    intros c _. rewrite Hq1, upsert_error_upserted_all. apply Hok. }
  destruct (upserted_all_existing (<["USD" := 1%float]> rates2)
              (present (<["USD" := 1%float]> rates2) services.SupportedCurrencies) q1)
    as [Hp Hi].
  { intros c Hc. apply In_present in Hc as [Hc Hsome].
    assert (Hsome1 : is_Some ((<["USD" := 1%float]> rates1) !! c)).
    { destruct (decide (c = "USD")) as [-> | Hne].
      - rewrite lookup_insert_eq. eauto.
      - rewrite lookup_insert_ne by congruence.
        rewrite lookup_insert_ne in Hsome by congruence. now apply Hsub. }
    apply existsb_same_pair.
    destruct (existsb (same_pair "USD" c) (rows (db.exchange_rates q1))) eqn:Hex;
      [reflexivity |].
    apply existsb_rows_for in Hex. rewrite Hq1 in Hex.
    destruct (rows_for_upserted_all_in (<["USD" := 1%float]> rates1)
                (present (<["USD" := 1%float]> rates1) services.SupportedCurrencies) c q)
      as [Hne _].
    - apply NoDup_present, NoDup_SupportedCurrencies.
    - apply In_present. auto.
    - contradiction. }
  rewrite <- Hq2 in Hp, Hi. repeat split; [exact Hp | exact Hi |].
  rewrite <- (length_map pair_of), Hp. apply length_map.
Qed.

Lemma repeated_refresh_adds_no_row_witness :
  let q1 := snd (@services.UpdateAllRates goruntime.go
                   (decoded "USD" "2025-10-26" eur_gbp_rates) (store_of create_table)) in
  let q2 := snd (@services.UpdateAllRates goruntime.go
                   (decoded "USD" "2025-10-27" {[ "EUR" := 0.95%float ]}) q1) in
  map pair_of (rows (db.exchange_rates q2)) = map pair_of (rows (db.exchange_rates q1))
  /\ map ID (rows (db.exchange_rates q2)) = map ID (rows (db.exchange_rates q1))
  /\ length (rows (db.exchange_rates q2)) = length (rows (db.exchange_rates q1)).
Proof.
  apply (@repeated_refresh_adds_no_row goruntime.go (store_of create_table)
           "USD" "2025-10-26" "USD" "2025-10-27" eur_gbp_rates {[ "EUR" := 0.95%float ]}).
  - intros; reflexivity.
  - intros c _ [r Hr]. destruct (decide (c = "EUR")) as [-> | Hne].
    + eexists. reflexivity.
    + rewrite lookup_singleton_ne in Hr by congruence. discriminate.
Defined.

(** X5. ConvertAmount does not guard the division: when the rate stored
    for the source currency reads as 0 (the text "0.0000000000", for
    instance), a positive amount converts to +Inf, with a nil error,
    whatever positive rate the target has. *)
Theorem zero_rate_gives_infinity_without_error :
  forall `{Runtime} (q : db.Queries) (a rTo : float) (from to : string),
    from <> to ->
    lookup q from = (0%float, None) ->
    lookup q to = (rTo, None) ->
    (0 <? a)%float = true ->
    (0 <? rTo)%float = true ->
    convert q a from to = (infinity, None).
Proof.
  intros rt q a rTo from to Hne Hfrom Hto Ha Hr.
  rewrite ConvertAmount_result, Hto, Hfrom.
  assert (Hneq : String.eqb from to = false) by now apply String.eqb_neq.
  rewrite Hneq, (float_div_zero a Ha), (float_infinity_mul rTo Hr). reflexivity.
Qed.

Lemma zero_rate_gives_infinity_without_error_witness :
  @convert goruntime.go (store_of zero_rate_table) 100%float "EUR" "USD" = (infinity, None).
Proof.
  apply (@zero_rate_gives_infinity_without_error goruntime.go (store_of zero_rate_table)
           100%float 1%float "EUR" "USD").
  - discriminate.
  - reflexivity.
  - reflexivity.
  - reflexivity.
  - reflexivity.
Defined.

Lemma SFdiv_self (m : positive) (e : Z) :
  SF64div (S754_finite false m e) (S754_finite false m e) = S754_finite false 4503599627370496 (-52).
Proof.
  unfold SF64div, SFdiv, SFdiv_core_binary. cbn [xorb].
  replace (Zdigits2 (Z.pos m) + e - (Zdigits2 (Z.pos m) + e)) with 0 by lia.
  replace (e - e) with 0 by lia.
  change (Z.min (fexp prec emax 0) 0) with (-53).
  change (0 - -53) with 53.
  replace (Z.shiftl (Z.pos m) 53) with (9007199254740992 * Z.pos m)
    by (rewrite Z.shiftl_mul_pow2; lia).
  assert (Hq : 9007199254740992 * Z.pos m / Z.pos m = 9007199254740992)
    by (apply Z.div_mul; lia).
  assert (Hr : (9007199254740992 * Z.pos m) mod Z.pos m = 0) by (apply Z.mod_mul; lia).
  unfold Z.div, Z.modulo in Hq, Hr.
  destruct (Z.div_eucl (9007199254740992 * Z.pos m) (Z.pos m)) as [q r]. subst q r.
  unfold new_location. destruct (Z.even (Z.pos m)); reflexivity.
Qed.

(** A positive finite number divided by itself is 1.0. *)
Lemma float_div_self (x : float) :
  (0 <? x)%float = true -> (x <? infinity)%float = true -> (x / x)%float = 1%float.
Proof.
  intros Hpos Hfin. apply Prim2SF_inj. rewrite div_spec.
  destruct (float_pos_cases x Hpos) as [(m & e & Hx) | Hx].
  - rewrite Hx, SFdiv_self. reflexivity.
  - rewrite ltb_spec, Hx, Prim2SF_infinity in Hfin. discriminate.
Qed.

(** A positive number below +Inf is finite: encoding/json encodes it. *)
Lemma float_pos_finite (x : float) :
  (0 <? x)%float = true -> (x <? infinity)%float = true -> echo.encodes x = true.
Proof.
  intros Hpos Hfin. destruct (float_pos_cases x Hpos) as [(m & e & Hx) | Hx].
  - unfold echo.encodes, PrimFloat.is_finite, PrimFloat.is_nan, PrimFloat.is_infinity.
    rewrite !FloatAxioms.eqb_spec, abs_spec, Hx, Prim2SF_infinity. cbn [SFabs].
    unfold SFeqb, SFcompare.
    rewrite Z.compare_refl, Pos.compare_cont_refl. reflexivity.
  - rewrite ltb_spec, Hx, Prim2SF_infinity in Hfin. discriminate.
Qed.

(** ** Code that only reads the rates *)
Section ReadOnly.
Context `{Runtime}.

Lemma read_only_ret {A : Type} (a : A) : read_only (db.ret a).
Proof. intros q. exists []. split; [symmetry; apply logged_nil | constructor]. Qed.

Lemma read_only_bind {A B : Type} (m : db.DB A) (k : A -> db.DB B) :
  read_only m -> (forall a, read_only (k a)) -> read_only (db.bind m k).
Proof.
  intros Hm Hk q. unfold db.bind. destruct (Hm q) as (l & Hl & Hsel).
  destruct (m q) as [a q']. cbn [snd] in Hl. subst q'.
  destruct (Hk a (logged l q)) as (l' & Hl' & Hsel').
  exists (l ++ l'). split.
  - rewrite Hl'. apply logged_logged.
  - apply Forall_app. auto.
Qed.

(** Reading the answers of the other tables sends nothing to the rates. *)
Lemma read_only_state {A : Type} (f : db.Queries -> A) : read_only (fun q => (f q, q)).
Proof. intros q. exists []. split; [symmetry; apply logged_nil | constructor]. Qed.

Lemma read_only_query {A B : Type} (f : db.Queries -> A -> result B) (a : A) :
  read_only (handlers.query f a).
Proof. apply (read_only_state (fun q => f q a)). Qed.

Lemma usd_select_lookup_stmts (c : string) : Forall usd_select (lookup_stmts c).
Proof.
  unfold lookup_stmts. destruct (String.eqb "USD" c); constructor; [| constructor].
  now exists c.
Qed.

Lemma read_only_ConvertAmount (a : float) (from to : string) :
  read_only (services.ConvertAmount a from to).
Proof.
  intros q. exists (conversion_stmts q from to). split; [apply ConvertAmount_stmts |].
  unfold conversion_stmts. destruct (String.eqb from to); [constructor |].
  apply Forall_app. split; [apply usd_select_lookup_stmts |].
  destruct (failed (lookup q to)); [constructor | apply usd_select_lookup_stmts].
Qed.

Lemma read_only_fetchConversionRates (R : string) (cs : list string) :
  forall m : gmap string float, read_only (handlers.fetchConversionRates R cs m).
Proof.
  induction cs as [| c cs IH]; intros m; cbn [handlers.fetchConversionRates].
  - apply read_only_ret.
  - apply read_only_bind; [apply read_only_ConvertAmount |].
    intros [convertedAmount [e |]]; apply IH.
Qed.

End ReadOnly.

Ltac read_only_step :=
  lazymatch goal with
  | |- read_only (db.ret _) => apply read_only_ret
  | |- read_only (db.bind _ _) => apply read_only_bind; [| intros ?]
  | |- read_only (handlers.query _ _) => apply read_only_query
  | |- read_only (services.ConvertAmount _ _ _) => apply read_only_ConvertAmount
  | |- read_only (handlers.fetchConversionRates _ _ _) => apply read_only_fetchConversionRates
  | |- read_only (fun q => (_, q)) => apply read_only_state
  | |- read_only (match ?x with _ => _ end) => destruct x
  end.

(** X6. The handlers never write the rate store. GetDashboardStats,
    GetInvoiceStats, GetTimeEntriesStats and ConvertCurrency, and
    ConvertAmount under them, leave the table and the driver as they were in
    every outcome, error replies included, and send only selects of pairs
    of base USD; GetRecentTimeEntries, GetRecentInvoices and GetTimeEntries
    send nothing to the rate store at all. *)
Theorem handlers_never_write_the_rate_store :
  forall `{Runtime} `{Strconv} (c : handlers.Context),
    read_only (handlers.GetDashboardStats c)
    /\ read_only (handlers.GetInvoiceStats c)
    /\ read_only (handlers.GetTimeEntriesStats c)
    /\ read_only (handlers_currency.ConvertCurrency c)
    /\ (forall a from to, read_only (services.ConvertAmount a from to))
    /\ (forall q, snd (handlers_recent.GetRecentTimeEntries c q) = q)
    /\ (forall q, snd (handlers_recent.GetRecentInvoices c q) = q)
    /\ (forall q, snd (handlers_time_entry.GetTimeEntries c q) = q).
Proof.
  intros rt sc c. repeat apply conj.
  - unfold handlers.GetDashboardStats. cbv zeta. repeat read_only_step.
  - unfold handlers.GetInvoiceStats. cbv zeta. repeat read_only_step.
  - unfold handlers.GetTimeEntriesStats, handlers.getFilteredTimeEntriesWithStats. cbv zeta.
    repeat read_only_step.
  - unfold handlers_currency.ConvertCurrency. cbv zeta. repeat read_only_step.
  - intros a from to. apply read_only_ConvertAmount.
  - intros q. unfold handlers_recent.GetRecentTimeEntries, handlers.query, db.bind, db.ret.
    cbv zeta.
    repeat match goal with
           | |- snd (match ?x with _ => _ end) = _ => destruct x
           | |- snd (match ?x with _ => _ end _) = _ => destruct x
           end; reflexivity.
  - intros q. unfold handlers_recent.GetRecentInvoices, handlers.query, db.bind, db.ret.
    cbv zeta.
    repeat match goal with
           | |- snd (match ?x with _ => _ end) = _ => destruct x
           | |- snd (match ?x with _ => _ end _) = _ => destruct x
           end; reflexivity.
  - intros q. unfold handlers_time_entry.GetTimeEntries, handlers.query, db.bind, db.ret.
    cbv zeta.
    repeat match goal with
           | |- snd (match ?x with _ => _ end) = _ => destruct x
           | |- snd (match ?x with _ => _ end _) = _ => destruct x
           end; reflexivity.
Qed.

(** ** The currency handler *)
Section CurrencyFacts.
Context `{Runtime}.

(** ConvertCurrency once its parameters are present and the amount parses. *)
Lemma ConvertCurrency_parsed (c : handlers.Context) (q : db.Queries) (amount : float) :
  handlers.QueryParam c "amount" <> "" ->
  handlers.QueryParam c "from" <> "" ->
  handlers.QueryParam c "to" <> "" ->
  strconv_ParseFloat (handlers.QueryParam c "amount") = (amount, None) ->
  fst (handlers_currency.ConvertCurrency c q)
  = match convert q amount (handlers.QueryParam c "from") (handlers.QueryParam c "to") with
    | (_, Some e) => handlers_currency.InternalServerError e
    | (convertedAmount, None) =>
        handlers_currency.StatusOK
          {| handlers_currency.cc_Amount := amount;
             handlers_currency.cc_From := handlers.QueryParam c "from";
             handlers_currency.cc_To := handlers.QueryParam c "to";
             handlers_currency.cc_ConvertedAmount := convertedAmount;
             handlers_currency.cc_Rate :=
               if (0 <? amount)%float then (convertedAmount / amount)%float else 1%float |}
    end.
Proof.
  intros Ha Hf Ht Hp. unfold handlers_currency.ConvertCurrency. cbv zeta.
  apply String.eqb_neq in Ha, Hf, Ht. rewrite Ha, Hf, Ht, Hp. cbn [orb].
  unfold convert, db.bind.
  destruct (services.ConvertAmount amount _ _ q) as [[convertedAmount [e |]] q']; reflexivity.
Qed.

(** A conversion fails exactly when the currencies differ and a lookup
    fails. *)
Lemma convert_failed (q : db.Queries) (a : float) (from to : string) :
  failed (convert q a from to) = true
  <-> from <> to /\ (failed (lookup q to) = true \/ failed (lookup q from) = true).
Proof.
  rewrite ConvertAmount_result. unfold failed.
  destruct (String.eqb_spec from to) as [Heq | Hne].
  - cbn [snd]. split; [discriminate | intros [Hne _]; contradiction].
  - destruct (lookup q to) as [rate [e1 |]]; cbn [snd].
    + split; [intros _; split; [exact Hne | now left] | reflexivity].
    + destruct (lookup q from) as [fromRate [e2 |]]; cbn [snd].
      * split; [intros _; split; [exact Hne | now right] | reflexivity].
      * split; [discriminate | intros [_ [Hd | Hd]]; discriminate].
Qed.

(** What the client receives from ConvertCurrency once its parameters are
    present and the amount parses. *)
Lemma ConvertCurrency_answered (c : handlers.Context) (q : db.Queries) (amount : float) :
  handlers.QueryParam c "amount" <> "" ->
  handlers.QueryParam c "from" <> "" ->
  handlers.QueryParam c "to" <> "" ->
  strconv_ParseFloat (handlers.QueryParam c "amount") = (amount, None) ->
  handlers_currency.answered (fst (handlers_currency.ConvertCurrency c q))
  = match convert q amount (handlers.QueryParam c "from") (handlers.QueryParam c "to") with
    | (_, Some e) => echo.Written (handlers_currency.InternalServerError e)
    | (convertedAmount, None) =>
        let rate := if (0 <? amount)%float then (convertedAmount / amount)%float else 1%float in
        if forallb echo.encodes [amount; convertedAmount; rate]
        then echo.Written
               (handlers_currency.StatusOK
                  {| handlers_currency.cc_Amount := amount;
                     handlers_currency.cc_From := handlers.QueryParam c "from";
                     handlers_currency.cc_To := handlers.QueryParam c "to";
                     handlers_currency.cc_ConvertedAmount := convertedAmount;
                     handlers_currency.cc_Rate := rate |})
        else echo.ServerError
    end.
Proof.
  intros Ha Hf Ht Hp. rewrite (ConvertCurrency_parsed c q amount Ha Hf Ht Hp).
  destruct (convert q amount _ _) as [convertedAmount [e |]]; reflexivity.
Qed.

End CurrencyFacts.

(** X7. ConvertCurrency answers 400 "Missing required parameters" when
    amount, from or to is absent, and 400 "Invalid amount" when the amount
    does not parse, in both cases before it sends anything to the rate
    store. With the parameters present and an amount that parses, the
    client receives 500 in exactly two cases: the conversion fails (from <>
    to and the lookup of USD -> to or of USD -> from fails), and then the
    body carries the error of the service; or the conversion succeeds but
    the amount, the converted amount or the rate is NaN or an infinity, so
    that the 200 body cannot be encoded and echo answers 500. In
    particular an amount that parses to NaN or an infinity is answered 500
    even for from = to. In every other case the client receives the 200
    body. *)
Theorem ConvertCurrency_failures :
  forall `{Runtime} (c : handlers.Context) (q : db.Queries),
    let amountStr := handlers.QueryParam c "amount" in
    let from := handlers.QueryParam c "from" in
    let to := handlers.QueryParam c "to" in
    let answer := handlers_currency.answered (fst (handlers_currency.ConvertCurrency c q)) in
    (amountStr = "" \/ from = "" \/ to = "" ->
       handlers_currency.ConvertCurrency c q
       = (handlers_currency.BadRequest "Missing required parameters", q)
       /\ answer = echo.Written (handlers_currency.BadRequest "Missing required parameters"))
    /\ (amountStr <> "" -> from <> "" -> to <> "" ->
        snd (strconv_ParseFloat amountStr) <> None ->
        handlers_currency.ConvertCurrency c q
        = (handlers_currency.BadRequest "Invalid amount", q)
        /\ answer = echo.Written (handlers_currency.BadRequest "Invalid amount"))
    /\ (forall amount, amountStr <> "" -> from <> "" -> to <> "" ->
          strconv_ParseFloat amountStr = (amount, None) ->
          (handlers_currency.status answer = 500
           <-> (from <> to /\ (failed (lookup q to) = true \/ failed (lookup q from) = true))
               \/ (exists converted,
                     convert q amount from to = (converted, None)
                     /\ forallb echo.encodes
                          [amount; converted;
                           if (0 <? amount)%float then (converted / amount)%float else 1%float]
                        = false))
          /\ (handlers_currency.status answer = 500 \/ handlers_currency.status answer = 200)
          /\ (forall e, snd (convert q amount from to) = Some e ->
                        answer = echo.Written (handlers_currency.InternalServerError e))
          /\ (from = to -> echo.encodes amount = false -> answer = echo.ServerError)).
Proof.
  intros rt c q amountStr from to answer. repeat apply conj.
  - intros Hmissing.
    assert (Hrun : handlers_currency.ConvertCurrency c q
                   = (handlers_currency.BadRequest "Missing required parameters", q)).
    { unfold handlers_currency.ConvertCurrency. cbv zeta. fold amountStr from to.
      assert (Hb : String.eqb amountStr "" || String.eqb from "" || String.eqb to "" = true).
      { destruct Hmissing as [-> | [-> | ->]]; cbn [String.eqb orb];
          rewrite ?orb_true_r; reflexivity. }
      now rewrite Hb. }
    split; [exact Hrun |]. unfold answer. now rewrite Hrun.
  - intros Ha Hf Ht Hp.
    assert (Hrun : handlers_currency.ConvertCurrency c q
                   = (handlers_currency.BadRequest "Invalid amount", q)).
    { unfold handlers_currency.ConvertCurrency. cbv zeta. fold amountStr from to.
      apply String.eqb_neq in Ha, Hf, Ht. rewrite Ha, Hf, Ht. cbn [orb].
      destruct (strconv_ParseFloat amountStr) as [amount [e |]]; [reflexivity |].
      now cbn in Hp. }
    split; [exact Hrun |]. unfold answer. now rewrite Hrun.
  - intros amount Ha Hf Ht Hp.
    pose proof (ConvertCurrency_answered c q amount Ha Hf Ht Hp) as Hanswer.
    fold answer from to in Hanswer. cbv zeta in Hanswer.
    pose proof (convert_failed q amount from to) as Hfailed. unfold failed at 1 in Hfailed.
    destruct (convert q amount from to) as [converted [e |]] eqn:Hconv; cbn [snd] in Hfailed.
    + rewrite Hanswer. cbn [handlers_currency.status]. repeat split.
      * intros _. left. now apply Hfailed.
      * now left.
      * intros e' [= <-]. reflexivity.
      * intros Heq _. exfalso. apply Hfailed; [reflexivity | exact Heq].
    + rewrite Hanswer.
      destruct (forallb echo.encodes _) eqn:Henc; cbn [handlers_currency.status]; repeat split.
      * discriminate.
      * intros [[Hne Hl] | (converted' & [= <-] & Hno)].
        -- assert (Hno : false = true) by (apply Hfailed; auto). discriminate.
        -- congruence.
      * now right.
      * discriminate.
      * intros Heq Hnot. cbn [forallb] in Henc. rewrite Hnot in Henc. discriminate.
      * intros _. right. exists converted. auto.
      * now left.
      * discriminate.
Qed.

(** X8. The rate that ConvertCurrency reports, once the parameters are
    present and the amount parses. For from = to and a positive finite
    amount the client receives the amount itself with rate exactly 1.0, and
    nothing is sent to the rate store. For an amount that is not above 0
    (zero, negative or NaN) every 200 body that the handler makes reports
    rate 1.0, whatever the currencies and the stored rates. For from <> to,
    a positive amount and lookups that give rFrom and rTo, the body that
    the handler makes carries amount / rFrom * rTo and, as rate, that value
    divided by the amount, not rTo / rFrom; the client receives it when the
    three numbers are finite and 500 otherwise, as when rFrom is 0 and rTo
    is positive, where the converted amount is +Inf. *)
Theorem ConvertCurrency_reported_rate :
  forall `{Runtime} (c : handlers.Context) (q : db.Queries) (amount : float),
    let from := handlers.QueryParam c "from" in
    let to := handlers.QueryParam c "to" in
    let reply := fst (handlers_currency.ConvertCurrency c q) in
    handlers.QueryParam c "amount" <> "" -> from <> "" -> to <> "" ->
    strconv_ParseFloat (handlers.QueryParam c "amount") = (amount, None) ->
    (from = to -> (0 <? amount)%float = true -> (amount <? infinity)%float = true ->
       handlers_currency.ConvertCurrency c q
       = (handlers_currency.StatusOK
            {| handlers_currency.cc_Amount := amount;
               handlers_currency.cc_From := from;
               handlers_currency.cc_To := to;
               handlers_currency.cc_ConvertedAmount := amount;
               handlers_currency.cc_Rate := 1%float |}, q)
       /\ handlers_currency.answered reply
          = echo.Written
              (handlers_currency.StatusOK
                 {| handlers_currency.cc_Amount := amount;
                    handlers_currency.cc_From := from;
                    handlers_currency.cc_To := to;
                    handlers_currency.cc_ConvertedAmount := amount;
                    handlers_currency.cc_Rate := 1%float |}))
    /\ ((0 <? amount)%float = false ->
        forall body, reply = handlers_currency.StatusOK body ->
                     handlers_currency.cc_Rate body = 1%float)
    /\ (forall rFrom rTo, from <> to ->
          lookup q from = (rFrom, None) -> lookup q to = (rTo, None) ->
          (0 <? amount)%float = true ->
          let converted := (amount / rFrom * rTo)%float in
          let body := {| handlers_currency.cc_Amount := amount;
                         handlers_currency.cc_From := from;
                         handlers_currency.cc_To := to;
                         handlers_currency.cc_ConvertedAmount := converted;
                         handlers_currency.cc_Rate := (converted / amount)%float |} in
          reply = handlers_currency.StatusOK body
          /\ handlers_currency.answered reply
             = (if forallb echo.encodes [amount; converted; (converted / amount)%float]
                then echo.Written (handlers_currency.StatusOK body) else echo.ServerError)
          /\ (rFrom = 0%float -> (0 <? rTo)%float = true ->
              handlers_currency.answered reply = echo.ServerError)).
Proof.
  intros rt c q amount from to reply Ha Hf Ht Hp. repeat apply conj.
  - intros Heq Hpos Hfin.
    assert (Hrun : handlers_currency.ConvertCurrency c q
                   = (handlers_currency.StatusOK
                        {| handlers_currency.cc_Amount := amount;
                           handlers_currency.cc_From := from;
                           handlers_currency.cc_To := to;
                           handlers_currency.cc_ConvertedAmount := amount;
                           handlers_currency.cc_Rate := 1%float |}, q)).
    { unfold handlers_currency.ConvertCurrency. cbv zeta.
      fold from to. pose proof Ha as Ha'. pose proof Hf as Hf'. pose proof Ht as Ht'.
      apply String.eqb_neq in Ha', Hf', Ht'. rewrite Ha', Hf', Ht', Hp. cbn [orb].
      unfold db.bind, services.ConvertAmount.
      assert (Hft : String.eqb from to = true) by now apply String.eqb_eq.
      rewrite Hft. unfold db.ret. rewrite Hpos, (float_div_self amount Hpos Hfin). reflexivity. }
    split; [exact Hrun |]. unfold reply. rewrite Hrun.
    cbn [fst handlers_currency.answered handlers_currency.cc_Amount
         handlers_currency.cc_ConvertedAmount handlers_currency.cc_Rate].
    unfold echo.JSON. cbn [forallb]. now rewrite (float_pos_finite amount Hpos Hfin).
  - intros Hnpos body Hbody. unfold reply in Hbody.
    rewrite (ConvertCurrency_parsed c q amount Ha Hf Ht Hp) in Hbody. fold from to in Hbody.
    destruct (convert q amount from to) as [convertedAmount [e |]]; [discriminate |].
    injection Hbody as <-. cbn [handlers_currency.cc_Rate]. now rewrite Hnpos.
  - intros rFrom rTo Hne Hfrom Hto Hpos converted body.
    assert (Hconv : convert q amount from to = (converted, None)).
    { rewrite ConvertAmount_result, Hto, Hfrom.
      assert (Hft : String.eqb from to = false) by now apply String.eqb_neq.
      now rewrite Hft. }
    assert (Hreply : reply = handlers_currency.StatusOK body).
    { unfold reply. rewrite (ConvertCurrency_parsed c q amount Ha Hf Ht Hp). fold from to.
      rewrite Hconv. unfold body. now rewrite Hpos. }
    assert (Hanswer : handlers_currency.answered reply
                      = if forallb echo.encodes [amount; converted; (converted / amount)%float]
                        then echo.Written (handlers_currency.StatusOK body)
                        else echo.ServerError).
    { rewrite Hreply. reflexivity. }
    split; [exact Hreply |]. split; [exact Hanswer |].
    intros Hzero Hrate. rewrite Hanswer. unfold converted. rewrite Hzero.
    rewrite (float_div_zero amount Hpos), (float_infinity_mul rTo Hrate).
    cbn [forallb]. change (echo.encodes infinity) with false.
    cbn [andb]. now rewrite andb_false_r.
Qed.

Lemma ConvertCurrency_reported_rate_witness :
  handlers_currency.answered
    (fst (@handlers_currency.ConvertCurrency goruntime.go
            (conversion_request "100" "EUR" "EUR") (store_of eur_table)))
  = echo.Written
      (handlers_currency.StatusOK
         {| handlers_currency.cc_Amount := 100%float;
            handlers_currency.cc_From := "EUR";
            handlers_currency.cc_To := "EUR";
            handlers_currency.cc_ConvertedAmount := 100%float;
            handlers_currency.cc_Rate := 1%float |})
  /\ (forall body,
        fst (@handlers_currency.ConvertCurrency goruntime.go
               (conversion_request "-5" "EUR" "USD") (store_of eur_table))
        = handlers_currency.StatusOK body ->
        handlers_currency.cc_Rate body = 1%float)
  /\ handlers_currency.answered
       (fst (@handlers_currency.ConvertCurrency goruntime.go
               (conversion_request "100" "EUR" "USD") (store_of eur_table)))
     = echo.Written
         (handlers_currency.StatusOK
            {| handlers_currency.cc_Amount := 100%float;
               handlers_currency.cc_From := "EUR";
               handlers_currency.cc_To := "USD";
               handlers_currency.cc_ConvertedAmount := (100 / 0.92 * 1)%float;
               handlers_currency.cc_Rate := (100 / 0.92 * 1 / 100)%float |})
  /\ handlers_currency.answered
       (fst (@handlers_currency.ConvertCurrency goruntime.go
               (conversion_request "100" "EUR" "USD") (store_of zero_rate_table)))
     = echo.ServerError.
Proof.
  split; [| split; [| split]].
  - destruct (@ConvertCurrency_reported_rate goruntime.go
                (conversion_request "100" "EUR" "EUR") (store_of eur_table) 100%float)
      as (Hsame & _); [discriminate | discriminate | discriminate | reflexivity |].
    destruct Hsame as [_ Hanswer]; [reflexivity | reflexivity | reflexivity |].
    exact Hanswer.
  - destruct (@ConvertCurrency_reported_rate goruntime.go
                (conversion_request "-5" "EUR" "USD") (store_of eur_table) (-5)%float)
      as (_ & Hnonpos & _); [discriminate | discriminate | discriminate | reflexivity |].
    apply Hnonpos. reflexivity.
  - destruct (@ConvertCurrency_reported_rate goruntime.go
                (conversion_request "100" "EUR" "USD") (store_of eur_table) 100%float)
      as (_ & _ & Hrate); [discriminate | discriminate | discriminate | reflexivity |].
    destruct (Hrate 0.92%float 1%float) as (_ & Hanswer & _);
      [discriminate | reflexivity | reflexivity | reflexivity |].
    exact Hanswer.
  - destruct (@ConvertCurrency_reported_rate goruntime.go
                (conversion_request "100" "EUR" "USD") (store_of zero_rate_table) 100%float)
      as (_ & _ & Hrate); [discriminate | discriminate | discriminate | reflexivity |].
    destruct (Hrate 0%float 1%float) as (_ & _ & Hzero);
      [discriminate | reflexivity | reflexivity | reflexivity |].
    apply Hzero; reflexivity.
Defined.

(** ** The sort of the recent items *)
Section SortFacts.
Context {A : Type} (date : A -> Time).

Lemma swapIfAfter_length (i j : nat) (l : list A) :
  length (handlers_recent.swapIfAfter date i j l) = length l.
Proof.
  unfold handlers_recent.swapIfAfter.
  destruct (l !! i) as [x |]; [| reflexivity].
  destruct (l !! j) as [y |]; [| reflexivity].
  destruct (handlers.After (date y) (date x)); [| reflexivity].
  now rewrite !length_insert.
Qed.

Lemma swapIfAfter_Permutation (i j : nat) (l : list A) :
  Permutation (handlers_recent.swapIfAfter date i j l) l.
Proof.
  unfold handlers_recent.swapIfAfter.
  destruct (l !! i) as [x |] eqn:Hi; [| reflexivity].
  destruct (l !! j) as [y |] eqn:Hj; [| reflexivity].
  destruct (handlers.After (date y) (date x)); [| reflexivity].
  now apply Permutation_insert_swap.
Qed.

(** One comparison of the inner loop: the rows at other places stay, the
    row at [i] is afterwards at least as late as the row at [j] and as the
    row that was at [i], and both come from the places [i] and [j]. *)
Lemma swapIfAfter_spec (i j : nat) (l : list A) :
  (i < j)%nat ->
  let l' := handlers_recent.swapIfAfter date i j l in
  (forall k, k <> i -> k <> j -> l' !! k = l !! k)
  /\ (forall x y, l' !! i = Some x -> l' !! j = Some y -> (date y <= date x)%Z)
  /\ (forall x x', l !! i = Some x -> l' !! i = Some x' -> (date x <= date x')%Z)
  /\ (forall y, l' !! j = Some y -> l !! i = Some y \/ l !! j = Some y)
  /\ (forall x, l' !! i = Some x -> l !! i = Some x \/ l !! j = Some x).
Proof.
  intros Hij l'. unfold l', handlers_recent.swapIfAfter.
  destruct (l !! i) as [x |] eqn:Hi.
  2: { repeat split; auto; intros; congruence. }
  destruct (l !! j) as [y |] eqn:Hj.
  2: { repeat split; auto.
       - intros x0 y0 _ Hy. congruence.
       - intros x0 x0' ? ?. simplify_eq. lia.
       - intros y0 Hy. congruence.
       - intros x0 Hx. left. congruence. }
  assert (Hli : (i < length l)%nat) by (apply lookup_lt_is_Some; eauto).
  assert (Hlj : (j < length l)%nat) by (apply lookup_lt_is_Some; eauto).
  unfold handlers.After. destruct (date x <? date y)%Z eqn:Hlt.
  - apply Z.ltb_lt in Hlt.
    assert (Hi' : <[i:=y]> (<[j:=x]> l) !! i = Some y).
    { apply list_lookup_insert_eq. now rewrite length_insert. }
    assert (Hj' : <[i:=y]> (<[j:=x]> l) !! j = Some x).
    { rewrite list_lookup_insert_ne by lia. now apply list_lookup_insert_eq. }
    repeat split.
    + intros k Hki Hkj. rewrite !list_lookup_insert_ne by lia. reflexivity.
    + intros x0 y0. rewrite Hi', Hj'. intros [= <-] [= <-]. lia.
    + intros x0 x0'. rewrite Hi'. intros [= <-] [= <-]. lia.
    + intros y0. rewrite Hj'. auto.
    + intros x0. rewrite Hi'. auto.
  - apply Z.ltb_ge in Hlt. repeat split.
    + intros x0 y0. rewrite Hi, Hj. intros [= <-] [= <-]. exact Hlt.
    + intros x0 x0'. rewrite Hi. intros [= <-] [= <-]. lia.
    + intros y0. rewrite Hj. auto.
    + intros x0. rewrite Hi. auto.
Qed.

(** The inner loop, after the comparisons with the [k] places after [i]. *)
Lemma sortInner_prefix (i : nat) (l : list A) (k : nat) :
  let l' := fold_left (fun filtered j => handlers_recent.swapIfAfter date i j filtered)
                      (seq (S i) k) l in
  length l' = length l
  /\ Permutation l' l
  /\ (forall p, (p < i)%nat \/ (i + k < p)%nat -> l' !! p = l !! p)
  /\ (forall j x y, (i < j <= i + k)%nat -> l' !! i = Some x -> l' !! j = Some y ->
                    (date y <= date x)%Z)
  /\ (forall p y, (i <= p)%nat -> l' !! p = Some y -> exists p', (i <= p')%nat /\ l !! p' = Some y).
Proof.
  induction k as [| k IH]; intros l'.
  - unfold l'. cbn. repeat split; auto; intros; try lia. eauto.
  - unfold l'. rewrite seq_S, fold_left_app. cbn [fold_left].
    set (l1 := fold_left _ (seq (S i) k) l) in *.
    destruct IH as (Hlen & Hperm & Hout & Hmax & Hfrom).
    destruct (swapIfAfter_spec i (S i + k) l1) as (Hk & Hord & Hgrow & Hj & Hi); [lia |].
    set (l2 := handlers_recent.swapIfAfter date i (S i + k) l1) in *.
    repeat split.
    + unfold l2. now rewrite swapIfAfter_length.
    + unfold l2. now rewrite swapIfAfter_Permutation.
    + intros p Hp. rewrite Hk by lia. apply Hout. lia.
    + intros j x y Hjr Hx Hy.
      destruct (decide (j = (S i + k)%nat)) as [-> | Hne]; [now apply (Hord x y) |].
      rewrite Hk in Hy by lia.
      destruct (l1 !! i) as [x1 |] eqn:Hx1.
      * assert (date y <= date x1)%Z by (apply (Hmax j x1 y); [lia | reflexivity | exact Hy]).
        assert (date x1 <= date x)%Z by now apply (Hgrow x1 x).
        lia.
      * destruct (Hi x Hx) as [H1 | H1]; [congruence |].
        exfalso. unfold l2, handlers_recent.swapIfAfter in Hx. rewrite Hx1 in Hx. congruence.
    + intros p y Hp Hy.
      destruct (decide (p = i)) as [-> | Hpi].
      * destruct (Hi y Hy) as [H1 | H1]; [apply (Hfrom i); [lia | exact H1] |].
        apply (Hfrom (S i + k)%nat); [lia | exact H1].
      * destruct (decide (p = (S i + k)%nat)) as [-> | Hpj].
        -- destruct (Hj y Hy) as [H1 | H1]; [apply (Hfrom i); [lia | exact H1] |].
           apply (Hfrom (S i + k)%nat); [lia | exact H1].
        -- rewrite Hk in Hy by lia. now apply (Hfrom p).
Qed.

(** One round of the outer loop puts at [i] a row that is at least as late
    as every row after it, and keeps the rows before [i]. *)
Lemma sortInner_spec (i : nat) (l : list A) :
  let l' := handlers_recent.sortInner date i l in
  length l' = length l
  /\ Permutation l' l
  /\ (forall p, (p < i)%nat -> l' !! p = l !! p)
  /\ (forall j x y, (i < j)%nat -> l' !! i = Some x -> l' !! j = Some y -> (date y <= date x)%Z)
  /\ (forall p y, (i <= p)%nat -> l' !! p = Some y -> exists p', (i <= p')%nat /\ l !! p' = Some y).
Proof.
  intros l'. unfold l', handlers_recent.sortInner.
  destruct (sortInner_prefix i l (length l - S i)) as (Hlen & Hperm & Hout & Hmax & Hfrom).
  set (l1 := fold_left _ _ l) in *.
  repeat split; auto.
  intros j x y Hij Hx Hy. apply (Hmax j x y); auto.
  assert (j < length l1)%nat by (apply lookup_lt_is_Some; eauto). lia.
Qed.

Lemma sortInner_sortedUpTo (m : nat) (l : list A) :
  sortedUpTo date m l -> sortedUpTo date (S m) (handlers_recent.sortInner date m l).
Proof.
  intros Hs. destruct (sortInner_spec m l) as (Hlen & Hperm & Hkeep & Hmax & Hfrom).
  intros p q x y Hpm Hpq Hx Hy.
  destruct (decide (p = m)) as [-> | Hne]; [now apply (Hmax q x y) |].
  rewrite Hkeep in Hx by lia.
  destruct (decide (q < m)%nat) as [Hq | Hq].
  - rewrite Hkeep in Hy by lia. apply (Hs p q x y); auto; lia.
  - destruct (Hfrom q y) as (q' & Hq' & Hy'); [lia | exact Hy |].
    apply (Hs p q' x y); auto; lia.
Qed.

(** The outer loop, after [m] rounds. *)
Lemma sortByDateDesc_prefix (l : list A) (m : nat) :
  let l' := fold_left (fun filtered i => handlers_recent.sortInner date i filtered) (seq 0 m) l in
  length l' = length l /\ Permutation l' l /\ sortedUpTo date m l'.
Proof.
  induction m as [| m IH]; intros l'.
  - unfold l'. cbn. repeat split; auto. intros p q x y Hp. lia.
  - unfold l'. rewrite seq_S, fold_left_app. cbn [fold_left plus].
    set (l1 := fold_left _ (seq 0 m) l) in *. destruct IH as (Hlen & Hperm & Hs).
    destruct (sortInner_spec m l1) as (Hlen' & Hperm' & _).
    repeat split.
    + congruence.
    + now rewrite Hperm'.
    + now apply sortInner_sortedUpTo.
Qed.

(** The two loops sort: the result holds the same rows, latest first. *)
Lemma sortByDateDesc_spec (l : list A) :
  Permutation (handlers_recent.sortByDateDesc date l) l
  /\ sortedDesc date (handlers_recent.sortByDateDesc date l).
Proof.
  unfold handlers_recent.sortByDateDesc.
  destruct (sortByDateDesc_prefix l (length l)) as (Hlen & Hperm & Hs).
  set (l' := fold_left _ _ l) in *. split; [exact Hperm |].
  intros p q x y Hpq Hx Hy. apply (Hs p q x y); auto.
  assert (q < length l')%nat by (apply lookup_lt_is_Some; eauto). lia.
Qed.

(** Cutting a sorted list keeps the latest rows. *)
Lemma limitTo_spec (limit : Z) (l : list A) :
  (0 < limit)%Z ->
  sortedDesc date l ->
  let selected := handlers_recent.limitTo limit l in
  exists others,
    selected ++ others = l
    /\ sortedDesc date selected
    /\ (forall x y, In x selected -> In y others -> (date y <= date x)%Z)
    /\ Z.of_nat (length selected) = Z.min limit (Z.of_nat (length l)).
Proof.
  intros Hpos Hs selected. unfold selected, handlers_recent.limitTo.
  destruct (limit <? Z.of_nat (length l))%Z eqn:Hlt.
  - apply Z.ltb_lt in Hlt. exists (drop (Z.to_nat limit) l).
    split; [apply take_drop |]. split; [| split].
    + intros p q x y Hpq Hx Hy. apply lookup_take_Some in Hx as [Hx _].
      apply lookup_take_Some in Hy as [Hy _]. now apply (Hs p q x y).
    + intros x y Hx Hy.
      apply (proj2 (list_elem_of_In _ _)) in Hx. apply (proj2 (list_elem_of_In _ _)) in Hy.
      apply list_elem_of_lookup in Hx as [p Hx]. apply list_elem_of_lookup in Hy as [r Hy].
      apply lookup_take_Some in Hx as [Hx Hp]. rewrite lookup_drop in Hy.
      apply (Hs p (Z.to_nat limit + r)%nat x y); auto. lia.
    + rewrite length_take. lia.
  - apply Z.ltb_ge in Hlt. exists []. rewrite app_nil_r. repeat split; auto.
    + intros x y _ [].
    + lia.
Qed.

(** Filter, sort and limit: the rows selected are the latest rows in the
    range, latest first. *)
Lemma recent_rows_spec (fromDate toDate : option Time) (limit : Z) (rows : list A) :
  (0 < limit)%Z ->
  let inrange := List.filter (fun row => inRange (fromDate, toDate) (date row)) rows in
  let selected :=
    handlers_recent.limitTo limit
      (handlers_recent.sortByDateDesc date
         (handlers_recent.dateFilter date fromDate toDate rows)) in
  exists others,
    Permutation (selected ++ others) inrange
    /\ sortedDesc date selected
    /\ (forall x y, In x selected -> In y others -> (date y <= date x)%Z)
    /\ Z.of_nat (length selected) = Z.min limit (Z.of_nat (length inrange)).
Proof.
  intros Hpos inrange selected.
  assert (Hf : handlers_recent.dateFilter date fromDate toDate rows = inrange) by reflexivity.
  unfold selected. rewrite Hf.
  destruct (sortByDateDesc_spec inrange) as [Hperm Hs].
  destruct (limitTo_spec limit _ Hpos Hs) as (others & Happ & Hs' & Htop & Hlen).
  exists others. repeat split; auto.
  - now rewrite Happ.
  - rewrite Hlen. now rewrite (Permutation_length Hperm).
Qed.

End SortFacts.

Section RecentFacts.
Context `{Runtime} `{Strconv}.

(** The limit is positive: 5 unless the parameter parses to a positive
    number. *)
Lemma limitParam_spec (c : handlers.Context) :
  (0 < handlers_recent.limitParam c)%Z
  /\ (handlers_recent.limitParam c = 5
      \/ strconv_Atoi (handlers.QueryParam c "limit") = (handlers_recent.limitParam c, None)).
Proof.
  unfold handlers_recent.limitParam.
  destruct (String.eqb (handlers.QueryParam c "limit") ""); [split; [lia | now left] |].
  destruct (strconv_Atoi (handlers.QueryParam c "limit")) as [parsedLimit [e |]];
    [split; [lia | now left] |].
  destruct (0 <? parsedLimit)%Z eqn:Hpos; [| split; [lia | now left]].
  apply Z.ltb_lt in Hpos. split; [exact Hpos | now right].
Qed.

Lemma dashboardRange_params (c : handlers.Context) (range : option Time * option Time) :
  dashboardRange c = Some range ->
  exists parsed,
    handlers.dateParam (handlers.QueryParam c "from") = Some (fst range)
    /\ handlers.dateParam (handlers.QueryParam c "to") = Some parsed
    /\ option_map endOfDay parsed = snd range.
Proof.
  unfold dashboardRange.
  destruct (handlers.dateParam (handlers.QueryParam c "from")) as [fromDate |]; [| discriminate].
  destruct (handlers.dateParam (handlers.QueryParam c "to")) as [parsed |]; [| discriminate].
  intros [= <-]. exists parsed. auto.
Qed.

End RecentFacts.

(** X9. GetRecentTimeEntries, when its dates parse and its queries succeed,
    replies with the responses of the latest entries of the range: the
    entries selected are entries of the range, each once, they are ordered
    by date, latest first, no entry left out is later than one selected,
    and their number is the limit, or the number of entries in the range
    when that is smaller. The limit is positive: it is 5 unless the limit
    parameter parses to a positive integer. *)
Theorem recent_time_entries_are_the_latest_of_the_range :
  forall `{Runtime} `{Strconv} (c : handlers.Context) (q : db.Queries)
         (range : option Time * option Time)
         (timeEntries : list db.GetTimeEntriesByUserIDRow)
         (clients : list db.GetClientsByUserIDRow),
    dashboardRange c = Some range ->
    db.GetTimeEntriesByUserID q (handlers.user_id c) = Ok timeEntries ->
    db.GetClientsByUserID q (handlers.user_id c) = Ok clients ->
    let inrange := List.filter (fun entry => inRange range (db.entry_Date entry)) timeEntries in
    let limit := handlers_recent.limitParam c in
    exists selected others,
      fst (handlers_recent.GetRecentTimeEntries c q)
      = handlers.JSONOK
          (map (handlers_recent.recentTimeEntry (handlers_recent.clientNamesOf clients)) selected)
      /\ Permutation (selected ++ others) inrange
      /\ sortedDesc db.entry_Date selected
      /\ (forall x y, In x selected -> In y others -> (db.entry_Date y <= db.entry_Date x)%Z)
      /\ Z.of_nat (length selected) = Z.min limit (Z.of_nat (length inrange))
      /\ (0 < limit)%Z
      /\ (limit = 5 \/ strconv_Atoi (handlers.QueryParam c "limit") = (limit, None)).
Proof.
  intros rt sc c q [fromDate toDate] timeEntries clients Hrange Hentries Hclients inrange limit.
  destruct (limitParam_spec c) as [Hpos Hlimit].
  destruct (dashboardRange_params c _ Hrange) as (parsed & Hfrom & Hto & Hend).
  cbn [fst snd] in Hfrom, Hend.
  destruct (recent_rows_spec db.entry_Date fromDate toDate limit timeEntries Hpos)
    as (others & Hperm & Hsorted & Htop & Hlen).
  eexists _, others. split; [| repeat split; eauto].
  unfold handlers_recent.GetRecentTimeEntries. cbv zeta.
  rewrite Hfrom, Hto, Hend. unfold db.bind, handlers.query, db.ret.
  rewrite Hentries, Hclients. reflexivity.
Qed.

Lemma recent_time_entries_are_the_latest_of_the_range_witness :
  let c := recent_request "2" in
  let q := with_entries recent_entries scenario_store in
  let inrange := List.filter (fun entry => inRange (None, None) (db.entry_Date entry))
                   recent_entries in
  let limit := @handlers_recent.limitParam gostrconv.go c in
  exists selected others,
    fst (@handlers_recent.GetRecentTimeEntries goruntime.go gostrconv.go c q)
    = handlers.JSONOK
        (map (@handlers_recent.recentTimeEntry goruntime.go
                (handlers_recent.clientNamesOf scenario_clients)) selected)
    /\ Permutation (selected ++ others) inrange
    /\ sortedDesc db.entry_Date selected
    /\ (forall x y, In x selected -> In y others -> (db.entry_Date y <= db.entry_Date x)%Z)
    /\ Z.of_nat (length selected) = Z.min limit (Z.of_nat (length inrange))
    /\ (0 < limit)%Z
    /\ (limit = 5 \/ gostrconv.Atoi "2" = (limit, None)).
Proof.
  apply (@recent_time_entries_are_the_latest_of_the_range goruntime.go gostrconv.go
           (recent_request "2") (with_entries recent_entries scenario_store) (None, None)
           recent_entries scenario_clients); reflexivity.
Defined.

(** X10. GetRecentInvoices, when its dates parse and its queries succeed,
    replies with one slot for each of the latest invoices of the range, by
    issue date, latest first, as many as the limit allows. An invoice whose
    time entries cannot be read is not left out: its slot holds the zero
    value of the response (id 0, empty number and status, no entries). *)
Theorem recent_invoices_are_the_latest_with_one_slot_each :
  forall `{Runtime} `{Strconv} (c : handlers.Context) (q : db.Queries)
         (range : option Time * option Time)
         (invoices : list db.Invoice) (clients : list db.GetClientsByUserIDRow),
    dashboardRange c = Some range ->
    db.GetInvoicesByUserID q (handlers.user_id c) = Ok invoices ->
    db.GetClientsByUserID q (handlers.user_id c) = Ok clients ->
    let inrange := List.filter (fun invoice => inRange range (db.invoice_IssueDate invoice))
                     invoices in
    let limit := handlers_recent.limitParam c in
    exists selected others response,
      fst (handlers_recent.GetRecentInvoices c q) = handlers.JSONOK response
      /\ Permutation (selected ++ others) inrange
      /\ sortedDesc db.invoice_IssueDate selected
      /\ (forall x y, In x selected -> In y others ->
                      (db.invoice_IssueDate y <= db.invoice_IssueDate x)%Z)
      /\ Z.of_nat (length selected) = Z.min limit (Z.of_nat (length inrange))
      /\ length response = length selected
      /\ (forall (i : nat) invoice, selected !! i = Some invoice ->
            match db.GetInvoiceTimeEntries q (db.invoice_ID invoice) with
            | Err _ => response !! i = Some handlers_recent.zeroRecentInvoice
            | Ok timeEntries =>
                exists r, response !! i = Some r
                          /\ handlers_recent.ri_ID r = db.invoice_ID invoice
                          /\ handlers_recent.ri_InvoiceNumber r = db.invoice_InvoiceNumber invoice
                          /\ handlers_recent.ri_Status r = db.invoice_Status invoice
                          /\ handlers_recent.ri_TotalAmount r = handlers.invoiceTotalOf timeEntries
            end).
Proof.
  intros rt sc c q [fromDate toDate] invoices clients Hrange Hinvoices Hclients inrange limit.
  destruct (limitParam_spec c) as [Hpos Hlimit].
  destruct (dashboardRange_params c _ Hrange) as (parsed & Hfrom & Hto & Hend).
  cbn [fst snd] in Hfrom, Hend.
  destruct (recent_rows_spec db.invoice_IssueDate fromDate toDate limit invoices Hpos)
    as (others & Hperm & Hsorted & Htop & Hlen).
  eexists _, others, _. split; [| repeat split; eauto].
  - unfold handlers_recent.GetRecentInvoices. cbv zeta.
    rewrite Hfrom, Hto, Hend. unfold db.bind, handlers.query, db.ret.
    rewrite Hinvoices, Hclients. reflexivity.
  - apply length_map.
  - intros i invoice Hi. subst limit.
    change (map ?f ?l) with (f <$> l). rewrite list_lookup_fmap, Hi. cbn [fmap option_fmap option_map].
    unfold handlers_recent.recentInvoice.
    destruct (db.GetInvoiceTimeEntries q (db.invoice_ID invoice)) as [timeEntries | e];
      [| reflexivity].
    destruct (default _ _) as [clientName clientCurrency]. eexists. split; [reflexivity |].
    cbn. auto.
Qed.

Lemma recent_invoices_are_the_latest_with_one_slot_each_witness :
  let c := recent_request "2" in
  let q := recent_invoice_store in
  let invoices := [ db.mkInvoice 1 1 "INV-1" 1761264000000000000 "paid";
                    db.mkInvoice 2 2 "INV-2" 1761436800000000000 "sent";
                    db.mkInvoice 3 3 "INV-3" 1761350400000000000 "draft" ] in
  let inrange := List.filter (fun invoice => inRange (None, None) (db.invoice_IssueDate invoice))
                   invoices in
  let limit := @handlers_recent.limitParam gostrconv.go c in
  exists selected others response,
    fst (@handlers_recent.GetRecentInvoices goruntime.go gostrconv.go c q)
    = handlers.JSONOK response
    /\ Permutation (selected ++ others) inrange
    /\ sortedDesc db.invoice_IssueDate selected
    /\ (forall x y, In x selected -> In y others ->
                    (db.invoice_IssueDate y <= db.invoice_IssueDate x)%Z)
    /\ Z.of_nat (length selected) = Z.min limit (Z.of_nat (length inrange))
    /\ length response = length selected
    /\ (forall (i : nat) invoice, selected !! i = Some invoice ->
          match db.GetInvoiceTimeEntries q (db.invoice_ID invoice) with
          | Err _ => response !! i = Some handlers_recent.zeroRecentInvoice
          | Ok timeEntries =>
              exists r, response !! i = Some r
                        /\ handlers_recent.ri_ID r = db.invoice_ID invoice
                        /\ handlers_recent.ri_InvoiceNumber r = db.invoice_InvoiceNumber invoice
                        /\ handlers_recent.ri_Status r = db.invoice_Status invoice
                        /\ handlers_recent.ri_TotalAmount r
                           = @handlers.invoiceTotalOf goruntime.go timeEntries
          end).
Proof.
  apply (@recent_invoices_are_the_latest_with_one_slot_each goruntime.go gostrconv.go
           (recent_request "2") recent_invoice_store (None, None)
           [ db.mkInvoice 1 1 "INV-1" 1761264000000000000 "paid";
             db.mkInvoice 2 2 "INV-2" 1761436800000000000 "sent";
             db.mkInvoice 3 3 "INV-3" 1761350400000000000 "draft" ]
           scenario_clients); reflexivity.
Defined.

Section ConsistencyFacts.
Context `{Runtime}.

Lemma invoiceHoursOf_entries (timeEntries : list db.GetInvoiceTimeEntriesRow) :
  handlers.invoiceHoursOf timeEntries = entriesHours (map handlers.invoiceEntryResponse timeEntries).
Proof.
  unfold handlers.invoiceHoursOf, entriesHours. generalize 0%float.
  induction timeEntries as [| e es IH]; intros h; [reflexivity |]. cbn [map fold_left]. apply IH.
Qed.

Lemma invoiceTotalOf_entries (timeEntries : list db.GetInvoiceTimeEntriesRow) :
  handlers.invoiceTotalOf timeEntries
  = entriesAmount (map handlers.invoiceEntryResponse timeEntries).
Proof.
  unfold handlers.invoiceTotalOf, entriesAmount. generalize 0%float.
  induction timeEntries as [| e es IH]; intros h; [reflexivity |]. cbn [map fold_left]. apply IH.
Qed.

(** Every response that the loop of the invoice statistics appends has the
    totals of the entries it lists. *)
Lemma invoiceStatsStep_totals_match (statusFilter R : string)
    (clientsMap : gmap Z db.GetClientsByUserIDRow) (rates : gmap string float)
    (getEntries : Z -> result (list db.GetInvoiceTimeEntriesRow)) (invoices : list db.Invoice) :
  forall acc : handlers.invoiceAcc,
    Forall invoice_totals_match (handlers.invoiceResponses acc) ->
    Forall invoice_totals_match
      (handlers.invoiceResponses
         (fold_left (handlers.invoiceStatsStep statusFilter R clientsMap rates getEntries)
            invoices acc)).
Proof.
  induction invoices as [| invoice invoices IH]; intros acc Hacc; [exact Hacc |].
  cbn [fold_left]. apply IH. unfold handlers.invoiceStatsStep.
  destruct (getEntries (db.invoice_ID invoice)) as [timeEntries | e]; [| exact Hacc].
  destruct (match clientsMap !! db.invoice_ClientID invoice with
            | Some client => (db.client_Name client, db.client_Currency client)
            | None => ("Unknown", "USD")
            end) as [clientName clientCurrency].
  destruct (negb (String.eqb statusFilter "all")
            && negb (String.eqb (db.invoice_Status invoice) statusFilter)); [exact Hacc |].
  cbn [handlers.invoiceResponses]. apply Forall_app. split; [exact Hacc |].
  constructor; [| constructor]. split; cbn.
  - apply invoiceHoursOf_entries.
  - apply invoiceTotalOf_entries.
Qed.

Lemma recentInvoice_totals_match (clientsMap : gmap Z (string * string))
    (getEntries : Z -> result (list db.GetInvoiceTimeEntriesRow)) (invoice : db.Invoice) :
  recent_totals_match (handlers_recent.recentInvoice clientsMap getEntries invoice).
Proof.
  unfold handlers_recent.recentInvoice.
  destruct (getEntries (db.invoice_ID invoice)) as [timeEntries | e]; [| split; reflexivity].
  destruct (default _ _) as [clientName clientCurrency]. split; cbn.
  - apply invoiceHoursOf_entries.
  - apply invoiceTotalOf_entries.
Qed.

Lemma entriesHours_snoc (l : list handlers.TimeEntryResponse) (e : handlers.TimeEntryResponse) :
  entriesHours (l ++ [e]) = (entriesHours l + handlers.te_Hours e)%float.
Proof. unfold entriesHours. now rewrite fold_left_app. Qed.

(** The loop of the time-entry statistics lists the entries in view, in
    order, and its hours are those of the entries listed. *)
Lemma timeEntryStep_entries (R : string) (range : Time * Time)
    (clientsMap : gmap Z db.GetClientsByUserIDRow) (rates : gmap string float)
    (es : list db.GetTimeEntriesByUserIDRow) :
  forall acc : handlers.entryAcc,
    let acc' := fold_left (handlers.timeEntryStep R (fst range) (snd range) clientsMap rates)
                  es acc in
    (handlers.acc_totalHours acc = entriesHours (handlers.filteredEntries acc) ->
     handlers.acc_totalHours acc' = entriesHours (handlers.filteredEntries acc'))
    /\ map handlers.te_ID (handlers.filteredEntries acc')
       = map handlers.te_ID (handlers.filteredEntries acc)
         ++ map db.entry_ID (List.filter (fun e => inView range (db.entry_Date e)) es).
Proof.
  induction es as [| e es IH]; intros acc acc'.
  - unfold acc'. cbn. rewrite app_nil_r. auto.
  - unfold acc'. cbn [fold_left List.filter].
    set (acc1 := handlers.timeEntryStep R (fst range) (snd range) clientsMap rates acc e).
    destruct (IH acc1) as [IHh IHl]. cbv zeta in IHh, IHl.
    assert (Hstep : (handlers.acc_totalHours acc = entriesHours (handlers.filteredEntries acc) ->
                     handlers.acc_totalHours acc1 = entriesHours (handlers.filteredEntries acc1))
                    /\ map handlers.te_ID (handlers.filteredEntries acc1)
                       = map handlers.te_ID (handlers.filteredEntries acc)
                         ++ map db.entry_ID
                              (if inView range (db.entry_Date e) then [e] else [])).
    { unfold acc1, handlers.timeEntryStep, inView.
      destruct (handlers.Before (db.entry_Date e) (fst range)
                || handlers.After (db.entry_Date e) (snd range)); cbn [negb].
      - cbn. rewrite app_nil_r. auto.
      - destruct (clientsMap !! db.entry_ClientID e) as [client |];
          cbn [handlers.filteredEntries handlers.acc_totalHours];
          rewrite entriesHours_snoc, map_app; cbn [handlers.te_Hours map handlers.te_ID];
          (split; [intros ->; reflexivity | reflexivity]). }
    destruct Hstep as [Hh Hl]. split; [auto |].
    rewrite IHl, Hl, <- app_assoc. f_equal.
    destruct (inView range (db.entry_Date e)); reflexivity.
Qed.

End ConsistencyFacts.

(** X11. Every invoice that GetInvoiceStats lists, and every slot of the
    reply of GetRecentInvoices, the zero-valued ones included, carries the
    totals of the time entries it lists: total_hours is the sum of their
    hours and total_amount the sum of hours times hourly rate, in the
    order of the list; and total_invoices counts the invoices listed. *)
Theorem invoice_totals_are_those_of_the_entries_listed :
  forall `{Runtime} `{Strconv} (c : handlers.Context) (q : db.Queries),
    (forall body, fst (handlers.GetInvoiceStats c q) = handlers.JSONOK body ->
                  Forall invoice_totals_match (handlers.Invoices body)
                  /\ handlers.TotalInvoices body = Z.of_nat (length (handlers.Invoices body)))
    /\ (forall response, fst (handlers_recent.GetRecentInvoices c q) = handlers.JSONOK response ->
                         Forall recent_totals_match response).
Proof.
  intros rt sc c q. split.
  - intros body. unfold handlers.GetInvoiceStats, db.bind, handlers.query. cbv zeta.
    destruct (db.GetUserByID q (handlers.user_id c)) as [user | e]; [| discriminate].
    destruct (db.GetInvoicesByUserID q (handlers.user_id c)) as [invoices | e]; [| discriminate].
    destruct (db.GetClientsByUserID q (handlers.user_id c)) as [clients | e]; [| discriminate].
    destruct (handlers.fetchConversionRates _ _ _ q) as [rates q1].
    cbn [fst db.ret]. intros [= <-]. cbn [handlers.Invoices handlers.TotalInvoices].
    split; [| reflexivity].
    apply invoiceStatsStep_totals_match. constructor.
  - intros response. unfold handlers_recent.GetRecentInvoices, db.bind, handlers.query. cbv zeta.
    destruct (handlers.dateParam (handlers.QueryParam c "from")) as [fromDate |]; [| discriminate].
    destruct (handlers.dateParam (handlers.QueryParam c "to")) as [parsed |]; [| discriminate].
    destruct (db.GetInvoicesByUserID q (handlers.user_id c)) as [invoices | e]; [| discriminate].
    destruct (db.GetClientsByUserID q (handlers.user_id c)) as [clients | e]; [| discriminate].
    cbn [fst db.ret]. intros [= <-].
    match goal with |- Forall _ (map _ ?sel) => induction sel as [| invoice rest IH] end;
      constructor; [apply recentInvoice_totals_match | exact IH].
Qed.

(** X12. In a 200 reply of GetTimeEntriesStats the entries listed are the
    entries of the user whose date lies in the view, in the order of the
    query, and total_hours is the sum of the hours of the entries listed. *)
Theorem time_entry_stats_list_the_entries_in_view :
  forall `{Runtime} (c : handlers.Context) (q : db.Queries)
         (body : handlers.TimeEntriesWithStatsResponse),
    fst (handlers.GetTimeEntriesStats c q) = handlers.JSONOK body ->
    handlers.ts_TotalHours body = entriesHours (handlers.Entries body)
    /\ exists currentDate timeEntries,
         time_Parse (handlers.QueryParam c "date") = Some currentDate
         /\ db.GetTimeEntriesByUserID q (handlers.user_id c) = Ok timeEntries
         /\ map handlers.te_ID (handlers.Entries body)
            = map db.entry_ID
                (List.filter
                   (fun e => inView (handlers.viewRange (handlers.QueryParam c "view_mode")
                                       currentDate) (db.entry_Date e))
                   timeEntries).
Proof.
  intros rt c q body.
  unfold handlers.GetTimeEntriesStats, handlers.getFilteredTimeEntriesWithStats. cbv zeta.
  destruct (String.eqb (handlers.QueryParam c "view_mode") ""
            || String.eqb (handlers.QueryParam c "date") ""); [discriminate |].
  destruct (negb (String.eqb (handlers.QueryParam c "view_mode") "daily")
            && negb (String.eqb (handlers.QueryParam c "view_mode") "weekly")
            && negb (String.eqb (handlers.QueryParam c "view_mode") "monthly")); [discriminate |].
  destruct (time_Parse (handlers.QueryParam c "date")) as [currentDate |]; [| discriminate].
  unfold db.bind, handlers.query.
  destruct (db.GetUserByID q (handlers.user_id c)) as [user | e]; [| discriminate].
  destruct (handlers.viewRange (handlers.QueryParam c "view_mode") currentDate)
    as [startDate endDate] eqn:Hrange.
  destruct (db.GetTimeEntriesByUserID q (handlers.user_id c)) as [timeEntries | e];
    [| discriminate].
  destruct (db.GetClientsByUserID q (handlers.user_id c)) as [clients | e]; [| discriminate].
  destruct (handlers.fetchConversionRates _ _ _ q) as [rates q1].
  cbn [fst db.ret]. intros [= <-].
  cbn [handlers.ts_TotalHours handlers.Entries].
  match goal with
  | |- context [fold_left (handlers.timeEntryStep ?R _ _ ?cm ?rs) _ ?acc0] =>
      destruct (timeEntryStep_entries R (startDate, endDate) cm rs timeEntries acc0) as [Hh Hl]
  end.
  cbn [fst snd handlers.filteredEntries map app] in Hh, Hl. split; [apply Hh; reflexivity |].
  exists currentDate, timeEntries. repeat split. rewrite Hrange. exact Hl.
Qed.

Lemma time_entry_stats_list_the_entries_in_view_witness :
  exists body,
    fst (@handlers.GetTimeEntriesStats goruntime.go (view_request "daily" "2025-10-26")
           (with_entries recent_entries scenario_store)) = handlers.JSONOK body
    /\ handlers.ts_TotalHours body = entriesHours (handlers.Entries body)
    /\ map handlers.te_ID (handlers.Entries body) = [2].
Proof.
  eexists. split; [vm_compute; reflexivity |].
  split.
  - apply (@time_entry_stats_list_the_entries_in_view goruntime.go
             (view_request "daily" "2025-10-26") (with_entries recent_entries scenario_store)).
    vm_compute. reflexivity.
  - reflexivity.
Defined.

Section SubtotalFacts.
Context `{Runtime}.

(** The reply of GetInvoiceStats when its queries succeed, with the rates
    that the pass fetched. *)
Lemma GetInvoiceStats_fold (c : handlers.Context) (q : db.Queries)
    (user : db.GetUserByIDRow) (invoices : list db.Invoice)
    (clients : list db.GetClientsByUserIDRow) :
  db.GetUserByID q (handlers.user_id c) = Ok user ->
  db.GetInvoicesByUserID q (handlers.user_id c) = Ok invoices ->
  db.GetClientsByUserID q (handlers.user_id c) = Ok clients ->
  let R := handlers.userCurrencyOf user in
  exists (statusFilter : string) (rates : gmap string float),
    (forall code, rates !! code = resolved q R clients code)
    /\ fst (handlers.GetInvoiceStats c q)
       = let acc := fold_left (handlers.invoiceStatsStep statusFilter R
                                 (handlers.clientsMapOf clients) rates
                                 (db.GetInvoiceTimeEntries q))
                      invoices
                      {| handlers.totalAmount := 0%float; handlers.paidAmount := 0%float;
                         handlers.unpaidAmount := 0%float; handlers.invoiceResponses := [] |} in
         handlers.JSONOK {| handlers.Invoices := handlers.invoiceResponses acc;
                            handlers.TotalInvoices :=
                              Z.of_nat (length (handlers.invoiceResponses acc));
                            handlers.TotalAmount := handlers.totalAmount acc;
                            handlers.PaidAmount := handlers.paidAmount acc;
                            handlers.UnpaidAmount := handlers.unpaidAmount acc |}.
Proof.
  intros Hu Hi Hc R.
  unfold handlers.GetInvoiceStats, db.bind, handlers.query. rewrite Hu, Hi, Hc. fold R.
  pose proof (fetched_rates q R clients) as Hrates.
  pose proof (fetchConversionRates_stmts R (elements (handlers.currenciesNeededOf R clients)) ∅ q)
    as Hst.
  destruct (handlers.fetchConversionRates R (elements (handlers.currenciesNeededOf R clients)) ∅ q)
    as [rates q1]. cbn [fst snd] in Hrates, Hst. subst q1.
  eexists _, rates. split; [exact Hrates | reflexivity].
Qed.

(** The reply of GetDashboardStats when its queries succeed and no date
    filter is given. *)
Lemma GetDashboardStats_fold (c : handlers.Context) (q : db.Queries)
    (user : db.GetUserByIDRow) (timeEntries : list db.GetTimeEntriesByUserIDRow)
    (clients : list db.GetClientsByUserIDRow) (invoices : list db.Invoice) :
  db.GetUserByID q (handlers.user_id c) = Ok user ->
  handlers.QueryParam c "from" = "" ->
  handlers.QueryParam c "to" = "" ->
  db.GetTimeEntriesByUserID q (handlers.user_id c) = Ok timeEntries ->
  db.GetClientsByUserID q (handlers.user_id c) = Ok clients ->
  db.GetInvoicesByUserID q (handlers.user_id c) = Ok invoices ->
  let R := handlers.userCurrencyOf user in
  exists (rates : gmap string float) (body : handlers.DashboardStatsResponse),
    (forall code, rates !! code = resolved q R clients code)
    /\ fst (handlers.GetDashboardStats c q) = handlers.JSONOK body
    /\ (handlers.UnpaidInvoices body, handlers.PaidInvoices body)
       = fold_left (handlers.dashboardInvoice R None None (handlers.clientsMapOf clients) rates
                      (db.GetInvoiceTimeEntries q))
           invoices (0%float, 0%float).
Proof.
  intros Hu Hfrom Hto He Hc Hi R.
  unfold handlers.GetDashboardStats, db.bind, handlers.query. rewrite Hu, Hfrom, Hto.
  cbn [handlers.dateParam String.eqb option_map]. rewrite He, Hc. fold R.
  pose proof (fetched_rates q R clients) as Hrates.
  pose proof (fetchConversionRates_stmts R (elements (handlers.currenciesNeededOf R clients)) ∅ q)
    as Hst.
  destruct (handlers.fetchConversionRates R (elements (handlers.currenciesNeededOf R clients)) ∅ q)
    as [rates q1]. cbn [fst snd] in Hrates, Hst. subst q1.
  match goal with |- context [fold_left ?f timeEntries ?a] => destruct (fold_left f timeEntries a) end.
  cbn [logged db.GetInvoicesByUserID db.GetInvoiceTimeEntries]. rewrite Hi.
  match goal with |- context [fold_left ?f invoices ?a] =>
    destruct (fold_left f invoices a) as [unpaid paid] eqn:Hfold end.
  eexists rates, _. split; [exact Hrates |]. split; [reflexivity |].
  cbn [handlers.UnpaidInvoices handlers.PaidInvoices]. symmetry. exact Hfold.
Qed.

Lemma isPaid_not_isUnpaid (invoice : db.Invoice) : isPaid invoice = true -> isUnpaid invoice = false.
Proof.
  unfold isPaid, isUnpaid. intros Hp. apply String.eqb_eq in Hp. now rewrite Hp.
Qed.

(** One round of the loop of the invoice statistics adds the amount of a
    paid invoice to paid_amount and that of a sent or overdue invoice to
    unpaid_amount. *)
Lemma invoiceStatsStep_subtotals (q : db.Queries) (statusFilter R : string)
    (clients : list db.GetClientsByUserIDRow) (rates : gmap string float)
    (m : string -> option float) :
  (forall c, rates !! c = m c) ->
  forall (invoice : db.Invoice) (acc : handlers.invoiceAcc),
    let acc' := handlers.invoiceStatsStep statusFilter R (handlers.clientsMapOf clients) rates
                  (db.GetInvoiceTimeEntries q) acc invoice in
    handlers.paidAmount acc'
    = fold_left (addItemWith R m) (invoiceItems q clients (List.filter isPaid [invoice]))
        (handlers.paidAmount acc)
    /\ handlers.unpaidAmount acc'
       = fold_left (addItemWith R m) (invoiceItems q clients (List.filter isUnpaid [invoice]))
           (handlers.unpaidAmount acc).
Proof.
  intros Hrates invoice acc acc'. unfold acc', handlers.invoiceStatsStep. cbn [List.filter].
  pose proof (isPaid_not_isUnpaid invoice) as Hexcl.
  fold (isPaid invoice). fold (isUnpaid invoice).
  destruct (isPaid invoice); [rewrite (Hexcl eq_refl) |]; destruct (isUnpaid invoice) eqn:Hun;
    try discriminate (Hexcl eq_refl);
    unfold invoiceItems; cbn [flat_map];
    (destruct (db.GetInvoiceTimeEntries q (db.invoice_ID invoice)) as [timeEntries | e];
     [| split; reflexivity]);
    cbn [app fold_left]; unfold addItemWith; cbn [currency amount];
    (destruct (handlers.clientsMapOf clients !! db.invoice_ClientID invoice) as [client |];
     try rewrite <- Hrates;
     match goal with |- context [negb (String.eqb ?c R)] => destruct (String.eqb c R) end;
     cbn [negb];
     match goal with
     | |- context [rates !! ?c] => destruct (rates !! c)
     | |- _ => idtac
     end;
     destruct (negb (String.eqb statusFilter "all")
               && negb (String.eqb (db.invoice_Status invoice) statusFilter));
     split; reflexivity).
Qed.

Lemma invoiceItems_app (q : db.Queries) (clients : list db.GetClientsByUserIDRow)
    (l1 l2 : list db.Invoice) :
  invoiceItems q clients (l1 ++ l2) = invoiceItems q clients l1 ++ invoiceItems q clients l2.
Proof. unfold invoiceItems. apply flat_map_app. Qed.

Lemma invoiceStatsStep_subtotals_all (q : db.Queries) (statusFilter R : string)
    (clients : list db.GetClientsByUserIDRow) (rates : gmap string float)
    (m : string -> option float) :
  (forall c, rates !! c = m c) ->
  forall (invoices : list db.Invoice) (acc : handlers.invoiceAcc),
    let acc' := fold_left (handlers.invoiceStatsStep statusFilter R (handlers.clientsMapOf clients)
                             rates (db.GetInvoiceTimeEntries q)) invoices acc in
    handlers.paidAmount acc'
    = fold_left (addItemWith R m) (invoiceItems q clients (List.filter isPaid invoices))
        (handlers.paidAmount acc)
    /\ handlers.unpaidAmount acc'
       = fold_left (addItemWith R m) (invoiceItems q clients (List.filter isUnpaid invoices))
           (handlers.unpaidAmount acc).
Proof.
  intros Hrates. induction invoices as [| invoice invoices IH]; intros acc acc';
    [split; reflexivity |].
  unfold acc'. cbn [fold_left].
  destruct (IH (handlers.invoiceStatsStep statusFilter R (handlers.clientsMapOf clients) rates
                  (db.GetInvoiceTimeEntries q) acc invoice)) as [IHp IHu].
  cbv zeta in IHp, IHu.
  destruct (invoiceStatsStep_subtotals q statusFilter R clients rates m Hrates invoice acc)
    as [Hp Hu]. cbv zeta in Hp, Hu.
  change (invoice :: invoices) with ([invoice] ++ invoices).
  rewrite !List.filter_app, !invoiceItems_app, !fold_left_app, IHp, IHu, Hp, Hu.
  split; reflexivity.
Qed.

(** A client of the list is found in the map under its id. *)
Lemma clientsMapOf_is_Some (clients : list db.GetClientsByUserIDRow) (id : Z) :
  (exists client, In client clients /\ db.client_ID client = id) ->
  is_Some (handlers.clientsMapOf clients !! id).
Proof.
  unfold handlers.clientsMapOf.
  assert (Hgen : forall (m : gmap Z db.GetClientsByUserIDRow),
             is_Some (m !! id) \/ (exists client, In client clients /\ db.client_ID client = id) ->
             is_Some (fold_left (fun clientsMap client => <[db.client_ID client := client]> clientsMap)
                        clients m !! id)).
  { induction clients as [| client clients IH]; intros m Hm.
    - destruct Hm as [Hm | (client & [] & _)]. exact Hm.
    - cbn [fold_left]. apply IH.
      destruct (decide (db.client_ID client = id)) as [<- | Hne].
      + left. rewrite lookup_insert_eq. eauto.
      + destruct Hm as [Hm | (client' & [<- | Hin] & Hid)].
        * left. now rewrite lookup_insert_ne.
        * contradiction.
        * right. eauto. }
  intros Hex. apply Hgen. now right.
Qed.

(** For an invoice of a known client, with no date filter, one round of
    the loop of the dashboard and one of the invoice statistics add the
    same amounts to the two sub-totals. *)
Lemma dashboardInvoice_invoiceStatsStep (statusFilter R : string)
    (clientsMap : gmap Z db.GetClientsByUserIDRow) (rates : gmap string float)
    (getEntries : Z -> result (list db.GetInvoiceTimeEntriesRow)) (invoices : list db.Invoice) :
  (forall invoice, In invoice invoices -> is_Some (clientsMap !! db.invoice_ClientID invoice)) ->
  forall acc : handlers.invoiceAcc,
    fold_left (handlers.dashboardInvoice R None None clientsMap rates getEntries) invoices
      (handlers.unpaidAmount acc, handlers.paidAmount acc)
    = (handlers.unpaidAmount
         (fold_left (handlers.invoiceStatsStep statusFilter R clientsMap rates getEntries)
            invoices acc),
       handlers.paidAmount
         (fold_left (handlers.invoiceStatsStep statusFilter R clientsMap rates getEntries)
            invoices acc)).
Proof.
  induction invoices as [| invoice invoices IH]; intros Hknown acc; [reflexivity |].
  cbn [fold_left].
  rewrite <- IH by (intros invoice' Hin; apply Hknown; now right). f_equal.
  destruct (Hknown invoice (or_introl eq_refl)) as [client Hclient].
  unfold handlers.dashboardInvoice, handlers.invoiceStatsStep, handlers.filteredOut.
  destruct (getEntries (db.invoice_ID invoice)) as [timeEntries | e]; [| reflexivity].
  rewrite Hclient.
  destruct (String.eqb_spec (db.invoice_Status invoice) "paid") as [Hpaid | Hpaid].
  - assert (Hs : String.eqb (db.invoice_Status invoice) "sent" = false) by now rewrite Hpaid.
    assert (Ho : String.eqb (db.invoice_Status invoice) "overdue" = false) by now rewrite Hpaid.
    rewrite Hs, Ho. cbn [orb].
    destruct (negb (String.eqb statusFilter "all")
              && negb (String.eqb (db.invoice_Status invoice) statusFilter));
      reflexivity.
  - destruct (String.eqb (db.invoice_Status invoice) "sent"
              || String.eqb (db.invoice_Status invoice) "overdue");
      destruct (negb (String.eqb statusFilter "all")
                && negb (String.eqb (db.invoice_Status invoice) statusFilter));
      reflexivity.
Qed.

End SubtotalFacts.

(** X13. In GetInvoiceStats, when the queries succeed, paid_amount is the
    total, in the reporting currency, of the invoices with status "paid",
    and unpaid_amount that of the invoices with status "sent" or
    "overdue": each is the sum, in the order of the query, of the amounts
    of those invoices whose time entries could be read, converted with the
    multipliers that the pass resolved. An invoice of any other status,
    such as "draft", counts in total_amount only. *)
Theorem invoice_stats_paid_and_unpaid_amounts :
  forall `{Runtime} (c : handlers.Context) (q : db.Queries) (user : db.GetUserByIDRow)
         (invoices : list db.Invoice) (clients : list db.GetClientsByUserIDRow),
    db.GetUserByID q (handlers.user_id c) = Ok user ->
    db.GetInvoicesByUserID q (handlers.user_id c) = Ok invoices ->
    db.GetClientsByUserID q (handlers.user_id c) = Ok clients ->
    let R := handlers.userCurrencyOf user in
    exists body,
      fst (handlers.GetInvoiceStats c q) = handlers.JSONOK body
      /\ handlers.PaidAmount body
         = total_with R (resolved q R clients)
             (invoiceItems q clients (List.filter isPaid invoices))
      /\ handlers.UnpaidAmount body
         = total_with R (resolved q R clients)
             (invoiceItems q clients (List.filter isUnpaid invoices)).
Proof.
  intros rt c q user invoices clients Hu Hi Hc R.
  destruct (GetInvoiceStats_fold c q user invoices clients Hu Hi Hc)
    as (statusFilter & rates & Hrates & Hreply).
  cbv zeta in Hreply. fold R in Hrates, Hreply.
  eexists. split; [exact Hreply |]. cbn [handlers.PaidAmount handlers.UnpaidAmount].
  apply (invoiceStatsStep_subtotals_all q statusFilter R clients rates (resolved q R clients)
           Hrates invoices).
Qed.

Lemma invoice_stats_paid_and_unpaid_amounts_witness :
  exists body,
    fst (@handlers.GetInvoiceStats goruntime.go plain_request recent_invoice_store)
    = handlers.JSONOK body
    /\ handlers.PaidAmount body
       = total_with "USD" (@resolved goruntime.go recent_invoice_store "USD" scenario_clients)
           (@invoiceItems goruntime.go recent_invoice_store scenario_clients
              (List.filter isPaid
                 [ db.mkInvoice 1 1 "INV-1" 1761264000000000000 "paid";
                   db.mkInvoice 2 2 "INV-2" 1761436800000000000 "sent";
                   db.mkInvoice 3 3 "INV-3" 1761350400000000000 "draft" ]))
    /\ handlers.UnpaidAmount body
       = total_with "USD" (@resolved goruntime.go recent_invoice_store "USD" scenario_clients)
           (@invoiceItems goruntime.go recent_invoice_store scenario_clients
              (List.filter isUnpaid
                 [ db.mkInvoice 1 1 "INV-1" 1761264000000000000 "paid";
                   db.mkInvoice 2 2 "INV-2" 1761436800000000000 "sent";
                   db.mkInvoice 3 3 "INV-3" 1761350400000000000 "draft" ])).
Proof.
  apply (@invoice_stats_paid_and_unpaid_amounts goruntime.go plain_request recent_invoice_store
           (db.mkUser (mkNullString "USD" true))); reflexivity.
Defined.

(** X14. The dashboard and the invoice statistics agree on the paid and
    unpaid sub-totals when the dashboard is asked without a date filter and
    every invoice belongs to one of the user's clients: unpaid_invoices is
    unpaid_amount and paid_invoices is paid_amount, as the same binary64
    values, whatever the status filter of the statistics. *)
Theorem dashboard_and_invoice_stats_agree_on_subtotals :
  forall `{Runtime} (c : handlers.Context) (q : db.Queries) (user : db.GetUserByIDRow)
         (timeEntries : list db.GetTimeEntriesByUserIDRow)
         (clients : list db.GetClientsByUserIDRow) (invoices : list db.Invoice),
    db.GetUserByID q (handlers.user_id c) = Ok user ->
    handlers.QueryParam c "from" = "" ->
    handlers.QueryParam c "to" = "" ->
    db.GetTimeEntriesByUserID q (handlers.user_id c) = Ok timeEntries ->
    db.GetClientsByUserID q (handlers.user_id c) = Ok clients ->
    db.GetInvoicesByUserID q (handlers.user_id c) = Ok invoices ->
    (forall invoice, In invoice invoices ->
       exists client, In client clients /\ db.client_ID client = db.invoice_ClientID invoice) ->
    exists dashboard stats,
      fst (handlers.GetDashboardStats c q) = handlers.JSONOK dashboard
      /\ fst (handlers.GetInvoiceStats c q) = handlers.JSONOK stats
      /\ handlers.UnpaidInvoices dashboard = handlers.UnpaidAmount stats
      /\ handlers.PaidInvoices dashboard = handlers.PaidAmount stats.
Proof.
  intros rt c q user timeEntries clients invoices Hu Hfrom Hto He Hc Hi Hknown.
  destruct (GetInvoiceStats_fold c q user invoices clients Hu Hi Hc)
    as (statusFilter & rates & Hrates & Hreply).
  destruct (GetDashboardStats_fold c q user timeEntries clients invoices Hu Hfrom Hto He Hc Hi)
    as (rates' & dashboard & Hrates' & Hdash & Hpair).
  assert (Heq : rates' = rates).
  { apply map_eq. intros code. now rewrite Hrates, Hrates'. }
  subst rates'. cbv zeta in Hreply.
  eexists dashboard, _. split; [exact Hdash |]. split; [exact Hreply |].
  cbn [handlers.UnpaidAmount handlers.PaidAmount].
  rewrite (dashboardInvoice_invoiceStatsStep statusFilter (handlers.userCurrencyOf user)
             (handlers.clientsMapOf clients) rates (db.GetInvoiceTimeEntries q) invoices)
    with (acc := {| handlers.totalAmount := 0%float; handlers.paidAmount := 0%float;
                    handlers.unpaidAmount := 0%float; handlers.invoiceResponses := [] |})
    in Hpair.
  - injection Hpair as Hun Hpa. auto.
  - intros invoice Hin. apply clientsMapOf_is_Some. now apply Hknown.
Qed.

Lemma dashboard_and_invoice_stats_agree_on_subtotals_witness :
  exists dashboard stats,
    fst (@handlers.GetDashboardStats goruntime.go plain_request recent_invoice_store)
    = handlers.JSONOK dashboard
    /\ fst (@handlers.GetInvoiceStats goruntime.go plain_request recent_invoice_store)
       = handlers.JSONOK stats
    /\ handlers.UnpaidInvoices dashboard = handlers.UnpaidAmount stats
    /\ handlers.PaidInvoices dashboard = handlers.PaidAmount stats.
Proof.
  apply (@dashboard_and_invoice_stats_agree_on_subtotals goruntime.go plain_request
           recent_invoice_store (db.mkUser (mkNullString "USD" true)) [] scenario_clients
           [ db.mkInvoice 1 1 "INV-1" 1761264000000000000 "paid";
             db.mkInvoice 2 2 "INV-2" 1761436800000000000 "sent";
             db.mkInvoice 3 3 "INV-3" 1761350400000000000 "draft" ]);
    try reflexivity.
  intros invoice [<- | [<- | [<- | []]]].
  - exists (db.mkClient 1 "Acme" "USD" (mkNullString "50.00" true)). split; [now left | reflexivity].
  - exists (db.mkClient 2 "Berlin" "EUR" (mkNullString "40.00" true)).
    split; [right; now left | reflexivity].
  - exists (db.mkClient 3 "Corner" "USD" (mkNullString "10.00" true)).
    split; [right; right; now left | reflexivity].
Defined.

Section ListFacts.
Context `{Runtime}.

(** The loop of the time-entry statistics lists the responses of the
    entries in view. *)
Lemma timeEntryStep_list (R : string) (range : Time * Time)
    (clientsMap : gmap Z db.GetClientsByUserIDRow) (rates : gmap string float)
    (es : list db.GetTimeEntriesByUserIDRow) :
  forall acc : handlers.entryAcc,
    handlers.filteredEntries
      (fold_left (handlers.timeEntryStep R (fst range) (snd range) clientsMap rates) es acc)
    = handlers.filteredEntries acc
      ++ map (statsEntry R clientsMap)
           (List.filter (fun e => inView range (db.entry_Date e)) es).
Proof.
  induction es as [| e es IH]; intros acc; [cbn; now rewrite app_nil_r |].
  cbn [fold_left List.filter]. rewrite IH.
  assert (Hstep : handlers.filteredEntries
                    (handlers.timeEntryStep R (fst range) (snd range) clientsMap rates acc e)
                  = handlers.filteredEntries acc
                    ++ (if inView range (db.entry_Date e) then [statsEntry R clientsMap e] else [])).
  { unfold handlers.timeEntryStep, inView, statsEntry.
    destruct (handlers.Before (db.entry_Date e) (fst range)
              || handlers.After (db.entry_Date e) (snd range)); cbn [negb];
      [now rewrite app_nil_r |].
    destruct (clientsMap !! db.entry_ClientID e) as [client |]; reflexivity. }
  rewrite Hstep. destruct (inView range (db.entry_Date e)); cbn [map];
    [now rewrite <- app_assoc | now rewrite app_nil_r].
Qed.

(** The two maps of the clients agree on the names. *)
Lemma clientNamesOf_clientsMapOf (clients : list db.GetClientsByUserIDRow) (id : Z) :
  handlers_recent.clientNamesOf clients !! id
  = option_map db.client_Name (handlers.clientsMapOf clients !! id).
Proof.
  unfold handlers_recent.clientNamesOf, handlers.clientsMapOf.
  assert (Hgen : forall (m1 : gmap Z string) (m2 : gmap Z db.GetClientsByUserIDRow),
             m1 !! id = option_map db.client_Name (m2 !! id) ->
             fold_left (fun clientsMap client =>
                          <[db.client_ID client := db.client_Name client]> clientsMap) clients m1
               !! id
             = option_map db.client_Name
                 (fold_left (fun clientsMap client => <[db.client_ID client := client]> clientsMap)
                    clients m2 !! id)).
  { induction clients as [| client clients IH]; intros m1 m2 Hm; [exact Hm |].
    cbn [fold_left]. apply IH.
    destruct (decide (db.client_ID client = id)) as [<- | Hne].
    - now rewrite !lookup_insert_eq.
    - now rewrite !lookup_insert_ne. }
  apply Hgen. now rewrite !lookup_empty.
Qed.

Lemma namedResponse_statsEntry (R : string) (clients : list db.GetClientsByUserIDRow)
    (entry : db.GetTimeEntriesByUserIDRow) :
  same_entry (handlers_time_entry.namedResponse (handlers_recent.clientNamesOf clients) entry)
             (statsEntry R (handlers.clientsMapOf clients) entry).
Proof.
  unfold same_entry, handlers_time_entry.namedResponse, statsEntry.
  rewrite clientNamesOf_clientsMapOf.
  destruct (handlers.clientsMapOf clients !! db.entry_ClientID entry) as [client |]; cbn;
    repeat split; [left | right; split]; reflexivity.
Qed.

End ListFacts.

(** X15. For the same accepted view (view_mode daily, weekly or monthly and
    a date that parses), GetTimeEntries and GetTimeEntriesStats list the
    same time entries in the same order: those whose date lies in the
    view. Entry by entry the id, the hours and the hourly rate are the
    same; the client name is the same when the client is known, and for
    an unknown client the list leaves it empty where the statistics say
    "Unknown". *)
Theorem time_entries_and_their_stats_list_the_same_entries :
  forall `{Runtime} (c : handlers.Context) (q : db.Queries) (currentDate : Time)
         (user : db.GetUserByIDRow) (timeEntries : list db.GetTimeEntriesByUserIDRow)
         (clients : list db.GetClientsByUserIDRow),
    In (handlers.QueryParam c "view_mode") ["daily"; "weekly"; "monthly"] ->
    handlers.QueryParam c "date" <> "" ->
    time_Parse (handlers.QueryParam c "date") = Some currentDate ->
    db.GetUserByID q (handlers.user_id c) = Ok user ->
    db.GetTimeEntriesByUserID q (handlers.user_id c) = Ok timeEntries ->
    db.GetClientsByUserID q (handlers.user_id c) = Ok clients ->
    let inview := List.filter
                    (fun e => inView (handlers.viewRange (handlers.QueryParam c "view_mode")
                                        currentDate) (db.entry_Date e))
                    timeEntries in
    exists listed body,
      fst (handlers_time_entry.GetTimeEntries c q) = handlers.JSONOK listed
      /\ fst (handlers.GetTimeEntriesStats c q) = handlers.JSONOK body
      /\ map handlers.te_ID listed = map db.entry_ID inview
      /\ Forall2 same_entry listed (handlers.Entries body).
Proof.
  intros rt c q currentDate user timeEntries clients Hview Hdate Hparse Hu He Hc inview.
  set (viewMode := handlers.QueryParam c "view_mode") in *.
  set (dateStr := handlers.QueryParam c "date") in *.
  assert (Hvalid : negb (String.eqb viewMode "daily") && negb (String.eqb viewMode "weekly")
                   && negb (String.eqb viewMode "monthly") = false
                   /\ String.eqb viewMode "" = false).
  { destruct Hview as [<- | [<- | [<- | []]]]; split; reflexivity. }
  destruct Hvalid as [Hvalid Hnonempty]. apply String.eqb_neq in Hdate.
  set (R := handlers.userCurrencyOf user).
  exists (map (handlers_time_entry.namedResponse (handlers_recent.clientNamesOf clients)) inview),
         {| handlers.Entries := map (statsEntry R (handlers.clientsMapOf clients)) inview;
            handlers.ts_TotalHours :=
              handlers.acc_totalHours
                (fold_left (handlers.timeEntryStep R (fst (handlers.viewRange viewMode currentDate))
                              (snd (handlers.viewRange viewMode currentDate))
                              (handlers.clientsMapOf clients)
                              (fst (handlers.fetchConversionRates R
                                      (elements (handlers.currenciesNeededOf R clients)) ∅ q)))
                   timeEntries
                   {| handlers.filteredEntries := []; handlers.acc_totalHours := 0%float;
                      handlers.acc_totalRevenue := 0%float |});
            handlers.ts_TotalRevenue :=
              handlers.acc_totalRevenue
                (fold_left (handlers.timeEntryStep R (fst (handlers.viewRange viewMode currentDate))
                              (snd (handlers.viewRange viewMode currentDate))
                              (handlers.clientsMapOf clients)
                              (fst (handlers.fetchConversionRates R
                                      (elements (handlers.currenciesNeededOf R clients)) ∅ q)))
                   timeEntries
                   {| handlers.filteredEntries := []; handlers.acc_totalHours := 0%float;
                      handlers.acc_totalRevenue := 0%float |}) |}.
  repeat split.
  - unfold handlers_time_entry.GetTimeEntries, db.bind, handlers.query. cbv zeta.
    fold viewMode dateStr. rewrite He, Hnonempty, Hdate. cbn [orb].
    unfold handlers_time_entry.filterTimeEntries. rewrite Hvalid, Hparse.
    unfold inview. destruct (handlers.viewRange viewMode currentDate) as [startDate endDate].
    rewrite Hc. cbn [fst db.ret]. do 2 f_equal. apply List.filter_ext.
    intros e. unfold inView. cbn [fst snd]. now rewrite negb_orb.
  - unfold handlers.GetTimeEntriesStats. fold viewMode dateStr.
    rewrite Hnonempty, Hdate. cbn [orb].
    unfold handlers.getFilteredTimeEntriesWithStats. rewrite Hvalid, Hparse.
    unfold db.bind, handlers.query. rewrite Hu. fold R.
    unfold inview.
    destruct (handlers.viewRange viewMode currentDate) as [startDate endDate] eqn:Hrange.
    rewrite He, Hc.
    destruct (handlers.fetchConversionRates R (elements (handlers.currenciesNeededOf R clients)) ∅ q)
      as [rates q1]. cbn [fst snd db.ret]. f_equal.
    pose proof (timeEntryStep_list R (startDate, endDate) (handlers.clientsMapOf clients) rates
                  timeEntries
                  {| handlers.filteredEntries := []; handlers.acc_totalHours := 0%float;
                     handlers.acc_totalRevenue := 0%float |}) as Hl.
    cbn [fst snd handlers.filteredEntries app] in Hl. now rewrite Hl.
  - rewrite map_map. apply map_ext. intros e. unfold handlers_time_entry.namedResponse.
    destruct (_ !! _); reflexivity.
  - cbn [handlers.Entries]. induction inview as [| e es IH]; constructor; [| exact IH].
    apply namedResponse_statsEntry.
Qed.

Lemma time_entries_and_their_stats_list_the_same_entries_witness :
  let c := view_request "monthly" "2025-10-26" in
  let q := with_entries (recent_entries ++ [orphan_entry]) scenario_store in
  let inview := List.filter
                  (fun e => inView (@handlers.viewRange goruntime.go "monthly"
                                      1761436800000000000) (db.entry_Date e))
                  (recent_entries ++ [orphan_entry]) in
  exists listed body,
    fst (@handlers_time_entry.GetTimeEntries goruntime.go c q) = handlers.JSONOK listed
    /\ fst (@handlers.GetTimeEntriesStats goruntime.go c q) = handlers.JSONOK body
    /\ map handlers.te_ID listed = map db.entry_ID inview
    /\ Forall2 same_entry listed (handlers.Entries body).
Proof.
  apply (@time_entries_and_their_stats_list_the_same_entries goruntime.go
           (view_request "monthly" "2025-10-26")
           (with_entries (recent_entries ++ [orphan_entry]) scenario_store)
           1761436800000000000 (db.mkUser (mkNullString "USD" true))
           (recent_entries ++ [orphan_entry]) scenario_clients).
  - right; right; left; reflexivity.
  - discriminate.
  - reflexivity.
  - reflexivity.
  - reflexivity.
  - reflexivity.
Defined.

(** X16. Without view_mode or without date, GetTimeEntries does not
    filter and does not validate: it returns every time entry of the user,
    in the order of the query, each with an empty client name, without
    reading the clients, even when the parameter that is present is not
    valid; GetTimeEntriesStats answers 400 to the same request. *)
Theorem time_entries_without_a_view_are_all_returned :
  forall `{Runtime} (c : handlers.Context) (q : db.Queries)
         (timeEntries : list db.GetTimeEntriesByUserIDRow),
    handlers.QueryParam c "view_mode" = "" \/ handlers.QueryParam c "date" = "" ->
    db.GetTimeEntriesByUserID q (handlers.user_id c) = Ok timeEntries ->
    exists listed,
      handlers_time_entry.GetTimeEntries c q = (handlers.JSONOK listed, q)
      /\ map handlers.te_ID listed = map db.entry_ID timeEntries
      /\ Forall (fun r => handlers.te_ClientName r = "") listed
      /\ handlers.GetTimeEntriesStats c q
         = (handlers.JSONError 400 "view_mode and date parameters are required", q).
Proof.
  intros rt c q timeEntries Hmissing He.
  assert (Hb : String.eqb (handlers.QueryParam c "view_mode") ""
               || String.eqb (handlers.QueryParam c "date") "" = true).
  { destruct Hmissing as [-> | ->]; cbn [String.eqb]; [reflexivity | apply orb_true_r]. }
  exists (map handlers_time_entry.getTimeEntriesByUserIDRowToResponse timeEntries).
  repeat split.
  - unfold handlers_time_entry.GetTimeEntries, db.bind, handlers.query. cbv zeta.
    now rewrite He, Hb.
  - now rewrite map_map.
  - clear He. induction timeEntries as [| e es IH]; constructor; auto.
  - unfold handlers.GetTimeEntriesStats. cbv zeta. now rewrite Hb.
Qed.

Lemma time_entries_without_a_view_are_all_returned_witness :
  exists listed,
    @handlers_time_entry.GetTimeEntries goruntime.go (view_request "yearly" "")
      (with_entries recent_entries scenario_store)
    = (handlers.JSONOK listed, with_entries recent_entries scenario_store)
    /\ map handlers.te_ID listed = map db.entry_ID recent_entries
    /\ Forall (fun r => handlers.te_ClientName r = "") listed
    /\ @handlers.GetTimeEntriesStats goruntime.go (view_request "yearly" "")
         (with_entries recent_entries scenario_store)
       = (handlers.JSONError 400 "view_mode and date parameters are required",
          with_entries recent_entries scenario_store).
Proof.
  apply (@time_entries_without_a_view_are_all_returned goruntime.go (view_request "yearly" "")
           (with_entries recent_entries scenario_store) recent_entries).
  - right. reflexivity.
  - reflexivity.
Defined.

(** X17. The weekly view starts on a Monday. When the time library counts
    the weekday of the days before the requested date as the calendar does
    (the day k days before, 0 <= k <= 6, has weekday (d - k) mod 7, also
    after truncation to midnight), the start of the range that viewRange
    computes for "weekly" has weekday 1, whatever the weekday d of the
    date, Sunday (0) included. *)
Theorem weekly_view_starts_on_a_monday :
  forall `{Runtime} (currentDate : Time),
    (0 <= Weekday currentDate <= 6)%Z ->
    (forall k, (0 <= k <= 6)%Z ->
       Weekday (startOfDay (AddDate currentDate 0 0 (- k))) = ((Weekday currentDate - k) mod 7)%Z) ->
    Weekday (fst (handlers.viewRange "weekly" currentDate)) = 1.
Proof.
  intros rt currentDate Hday Hlib. unfold handlers.viewRange.
  cbn [String.eqb Ascii.eqb Bool.eqb fst].
  destruct (Weekday currentDate =? 0)%Z eqn:Hsun.
  - apply Z.eqb_eq in Hsun. rewrite Hlib by lia. now rewrite Hsun.
  - apply Z.eqb_neq in Hsun. rewrite Hlib by lia.
    replace (Weekday currentDate - (Weekday currentDate - 1)) with 1 by lia. reflexivity.
Qed.

Lemma weekly_view_starts_on_a_monday_witness :
  goruntime.Weekday (fst (@handlers.viewRange goruntime.go "weekly" 1761436800000000000)) = 1.
Proof.
  apply (@weekly_view_starts_on_a_monday goruntime.go 1761436800000000000).
  - vm_compute. split; discriminate.
  - intros k Hk.
    assert (Hcases : k = 0 \/ k = 1 \/ k = 2 \/ k = 3 \/ k = 4 \/ k = 5 \/ k = 6) by lia.
    destruct Hcases as [-> | [-> | [-> | [-> | [-> | [-> | ->]]]]]]; vm_compute; reflexivity.
Defined.

(** X18. In GetDashboardStats, when the dates parse and the queries
    succeed, total_hours is the sum, in the order of the query, of the
    parsed hours of every time entry whose date passes the filter, whether
    its client is known or not and whatever the rate store answers. *)
Theorem dashboard_total_hours_counts_every_entry_in_range :
  forall `{Runtime} (c : handlers.Context) (q : db.Queries) (user : db.GetUserByIDRow)
         (range : option Time * option Time)
         (timeEntries : list db.GetTimeEntriesByUserIDRow)
         (clients : list db.GetClientsByUserIDRow) (invoices : list db.Invoice),
    db.GetUserByID q (handlers.user_id c) = Ok user ->
    dashboardRange c = Some range ->
    db.GetTimeEntriesByUserID q (handlers.user_id c) = Ok timeEntries ->
    db.GetClientsByUserID q (handlers.user_id c) = Ok clients ->
    db.GetInvoicesByUserID q (handlers.user_id c) = Ok invoices ->
    exists body,
      fst (handlers.GetDashboardStats c q) = handlers.JSONOK body
      /\ handlers.TotalHours body
         = sumHours (List.filter (fun entry => inRange range (db.entry_Date entry)) timeEntries).
Proof.
  intros rt c q user range timeEntries clients invoices Hu Hrange He Hc Hi.
  destruct (GetDashboardStats_reply c q user range timeEntries clients invoices Hu Hrange He Hc Hi)
    as (body & Hreply & Hhours & _).
  exists body. now rewrite Hreply.
Qed.

Lemma dashboard_total_hours_counts_every_entry_in_range_witness :
  exists body,
    fst (@handlers.GetDashboardStats goruntime.go plain_request
           (with_entries (scenario_entries ++ [orphan_entry]) scenario_store))
    = handlers.JSONOK body
    /\ handlers.TotalHours body
       = @sumHours goruntime.go
           (List.filter (fun entry => inRange (None, None) (db.entry_Date entry))
              (scenario_entries ++ [orphan_entry])).
Proof.
  apply (@dashboard_total_hours_counts_every_entry_in_range goruntime.go plain_request
           (with_entries (scenario_entries ++ [orphan_entry]) scenario_store)
           (db.mkUser (mkNullString "USD" true)) (None, None)
           (scenario_entries ++ [orphan_entry]) scenario_clients []); reflexivity.
Defined.
